(** * Question answering over the Mahabharata with Haystack

    A shallow embedding of the two notebooks of the repository,

      - [QnA_Mahabharata_Dense.ipynb]  (FAISS store, embedding retriever),
      - [QnA_Mahabharata_Sparse.ipynb] (in-memory store, BM25 retriever),

    and the properties their specification states about them.

    The notebooks only sequence calls into the Haystack library.  Each code
    cell is embedded as a computation in a state-and-exception monad over a
    kernel (the log of the calls made so far, and the world the library acts
    on: disk, Python environment, live store objects, standard output).  The
    library itself is a record of fallible operations ([Library]); the cells
    are written once, over an arbitrary library. *)

From Stdlib Require Import ZArith.
From stdpp Require Import base option list gmap strings sorting.

Open Scope string_scope.
Open Scope list_scope.

#[local] Set Warnings "-clear-no-such-hyp".

(** ** Data model *)

(** Modelled from the spec: the "embedding vector" of a Document.  Its
    components are real numbers in the library; only the presence of a vector
    and the dot product matter here. *)
Definition Embedding := list Z.

(** Modelled from the spec: "Document: a chunk of source text plus optional
    metadata and optional embedding vector"; the metadata kept is the name of
    the file the text comes from, and [id] is the Document's identity. *)
Record Document := mkDocument {
  content : string;
  name : string;
  embedding : option Embedding;
  id : string
}.

(** The keyword arguments of [PreProcessor(...)], as both notebooks give
    them; the object the constructor returns is taken to carry them. *)
Record PreProcessor := mkPreProcessor {
  clean_empty_lines : bool;
  clean_whitespace : bool;
  clean_header_footer : bool;
  split_by : string;
  split_length : nat;
  split_respect_sentence_boundary : bool;
  split_overlap : nat
}.

(** Modelled from the spec: a retriever, "bound to the document store": it
    keeps a reference to the store object it was built on. *)
Inductive Retriever :=
| EmbeddingRetriever_on (document_store : nat) (embedding_model : string)
| BM25Retriever_on (document_store : nat).

(** Modelled from the spec: the reader, a "pretrained extractive QA
    transformer model", known by the arguments it was built with. *)
Record Reader := mkReader {
  model_name_or_path : string;
  use_gpu : bool
}.

(** Modelled from the spec: the "fixed two-stage pipeline object". *)
Record Pipeline := mkPipeline {
  pipe_reader : Reader;
  pipe_retriever : Retriever
}.

(** Modelled from the spec: the indexing pipeline of the sparse notebook,
    built on a store and a pre-processor. *)
Record IndexingPipeline := mkIndexingPipeline {
  indexing_store : nat;
  indexing_preprocessor : PreProcessor
}.

(** Modelled from the spec: an answer, with "extracted answer spans,
    confidence scores, and the source Document references". *)
Record Answer := mkAnswer {
  answer : string;
  score : Z;
  document_id : string
}.

(** Modelled from the spec: "Prediction/Answer: an ephemeral result object
    returned per query": the query, the ranked answers, and the documents the
    retriever handed to the reader. *)
Record Prediction := mkPrediction {
  query : string;
  answers : list Answer;
  documents : list Document
}.

(** ** The world the library acts on *)

(** Modelled from the spec: a live "Document Store" object.  The FAISS store
    keeps its vector index in memory and its documents in the relational
    database named by [sql_url]; the in-memory store keeps everything in the
    object. *)
Inductive StoreObj :=
| FAISSStore (sql_url faiss_index_factory_str : string)
             (return_embedding : bool) (faiss_index : gmap string Embedding)
| InMemoryStore (use_bm25 : bool) (stored : gmap string Document).

(** Modelled from the spec: what a file holds: corpus text, the relational
    database, a serialized vector index, or a store configuration. *)
Inductive File :=
| TextFile (text : string)
| SqliteDb (rows : gmap string Document)
| FaissIndexFile (vectors : gmap string Embedding)
| JsonConfig (sql_url faiss_index_factory_str : string) (return_embedding : bool).

(** Modelled from the spec: what the library can read and change: the files,
    the installed packages and downloaded models of the Python environment,
    the live store objects of the kernel, and standard output. *)
Record World := mkWorld {
  disk : gmap string File;
  site_packages : gset string;
  model_cache : gset string;
  heap : gmap nat StoreObj;
  stdout : list string
}.

(** ** Exceptions, results, the kernel monad *)

Inductive exn :=
| AssertionError
| AttributeError
| Raised (kind : string).

Inductive result (A : Type) :=
| Ok (a : A)
| Err (e : exn).
Arguments Ok {A} a.
Arguments Err {A} e.

(** A library operation: it may raise, and the world it leaves behind
    survives the exception. *)
Definition Op (A : Type) : Type := World → result A * World.

(** Shell commands of the [%%bash] cells. *)
Inductive ShellCmd :=
| pip_install (env flags : list string) (package : string) (version : option string)
| pip_list_grep (pattern : string).

(** The calls the notebooks make, with the literal arguments of the source. *)
Inductive Call :=
| call_bash (script : list ShellCmd)
| call_import (module : string) (names : list string)
| call_logging_basicConfig (format level : string)
| call_logging_setLevel (logger level : string)
| call_FAISSDocumentStore (sql_url faiss_index_factory_str : string) (return_embedding : bool)
| call_convert_files_to_docs (dir_path clean_func : string) (split_paragraphs : bool)
| call_PreProcessor (kwargs : PreProcessor)
| call_process
| call_write_documents
| call_EmbeddingRetriever (embedding_model : string)
| call_update_embeddings
| call_save (index_path : string)
| call_load (index_path config_path : string)
| call_FARMReader (model_name_or_path : string) (use_gpu : bool)
| call_ExtractiveQAPipeline
| call_run (query : string) (params : gmap string (gmap string nat))
| call_print_answers (details : string)
| call_InMemoryDocumentStore (use_bm25 : bool)
| call_TextIndexingPipeline
| call_run_batch (file_paths : list string)
| call_BM25Retriever
| call_pprint.

(** A log entry: the call, and the exception it raised if it did. *)
Abbreviation Entry := (Call * option exn)%type.

Record Kernel := mkKernel {
  trace : list Entry;
  world : World
}.

Definition M (A : Type) : Type := Kernel → result A * Kernel.

Definition ret {A} (a : A) : M A := λ k, (Ok a, k).

Definition raise {A} (e : exn) : M A := λ k, (Err e, k).

Definition bind {A B} (c : M A) (f : A → M B) : M B :=
  λ k, match c k with
       | (Ok a, k') => f a k'
       | (Err e, k') => (Err e, k')
       end.

#[global] Instance M_ret : MRet M := @ret.
#[global] Instance M_bind : MBind M := λ A B f c, bind c f.

#[global] Instance result_fmap : FMap result :=
  λ A B f r, match r with Ok a => Ok (f a) | Err e => Err e end.

Definition raised {A} (r : result A) : option exn :=
  match r with Ok _ => None | Err e => Some e end.

(** Invoking a library operation: it runs on the kernel's world and is
    logged together with its outcome. *)
Definition call {A} (c : Call) (op : Op A) : M A :=
  λ k, let '(r, w) := op (world k) in
       (r, {| trace := trace k ++ [(c, raised r)]; world := w |}).

(** Python's [assert]. *)
Definition assert (b : bool) : M unit :=
  if b then ret tt else raise AssertionError.

(** Reading an attribute of a live store object. *)
Definition getattr_faiss_index_factory_str (store : nat) : M string :=
  λ k, match heap (world k) !! store with
       | Some (FAISSStore _ f _ _) => (Ok f, k)
       | _ => (Err AttributeError, k)
       end.

(** ** The library interface *)

Record Library := mkLibrary {
  lib_bash : list ShellCmd → Op unit;
  lib_import : string → list string → Op unit;
  lib_logging_basicConfig : string → string → Op unit;
  lib_logging_setLevel : string → string → Op unit;
  lib_FAISSDocumentStore : string → string → bool → Op nat;
  lib_convert_files_to_docs : string → string → bool → Op (list Document);
  lib_PreProcessor : PreProcessor → Op PreProcessor;
  lib_process : PreProcessor → list Document → Op (list Document);
  lib_write_documents : nat → list Document → Op unit;
  lib_EmbeddingRetriever : nat → string → Op Retriever;
  lib_update_embeddings : nat → Retriever → Op unit;
  lib_save : nat → string → Op unit;
  lib_load : string → string → Op nat;
  lib_FARMReader : string → bool → Op Reader;
  lib_ExtractiveQAPipeline : Reader → Retriever → Op Pipeline;
  lib_run : Pipeline → string → gmap string (gmap string nat) → Op Prediction;
  lib_print_answers : Prediction → string → Op unit;
  lib_InMemoryDocumentStore : bool → Op nat;
  lib_TextIndexingPipeline : nat → PreProcessor → Op IndexingPipeline;
  lib_run_batch : IndexingPipeline → list string → Op unit;
  lib_BM25Retriever : nat → Op Retriever;
  lib_pprint : Prediction → Op unit
}.

(** ** The notebooks *)

Section Notebooks.

Variable L : Library.

(** The library's callables, under the names the notebooks use. *)

Definition bash (script : list ShellCmd) : M unit :=
  call (call_bash script) (lib_bash L script).

Definition import (module : string) (names : list string) : M unit :=
  call (call_import module names) (lib_import L module names).

Definition logging_basicConfig (format level : string) : M unit :=
  call (call_logging_basicConfig format level) (lib_logging_basicConfig L format level).

Definition logging_setLevel (logger level : string) : M unit :=
  call (call_logging_setLevel logger level) (lib_logging_setLevel L logger level).

Definition FAISSDocumentStore (sql_url faiss_index_factory_str : string)
    (return_embedding : bool) : M nat :=
  call (call_FAISSDocumentStore sql_url faiss_index_factory_str return_embedding)
       (lib_FAISSDocumentStore L sql_url faiss_index_factory_str return_embedding).

Definition convert_files_to_docs (dir_path clean_func : string)
    (split_paragraphs : bool) : M (list Document) :=
  call (call_convert_files_to_docs dir_path clean_func split_paragraphs)
       (lib_convert_files_to_docs L dir_path clean_func split_paragraphs).

Definition PreProcessor_ (kwargs : PreProcessor) : M PreProcessor :=
  call (call_PreProcessor kwargs) (lib_PreProcessor L kwargs).

Definition process (processor : PreProcessor) (ds : list Document) : M (list Document) :=
  call call_process (lib_process L processor ds).

Definition write_documents (store : nat) (ds : list Document) : M unit :=
  call call_write_documents (lib_write_documents L store ds).

Definition EmbeddingRetriever (document_store : nat) (embedding_model : string) : M Retriever :=
  call (call_EmbeddingRetriever embedding_model)
       (lib_EmbeddingRetriever L document_store embedding_model).

Definition update_embeddings (store : nat) (retriever : Retriever) : M unit :=
  call call_update_embeddings (lib_update_embeddings L store retriever).

Definition save (store : nat) (index_path : string) : M unit :=
  call (call_save index_path) (lib_save L store index_path).

Definition load (index_path config_path : string) : M nat :=
  call (call_load index_path config_path) (lib_load L index_path config_path).

Definition FARMReader (model_name_or_path : string) (use_gpu : bool) : M Reader :=
  call (call_FARMReader model_name_or_path use_gpu)
       (lib_FARMReader L model_name_or_path use_gpu).

Definition ExtractiveQAPipeline (reader : Reader) (retriever : Retriever) : M Pipeline :=
  call call_ExtractiveQAPipeline (lib_ExtractiveQAPipeline L reader retriever).

Definition run (pipe : Pipeline) (query : string)
    (params : gmap string (gmap string nat)) : M Prediction :=
  call (call_run query params) (lib_run L pipe query params).

Definition print_answers (prediction : Prediction) (details : string) : M unit :=
  call (call_print_answers details) (lib_print_answers L prediction details).

Definition InMemoryDocumentStore (use_bm25 : bool) : M nat :=
  call (call_InMemoryDocumentStore use_bm25) (lib_InMemoryDocumentStore L use_bm25).

Definition TextIndexingPipeline (store : nat) (preprocessor : PreProcessor)
    : M IndexingPipeline :=
  call call_TextIndexingPipeline (lib_TextIndexingPipeline L store preprocessor).

Definition run_batch (p : IndexingPipeline) (file_paths : list string) : M unit :=
  call (call_run_batch file_paths) (lib_run_batch L p file_paths).

Definition BM25Retriever (document_store : nat) : M Retriever :=
  call call_BM25Retriever (lib_BM25Retriever L document_store).

Definition pprint (prediction : Prediction) : M unit :=
  call call_pprint (lib_pprint L prediction).

(** *** Cells shared by both notebooks *)

Definition logging_cell : M unit :=
  import "logging" [] ;;
  logging_basicConfig "%(levelname)s - %(name)s -  %(message)s" "WARNING" ;;
  logging_setLevel "haystack" "INFO".

Definition doc_dir : string := "data/Mahabharata".

Definition reader_cell : M Reader :=
  import "haystack.nodes" ["FARMReader"] ;;
  FARMReader "deepset/roberta-base-squad2" true.

Definition pipeline_cell (reader : Reader) (retriever : Retriever) : M Pipeline :=
  import "haystack.pipelines" ["ExtractiveQAPipeline"] ;;
  ExtractiveQAPipeline reader retriever.

Definition run_params : gmap string (gmap string nat) :=
  {[ "Retriever" := {[ "top_k" := 10 ]}; "Reader" := {[ "top_k" := 2 ]} ]}.

Definition ask_cell (pipe : Pipeline) (q : string) : M Prediction :=
  run pipe q run_params.

Definition print_answers_cell (prediction : Prediction) : M unit :=
  import "haystack.utils" ["print_answers"] ;;
  print_answers prediction "medium".

(** *** QnA_Mahabharata_Dense.ipynb *)

Definition dense_install_cell : M unit :=
  bash [ pip_install [] ["--upgrade"] "pip" None;
         pip_install [] [] "greenlet" None;
         pip_install ["GRPC_PYTHON_BUILD_SYSTEM_ZLIB=true"] [] "farm-haystack" None ].

Definition dense_check_faiss_cell : M unit :=
  bash [ pip_list_grep "faiss" ].

Definition dense_install_faiss_cell : M unit :=
  bash [ pip_install [] [] "faiss-cpu" None ].

Definition dense_check_sqlalchemy_cell : M unit :=
  bash [ pip_list_grep "SQLAlchemy" ].

Definition dense_install_sqlalchemy_cell : M unit :=
  bash [ pip_install [] ["--force-reinstall"; "-v"] "SQLAlchemy" (Some "1.4.47") ].

Definition sql_url : string := "sqlite:///mahabharata.db".

Definition dense_store_cell : M nat :=
  import "faiss" [] ;;
  import "haystack.document_stores" ["FAISSDocumentStore"] ;;
  FAISSDocumentStore sql_url "Flat" true.

Definition dense_convert_cell : M (list Document) :=
  import "haystack.utils" ["clean_wiki_text"; "convert_files_to_docs"] ;;
  convert_files_to_docs doc_dir "clean_wiki_text" true.

Definition dense_preprocessor : PreProcessor :=
  {| clean_empty_lines := true;
     clean_whitespace := true;
     clean_header_footer := true;
     split_by := "word";
     split_length := 100;
     split_respect_sentence_boundary := true;
     split_overlap := 0 |}.

Definition dense_process_cell (files_to_docs : list Document) : M (list Document) :=
  import "haystack.nodes" ["PreProcessor"] ;;
  processor ← PreProcessor_ dense_preprocessor;
  process processor files_to_docs.

Definition dense_write_cell (sqlite_document_store : nat) (docs : list Document) : M unit :=
  write_documents sqlite_document_store docs.

Definition dense_embedding_model : string :=
  "sentence-transformers/multi-qa-mpnet-base-dot-v1".

Definition dense_retriever_cell (sqlite_document_store : nat) : M Retriever :=
  import "haystack.nodes" ["EmbeddingRetriever"] ;;
  EmbeddingRetriever sqlite_document_store dense_embedding_model.

Definition dense_update_cell (sqlite_document_store : nat) (retriever : Retriever) : M unit :=
  update_embeddings sqlite_document_store retriever.

Definition dense_save_cell (sqlite_document_store : nat) : M unit :=
  save sqlite_document_store "mahabharata_faiss".

(** "Re-run with an existing document store". *)
Definition dense_rerun_cell : M (nat * Retriever) :=
  import "haystack.document_stores" ["FAISSDocumentStore"] ;;
  import "haystack.nodes" ["EmbeddingRetriever"] ;;
  sqlite_document_store ← load "mahabharata_faiss" "mahabharata_faiss.json";
  f ← getattr_faiss_index_factory_str sqlite_document_store;
  assert (bool_decide (f = "Flat")) ;;
  retriever ← EmbeddingRetriever sqlite_document_store dense_embedding_model;
  ret (sqlite_document_store, retriever).

(** The cells of "Create a new document store", in order. *)
Definition dense_build : M (nat * Retriever) :=
  sqlite_document_store ← dense_store_cell;
  files_to_docs ← dense_convert_cell;
  docs ← dense_process_cell files_to_docs;
  dense_write_cell sqlite_document_store docs ;;
  retriever ← dense_retriever_cell sqlite_document_store;
  dense_update_cell sqlite_document_store retriever ;;
  dense_save_cell sqlite_document_store ;;
  ret (sqlite_document_store, retriever).

(** From "Initializing the Reader" to "Print the answers". *)
Definition dense_query (retriever : Retriever) (q : string) : M Prediction :=
  reader ← reader_cell;
  pipe ← pipeline_cell reader retriever;
  prediction ← ask_cell pipe q;
  print_answers_cell prediction ;;
  ret prediction.

Definition dense_environment : M unit :=
  dense_install_cell ;;
  logging_cell ;;
  dense_check_faiss_cell ;;
  dense_install_faiss_cell ;;
  dense_check_sqlalchemy_cell ;;
  dense_install_sqlalchemy_cell.

(** A first run, as the notebook directs it: every cell but the re-run one. *)
Definition dense_first_run (q : string) : M Prediction :=
  dense_environment ;;
  '(_, retriever) ← dense_build;
  dense_query retriever q.

(** A later run: "skip this and intermediate steps and jump directly to
    section Re-run with an existing document store". *)
Definition dense_rerun (q : string) : M Prediction :=
  logging_cell ;;
  '(_, retriever) ← dense_rerun_cell;
  dense_query retriever q.

(** Every code cell, top to bottom; the re-run cell rebinds
    [sqlite_document_store] and [retriever]. *)
Definition dense_notebook (q : string) : M Prediction :=
  dense_environment ;;
  dense_build ;;
  '(_, retriever) ← dense_rerun_cell;
  dense_query retriever q.

(** *** QnA_Mahabharata_Sparse.ipynb *)

Definition sparse_install_cell : M unit :=
  bash [ pip_install [] ["--upgrade"] "pip" None;
         pip_install [] [] "greenlet" None;
         pip_install [] [] "farm-haystack" None ].

Definition sparse_store_cell : M nat :=
  import "haystack.document_stores" ["InMemoryDocumentStore"] ;;
  InMemoryDocumentStore true.

Definition sparse_preprocessor : PreProcessor :=
  {| clean_empty_lines := true;
     clean_whitespace := true;
     clean_header_footer := false;
     split_by := "word";
     split_length := 500;
     split_respect_sentence_boundary := false;
     split_overlap := 50 |}.

Definition files_to_index : list string :=
  [ doc_dir +:+ "/1-18 books combined.txt" ].

Definition sparse_index_cell (in_memory_document_store : nat) : M unit :=
  import "os" [] ;;
  import "haystack.pipelines.standard_pipelines" ["TextIndexingPipeline"] ;;
  import "haystack.nodes" ["PreProcessor"] ;;
  preprocessor ← PreProcessor_ sparse_preprocessor;
  indexing_pipeline ← TextIndexingPipeline in_memory_document_store preprocessor;
  run_batch indexing_pipeline files_to_index.

Definition sparse_retriever_cell (in_memory_document_store : nat) : M Retriever :=
  import "haystack.nodes" ["BM25Retriever"] ;;
  BM25Retriever in_memory_document_store.

Definition pprint_cell (prediction : Prediction) : M unit :=
  import "pprint" ["pprint"] ;;
  pprint prediction.

Definition sparse_build : M (nat * Retriever) :=
  in_memory_document_store ← sparse_store_cell;
  sparse_index_cell in_memory_document_store ;;
  retriever ← sparse_retriever_cell in_memory_document_store;
  ret (in_memory_document_store, retriever).

Definition sparse_query (retriever : Retriever) (q : string) : M Prediction :=
  reader ← reader_cell;
  pipe ← pipeline_cell reader retriever;
  prediction ← ask_cell pipe q;
  pprint_cell prediction ;;
  print_answers_cell prediction ;;
  ret prediction.

(** Every code cell, top to bottom. *)
Definition sparse_notebook (q : string) : M Prediction :=
  sparse_install_cell ;;
  logging_cell ;;
  '(_, retriever) ← sparse_build;
  sparse_query retriever q.

End Notebooks.

(** ** A reference library

    The retrieval, reading and persistence code lives in Haystack, outside
    the repository.  [Reference] is the library as the specification and the
    notebooks' own prose describe it; the learned or text-level parts (text
    cleaning, chunking, hashing, embedding, BM25 scoring, span extraction)
    stay parameters, gathered in [Models]. *)

(** Modelled from the spec: the learned and text-level functions of the
    library ("embedding generation, BM25 scoring, neural reading
    comprehension", text cleaning and splitting), left as parameters. *)
Record Models := mkModels {
  clean_wiki_text : string → string;
  paragraphs : string → list string;
  split : PreProcessor → string → list string;
  hash : string → string;
  embed : string → string → Embedding;
  bm25 : list Document → string → Document → Z;
  extract : string → string → Document → list (string * Z)
}.

Definition ok {A} (a : A) : Op A := λ w, (Ok a, w).

Definition with_disk (d : gmap string File) (w : World) : World :=
  {| disk := d; site_packages := site_packages w; model_cache := model_cache w;
     heap := heap w; stdout := stdout w |}.

Definition with_heap (h : gmap nat StoreObj) (w : World) : World :=
  {| disk := disk w; site_packages := site_packages w; model_cache := model_cache w;
     heap := h; stdout := stdout w |}.

Definition with_site_packages (s : gset string) (w : World) : World :=
  {| disk := disk w; site_packages := s; model_cache := model_cache w;
     heap := heap w; stdout := stdout w |}.

Definition with_model_cache (s : gset string) (w : World) : World :=
  {| disk := disk w; site_packages := site_packages w; model_cache := s;
     heap := heap w; stdout := stdout w |}.

Definition with_stdout (o : list string) (w : World) : World :=
  {| disk := disk w; site_packages := site_packages w; model_cache := model_cache w;
     heap := heap w; stdout := o |}.

(** Modelled from the spec: a new store object gets a reference no live
    object has. *)
Definition fresh_ref (h : gmap nat StoreObj) : nat :=
  S (max_list (elements (dom h))).

(** Modelled from the spec: creating a store object. *)
Definition alloc (o : StoreObj) : Op nat :=
  λ w, let r := fresh_ref (heap w) in (Ok r, with_heap (<[r := o]> (heap w)) w).

(** Modelled from the spec: "embedding-space similarity", the dot product. *)
Definition dot (a b : Embedding) : Z :=
  foldr Z.add 0%Z (zip_with Z.mul a b).

(** Modelled from the spec: the order of a ranking, higher scores first. *)
Definition better {A} (sc : A → Z) : relation A := λ a b, (sc b ≤ sc a)%Z.

#[global] Instance better_dec {A} (sc : A → Z) : RelDecision (better sc) :=
  λ a b, Z_le_dec (sc b) (sc a).

(** Modelled from the spec: ranking, best score first. *)
Definition rank {A} (sc : A → Z) (l : list A) : list A :=
  merge_sort (better sc) l.

(** Modelled from the spec: a node's [top_k] is read from the [params] of the
    run, under the node's name. *)
Definition top_k_of (node : string) (params : gmap string (gmap string nat)) : nat :=
  default 10 (params !! node ≫= λ kw, kw !! "top_k").

(** Modelled from the spec: the "relational database file" named by an
    [sqlite:///path] URL is the file [path]. *)
Definition db_path (url : string) : option string :=
  if String.prefix "sqlite:///" url
  then Some (String.substring 10 (String.length url - 10) url)
  else None.

(** Modelled from the spec: a Document with its embedding set or cleared. *)
Definition with_embedding (e : option Embedding) (d : Document) : Document :=
  {| content := content d; name := name d; embedding := e; id := id d |}.

(** Modelled from the spec: the nodes of a pipeline, run in order on what
    the previous node returned. *)
Inductive Node :=
| RetrieverNode (r : Retriever)
| ReaderNode (rd : Reader).

(** Modelled from the spec: "Compose retriever and reader into a fixed
    two-stage pipeline object"; the node names are the keys of [params] in
    the notebooks. *)
Definition graph (p : Pipeline) : list (string * Node) :=
  [ ("Retriever", RetrieverNode (pipe_retriever p)); ("Reader", ReaderNode (pipe_reader p)) ].

Section Reference.

Variable m : Models.

(** Modelled from the spec: the shell cells ("package installation
    commands") add the named package to the environment; [pip list | grep]
    only reads it.  The packages an installation pulls in as dependencies
    are not modelled, and an installation is taken to succeed. *)
Definition ref_shell (c : ShellCmd) (w : World) : bool * World :=
  match c with
  | pip_install _ _ p _ => (true, with_site_packages ({[ p ]} ∪ site_packages w) w)
  | pip_list_grep pat =>
      (existsb (λ p, bool_decide (is_Some (String.index 0 pat p)))
               (elements (site_packages w)), w)
  end.

(** Modelled from the spec: a [%%bash] cell runs its commands in order and
    fails when the last one does. *)
Definition ref_bash (script : list ShellCmd) : Op unit :=
  λ w, let '(status, w') :=
         foldl (λ '(_, w) c, ref_shell c w) (true, w) script in
       if status then (Ok tt, w') else (Err (Raised "CalledProcessError"), w').

(** Modelled from the spec: the package a module comes from ("dependency
    version mismatches" surface at import). *)
Definition required_package (module : string) : option string :=
  if bool_decide (module = "faiss") then Some "faiss-cpu"
  else if String.prefix "haystack" module then Some "farm-haystack"
  else None.

(** Modelled from the spec: an import fails on a missing dependency and
    changes nothing. *)
Definition ref_import (module : string) (names : list string) : Op unit :=
  λ w, match required_package module with
       | Some p => if bool_decide (p ∈ site_packages w) then (Ok tt, w)
                   else (Err (Raised "ModuleNotFoundError"), w)
       | None => (Ok tt, w)
       end.

(** Modelled from the spec: the "file-backed relational store": opening the
    database creates the file when it is missing. *)
Definition open_db (url : string) (w : World)
    : result (string * gmap string Document) * World :=
  match db_path url with
  | None => (Err (Raised "ArgumentError"), w)
  | Some path =>
      match disk w !! path with
      | None => (Ok (path, ∅), with_disk (<[path := SqliteDb ∅]> (disk w)) w)
      | Some (SqliteDb rows) => (Ok (path, rows), w)
      | Some _ => (Err (Raised "DatabaseError"), w)
      end
  end.

(** Modelled from the spec: a FAISS store is a database plus "a vector index
    mapping Document identity to embedding"; the library refuses a database
    whose document count differs from the number of vectors. *)
Definition ref_connect (url f : string) (r : bool) (idx : gmap string Embedding) : Op nat :=
  λ w, match open_db url w with
       | (Ok (_, rows), w') =>
           if bool_decide (size rows = size idx)
           then alloc (FAISSStore url f r idx) w'
           else (Err (Raised "ValueError"), w')
       | (Err e, w') => (Err e, w')
       end.

(** Modelled from the spec: "Construct a document store" on an embedded
    relational file, with an empty index. *)
Definition ref_FAISSDocumentStore (url f : string) (r : bool) : Op nat :=
  ref_connect url f r ∅.

(** Modelled from the spec: the "in-memory structure" store, empty at first. *)
Definition ref_InMemoryDocumentStore (use_bm25 : bool) : Op nat :=
  alloc (InMemoryStore use_bm25 ∅).

(** Modelled from the spec: documents are stored under their identity. *)
Definition write_rows (ds : list Document) (rows : gmap string Document)
    : gmap string Document :=
  foldl (λ acc d, <[id d := d]> acc) rows ds.

(** Modelled from the spec: a document that already carries an embedding
    enters the index when written. *)
Definition write_index (ds : list Document) (idx : gmap string Embedding)
    : gmap string Embedding :=
  foldl (λ acc d, match embedding d with
                  | Some e => <[id d := e]> acc
                  | None => acc
                  end) idx ds.

(** Modelled from the spec: "write them into the document store": into the
    database file for the FAISS store, into the object for the in-memory
    one. *)
Definition ref_write_documents (store : nat) (ds : list Document) : Op unit :=
  λ w, match heap w !! store with
       | Some (FAISSStore url f r idx) =>
           match open_db url w with
           | (Ok (path, rows), w') =>
               (Ok tt,
                with_heap (<[store := FAISSStore url f r (write_index ds idx)]> (heap w'))
                  (with_disk
                     (<[path := SqliteDb (write_rows (with_embedding None <$> ds) rows)]>
                        (disk w')) w'))
           | (Err e, w') => (Err e, w')
           end
       | Some (InMemoryStore b stored) =>
           (Ok tt, with_heap (<[store := InMemoryStore b (write_rows ds stored)]> (heap w)) w)
       | None => (Err (Raised "ReferenceError"), w)
       end.

(** Modelled from the spec: "annotated with an embedding vector during an
    update pass"; the pass covers every document of the store. *)
Definition ref_update_embeddings (store : nat) (retriever : Retriever) : Op unit :=
  λ w, match retriever with
       | BM25Retriever_on _ => (Err AttributeError, w)
       | EmbeddingRetriever_on _ model =>
           match heap w !! store with
           | Some (FAISSStore url f r _) =>
               match open_db url w with
               | (Ok (_, rows), w') =>
                   (Ok tt,
                    with_heap
                      (<[store := FAISSStore url f r
                                    ((λ d, embed m model (content d)) <$> rows)]> (heap w'))
                      w')
               | (Err e, w') => (Err e, w')
               end
           | Some (InMemoryStore b stored) =>
               (Ok tt,
                with_heap
                  (<[store := InMemoryStore b
                       ((λ d, with_embedding (Some (embed m model (content d))) d)
                          <$> stored)]> (heap w)) w)
           | None => (Err (Raised "ReferenceError"), w)
           end
       end.

(** Modelled from the spec: "a serialized vector index", written next to its
    configuration file. *)
Definition ref_save (store : nat) (index_path : string) : Op unit :=
  λ w, match heap w !! store with
       | Some (FAISSStore url f r idx) =>
           (Ok tt,
            with_disk (<[index_path +:+ ".json" := JsonConfig url f r]>
                         (<[index_path := FaissIndexFile idx]> (disk w))) w)
       | Some (InMemoryStore _ _) => (Err AttributeError, w)
       | None => (Err (Raised "ReferenceError"), w)
       end.

(** Modelled from the spec: loading reads the serialized index and its
    configuration and attaches to the database the configuration names. *)
Definition ref_load (index_path config_path : string) : Op nat :=
  λ w, match disk w !! index_path, disk w !! config_path with
       | Some (FaissIndexFile idx), Some (JsonConfig url f r) => ref_connect url f r idx w
       | None, _ | _, None => (Err (Raised "FileNotFoundError"), w)
       | _, _ => (Err (Raised "ValueError"), w)
       end.

(** Modelled from the spec: the "directory of plain-text files representing
    the corpus". *)
Definition text_files (dir : string) (w : World) : list (string * string) :=
  omap (λ '(path, f), match f with
                      | TextFile t =>
                          if String.prefix (dir +:+ "/") path then Some (path, t) else None
                      | _ => None
                      end) (map_to_list (disk w)).

(** Modelled from the spec: a Document, "a chunk of source text plus optional
    metadata and optional embedding vector", fresh from a file. *)
Definition raw_document (path text : string) : Document :=
  {| content := text; name := path; embedding := None; id := hash m text |}.

(** Modelled from the spec: "Load raw text files": one document per
    paragraph of each file. *)
Definition convert (clean_func : string) (split_paragraphs : bool)
    (files : list (string * string)) : list Document :=
  flat_map (λ '(path, t),
    let text := if bool_decide (clean_func = "clean_wiki_text")
                then clean_wiki_text m t else t in
    raw_document path <$> (if split_paragraphs then paragraphs m text else [text]))
    files.

(** Modelled from the spec: converting a directory fails when it holds no
    text file ("missing files"). *)
Definition ref_convert_files_to_docs (dir clean_func : string) (split_paragraphs : bool)
    : Op (list Document) :=
  λ w, match text_files dir w with
       | [] => (Err (Raised "FileNotFoundError"), w)
       | files => (Ok (convert clean_func split_paragraphs files), w)
       end.

(** Modelled from the spec: "pre-process them into chunks with size/overlap
    parameters". *)
Definition chunks (p : PreProcessor) (ds : list Document) : list Document :=
  flat_map (λ d, raw_document (name d) <$> split m p (content d)) ds.

(** Modelled from the spec: [PreProcessor.process] returns the chunks. *)
Definition ref_process (p : PreProcessor) (ds : list Document) : Op (list Document) :=
  ok (chunks p ds).

(** Modelled from the spec: the indexing pipeline converts each file it is
    given, chunks it with its pre-processor and writes the chunks. *)
Definition ref_run_batch (p : IndexingPipeline) (file_paths : list string) : Op unit :=
  λ w, match mapM (λ path, match disk w !! path with
                           | Some (TextFile t) => Some (raw_document path t)
                           | _ => None
                           end) file_paths with
       | Some ds => ref_write_documents (indexing_store p)
                      (chunks (indexing_preprocessor p) ds) w
       | None => (Err (Raised "FileNotFoundError"), w)
       end.

(** Modelled from the spec: building an embedding retriever fetches its
    pretrained model ("model download").  The download is taken to succeed;
    in the library a failed download is an exception of this call. *)
Definition ref_EmbeddingRetriever (store : nat) (model : string) : Op Retriever :=
  λ w, (Ok (EmbeddingRetriever_on store model),
        with_model_cache ({[ model ]} ∪ model_cache w) w).

(** Modelled from the spec: the sparse retriever is bound to its store. *)
Definition ref_BM25Retriever (store : nat) : Op Retriever :=
  ok (BM25Retriever_on store).

(** Modelled from the spec: building the reader fetches its pretrained
    model ("model download").  The download is taken to succeed; in the
    library a failed download is an exception of this call. *)
Definition ref_FARMReader (model : string) (gpu : bool) : Op Reader :=
  λ w, (Ok {| model_name_or_path := model; use_gpu := gpu |},
        with_model_cache ({[ model ]} ∪ model_cache w) w).

(** Modelled from the spec: the pipeline object holds the reader and the
    retriever. *)
Definition ref_ExtractiveQAPipeline (reader : Reader) (retriever : Retriever) : Op Pipeline :=
  ok {| pipe_reader := reader; pipe_retriever := retriever |}.

(** Modelled from the spec: the documents a store offers to embedding
    search are those with a vector in the index. *)
Definition indexed_documents (s : StoreObj) (w : World) : option (list Document) :=
  match s with
  | FAISSStore url f r idx =>
      path ← db_path url;
      match disk w !! path with
      | Some (SqliteDb rows) =>
          Some (omap (λ '(i, e), with_embedding (Some e) <$> rows !! i) (map_to_list idx))
      | _ => None
      end
  | InMemoryStore _ stored =>
      Some (filter (λ d, is_Some (embedding d)) (map_to_list stored).*2)
  end.

(** Modelled from the spec: "the collection of Documents" of a store. *)
Definition all_documents (s : StoreObj) (w : World) : option (list Document) :=
  match s with
  | FAISSStore url f r idx =>
      path ← db_path url;
      match disk w !! path with
      | Some (SqliteDb rows) => Some (map_to_list rows).*2
      | _ => None
      end
  | InMemoryStore _ stored => Some (map_to_list stored).*2
  end.

(** Modelled from the spec: [return_embedding], as the store was built. *)
Definition returns_embedding (s : StoreObj) : bool :=
  match s with
  | FAISSStore _ _ r _ => r
  | InMemoryStore _ _ => false
  end.

(** Modelled from the spec: a retrieved document carries its embedding only
    when the store returns embeddings. *)
Definition strip_embedding (keep : bool) (d : Document) : Document :=
  if keep then d else with_embedding None d.

(** Modelled from the spec: the documents a retriever ranks, and whether it
    hands their embeddings on. *)
Definition candidates (r : Retriever) (w : World) : result (list Document * bool) :=
  match r with
  | EmbeddingRetriever_on store _ =>
      match heap w !! store with
      | Some s =>
          match indexed_documents s w with
          | Some ds => Ok (ds, returns_embedding s)
          | None => Err (Raised "DatabaseError")
          end
      | None => Err (Raised "ReferenceError")
      end
  | BM25Retriever_on store =>
      match heap w !! store with
      | Some (InMemoryStore true stored) => Ok ((map_to_list stored).*2, true)
      | Some _ => Err (Raised "NotImplementedError")
      | None => Err (Raised "ReferenceError")
      end
  end.

(** Modelled from the spec: "Dense retriever: ranks text by embedding-space
    similarity.  Sparse retriever: ranks text by lexical overlap (e.g.,
    BM25)." *)
Definition relevance (r : Retriever) (q : string) (corpus : list Document)
    (d : Document) : Z :=
  match r with
  | EmbeddingRetriever_on _ model => dot (embed m model q) (default [] (embedding d))
  | BM25Retriever_on _ => bm25 m corpus q d
  end.

(** Modelled from the spec: the retriever returns the [top_k] best-ranked
    documents of the store. *)
Definition retrieve (r : Retriever) (q : string) (top_k : nat) (w : World)
    : result (list Document) :=
  match candidates r w with
  | Ok (ds, keep) =>
      Ok (strip_embedding keep <$> take top_k (rank (relevance r q ds) ds))
  | Err e => Err e
  end.

(** Modelled from the spec: "Reader: extractive QA model selecting an answer
    span from retrieved text"; an answer refers to its source document. *)
Definition spans (rd : Reader) (q : string) (d : Document) : list Answer :=
  (λ '(a, s), {| answer := a; score := s; document_id := id d |})
    <$> extract m (model_name_or_path rd) q d.

(** Modelled from the spec: the reader returns the [top_k] best-ranked spans
    of the documents it is given. *)
Definition read (rd : Reader) (q : string) (ds : list Document) (top_k : nat)
    : list Answer :=
  take top_k (rank score (flat_map (spans rd q) ds)).

(** Modelled from the spec: what each stage of the pipeline does to the
    prediction under construction. *)
Definition run_node (node : Node) (top_k : nat) (p : Prediction) (w : World)
    : result Prediction :=
  match node with
  | RetrieverNode r =>
      match retrieve r (query p) top_k w with
      | Ok ds => Ok {| query := query p; answers := answers p; documents := ds |}
      | Err e => Err e
      end
  | ReaderNode rd =>
      Ok {| query := query p;
            answers := read rd (query p) (documents p) top_k;
            documents := documents p |}
  end.

(** Modelled from the spec: the stages run in order; a failing stage ends
    the run. *)
Fixpoint run_nodes (nodes : list (string * Node))
    (params : gmap string (gmap string nat)) (p : Prediction) (w : World)
    : result Prediction :=
  match nodes with
  | [] => Ok p
  | (node_name, node) :: rest =>
      match run_node node (top_k_of node_name params) p w with
      | Ok p' => run_nodes rest params p' w
      | Err e => Err e
      end
  end.

(** Modelled from the spec: "Execute a query": a run changes nothing. *)
Definition ref_run (pipe : Pipeline) (q : string)
    (params : gmap string (gmap string nat)) : Op Prediction :=
  λ w, (run_nodes (graph pipe) params {| query := q; answers := []; documents := [] |} w, w).

(** Modelled from the spec: "printed ranked answers to standard output". *)
Definition ref_print_answers (p : Prediction) (details : string) : Op unit :=
  λ w, (Ok tt, with_stdout (stdout w ++ (answer <$> answers p)) w).

(** Modelled from the spec: pretty-printing the prediction to standard
    output. *)
Definition ref_pprint (p : Prediction) : Op unit :=
  λ w, (Ok tt, with_stdout (stdout w ++ query p :: (answer <$> answers p)) w).

(** Modelled from the spec: the library, operation by operation. *)
Definition Reference : Library :=
  {| lib_bash := ref_bash;
     lib_import := ref_import;
     lib_logging_basicConfig := λ _ _, ok tt;
     lib_logging_setLevel := λ _ _, ok tt;
     lib_FAISSDocumentStore := ref_FAISSDocumentStore;
     lib_convert_files_to_docs := ref_convert_files_to_docs;
     lib_PreProcessor := λ kwargs, ok kwargs;
     lib_process := ref_process;
     lib_write_documents := ref_write_documents;
     lib_EmbeddingRetriever := ref_EmbeddingRetriever;
     lib_update_embeddings := ref_update_embeddings;
     lib_save := ref_save;
     lib_load := ref_load;
     lib_FARMReader := ref_FARMReader;
     lib_ExtractiveQAPipeline := ref_ExtractiveQAPipeline;
     lib_run := ref_run;
     lib_print_answers := ref_print_answers;
     lib_InMemoryDocumentStore := ref_InMemoryDocumentStore;
     lib_TextIndexingPipeline :=
       λ store pre, ok {| indexing_store := store; indexing_preprocessor := pre |};
     lib_run_batch := ref_run_batch;
     lib_BM25Retriever := ref_BM25Retriever;
     lib_pprint := ref_pprint |}.

End Reference.

(** ** Scripts: the calls a computation makes, in order *)

Definition succeeded (cs : list Call) : list Entry := (λ c, (c, None)) <$> cs.

(** The entries a computation added to the log. *)
Definition new_log {A} (c : M A) (k : Kernel) : list Entry :=
  drop (length (trace k)) (trace (c k).2).

(** [follows own script r log]: a run with result [r] logged [log] while
    working through [script].  Either every call succeeded; or one call
    raised, it is the last one logged and its exception is the result; or
    one of the notebook's own statements raised an exception of [own]. *)
Definition follows {A} (own : list exn) (script : list Call)
    (r : result A) (log : list Entry) : Prop :=
  match r with
  | Ok _ => log = succeeded script
  | Err e =>
      (∃ pre c post, script = pre ++ c :: post ∧ log = succeeded pre ++ [(c, Some e)])
      ∨ (e ∈ own ∧ ∃ pre post, script = pre ++ post ∧ log = succeeded pre)
  end.

Definition runs {A} (own : list exn) (script : list Call) (c : M A) : Prop :=
  ∀ k, ∃ log, trace (c k).2 = trace k ++ log ∧ follows own script (c k).1 log.

(** No call is caught, retried or translated: a call that raised is the last
    one made and its exception is the result of the run; and a run that
    fails does so with the exception of its last call, unless one of the
    notebook's own statements ([own]) raised. *)
Definition unhandled {A} (own : list exn) (c : M A) : Prop :=
  ∀ k,
    trace (c k).2 = trace k ++ new_log c k ∧
    (∀ pre c' e post,
       new_log c k = pre ++ (c', Some e) :: post → post = [] ∧ (c k).1 = Err e) ∧
    (∀ e, (c k).1 = Err e →
       e ∈ own ∨ ∃ pre c', new_log c k = pre ++ [(c', Some e)]).

(** *** The scripts of the cells *)

Definition logging_script : list Call :=
  [ call_import "logging" [];
    call_logging_basicConfig "%(levelname)s - %(name)s -  %(message)s" "WARNING";
    call_logging_setLevel "haystack" "INFO" ].

Definition reader_script : list Call :=
  [ call_import "haystack.nodes" ["FARMReader"];
    call_FARMReader "deepset/roberta-base-squad2" true ].

Definition pipeline_script : list Call :=
  [ call_import "haystack.pipelines" ["ExtractiveQAPipeline"];
    call_ExtractiveQAPipeline ].

Definition ask_script (q : string) : list Call :=
  [ call_run q run_params ].

Definition print_answers_script : list Call :=
  [ call_import "haystack.utils" ["print_answers"];
    call_print_answers "medium" ].

Definition pprint_script : list Call :=
  [ call_import "pprint" ["pprint"]; call_pprint ].

Definition dense_environment_script : list Call :=
  [ call_bash [ pip_install [] ["--upgrade"] "pip" None;
                pip_install [] [] "greenlet" None;
                pip_install ["GRPC_PYTHON_BUILD_SYSTEM_ZLIB=true"] [] "farm-haystack" None ] ]
  ++ logging_script
  ++ [ call_bash [ pip_list_grep "faiss" ];
       call_bash [ pip_install [] [] "faiss-cpu" None ];
       call_bash [ pip_list_grep "SQLAlchemy" ];
       call_bash [ pip_install [] ["--force-reinstall"; "-v"] "SQLAlchemy" (Some "1.4.47") ] ].

Definition dense_build_script : list Call :=
  [ call_import "faiss" [];
    call_import "haystack.document_stores" ["FAISSDocumentStore"];
    call_FAISSDocumentStore "sqlite:///mahabharata.db" "Flat" true;
    call_import "haystack.utils" ["clean_wiki_text"; "convert_files_to_docs"];
    call_convert_files_to_docs "data/Mahabharata" "clean_wiki_text" true;
    call_import "haystack.nodes" ["PreProcessor"];
    call_PreProcessor dense_preprocessor;
    call_process;
    call_write_documents;
    call_import "haystack.nodes" ["EmbeddingRetriever"];
    call_EmbeddingRetriever "sentence-transformers/multi-qa-mpnet-base-dot-v1";
    call_update_embeddings;
    call_save "mahabharata_faiss" ].

Definition dense_rerun_script : list Call :=
  [ call_import "haystack.document_stores" ["FAISSDocumentStore"];
    call_import "haystack.nodes" ["EmbeddingRetriever"];
    call_load "mahabharata_faiss" "mahabharata_faiss.json";
    call_EmbeddingRetriever "sentence-transformers/multi-qa-mpnet-base-dot-v1" ].

Definition dense_query_script (q : string) : list Call :=
  reader_script ++ pipeline_script ++ ask_script q ++ print_answers_script.

Definition dense_first_run_script (q : string) : list Call :=
  dense_environment_script ++ dense_build_script ++ dense_query_script q.

Definition dense_rerun_run_script (q : string) : list Call :=
  logging_script ++ dense_rerun_script ++ dense_query_script q.

Definition dense_notebook_script (q : string) : list Call :=
  dense_environment_script ++ dense_build_script ++ dense_rerun_script
  ++ dense_query_script q.

Definition sparse_build_script : list Call :=
  [ call_import "haystack.document_stores" ["InMemoryDocumentStore"];
    call_InMemoryDocumentStore true;
    call_import "os" [];
    call_import "haystack.pipelines.standard_pipelines" ["TextIndexingPipeline"];
    call_import "haystack.nodes" ["PreProcessor"];
    call_PreProcessor sparse_preprocessor;
    call_TextIndexingPipeline;
    call_run_batch ["data/Mahabharata/1-18 books combined.txt"];
    call_import "haystack.nodes" ["BM25Retriever"];
    call_BM25Retriever ].

Definition sparse_query_script (q : string) : list Call :=
  reader_script ++ pipeline_script ++ ask_script q ++ pprint_script
  ++ print_answers_script.

Definition sparse_notebook_script (q : string) : list Call :=
  [ call_bash [ pip_install [] ["--upgrade"] "pip" None;
                pip_install [] [] "greenlet" None;
                pip_install [] [] "farm-haystack" None ] ]
  ++ logging_script ++ sparse_build_script ++ sparse_query_script q.

(** The exceptions the re-run cell can raise by itself. *)
Definition rerun_own : list exn := [AssertionError; AttributeError].

(** ** Triples, frames and counts *)

(** [triple P c Q E]: started in a world satisfying [P], the computation [c]
    either returns [a] in a world satisfying [Q a], or raises in a world
    satisfying [E]. *)
Definition triple {A} (P : World → Prop) (c : M A)
    (Q : A → World → Prop) (E : World → Prop) : Prop :=
  ∀ k, P (world k) →
    match (c k).1 with
    | Ok a => Q a (world (c k).2)
    | Err _ => E (world (c k).2)
    end.

(** Files, store objects and installed packages. *)
Definition stores_kept (w w' : World) : Prop :=
  disk w' = disk w ∧ heap w' = heap w ∧ site_packages w' = site_packages w.

(** Files alone. *)
Definition files_kept (w w' : World) : Prop := disk w' = disk w.

(** The reader both notebooks build. *)
Definition default_reader : Reader :=
  {| model_name_or_path := "deepset/roberta-base-squad2"; use_gpu := true |}.

(** The prediction a notebook gets for a question. *)
Definition answer_to (m : Models) (rt : Retriever) (q : string) (w : World) : result Prediction :=
  run_nodes m (graph {| pipe_reader := default_reader; pipe_retriever := rt |})
    run_params {| query := q; answers := []; documents := [] |} w.

(** The calls that write documents into a store. *)
Definition writes (c : Call) : bool :=
  match c with
  | call_write_documents | call_run_batch _ => true
  | _ => false
  end.


(** ** A small machine to run the notebooks on *)

(** One chunk per file, identity as hash, text length as every score. *)
Definition toy : Models :=
  {| clean_wiki_text := λ s, s;
     paragraphs := λ s, [s];
     split := λ _ s, [s];
     hash := λ s, s;
     embed := λ _ s, [Z.of_nat (String.length s)];
     bm25 := λ _ _ d, Z.of_nat (String.length (content d));
     extract := λ _ _ d, [(content d, Z.of_nat (String.length (content d)))] |}.

(** The two files of the corpus directory. *)
Definition combined_books : string := "data/Mahabharata/1-18 books combined.txt".
Definition adi_parva : string := "data/Mahabharata/01 Adi Parva.txt".

Definition corpus : gmap string File :=
  {[ combined_books := TextFile "Krishna is the son of Devaki.";
     adi_parva := TextFile "Vyasa composed the Mahabharata." ]}.

(** Haystack, FAISS and SQLAlchemy installed; no store built yet. *)
Definition laptop : World :=
  {| disk := corpus;
     site_packages := {[ "farm-haystack"; "faiss-cpu"; "SQLAlchemy" ]};
     model_cache := ∅; heap := ∅; stdout := [] |}.

(** Nothing installed. *)
Definition bare_laptop : World :=
  {| disk := corpus; site_packages := ∅; model_cache := ∅; heap := ∅; stdout := [] |}.

(** A disk holding an index that was saved with another factory string. *)
Definition hnsw_laptop : World :=
  {| disk := {[ "mahabharata_faiss" := FaissIndexFile ∅;
                "mahabharata_faiss.json" := JsonConfig sql_url "HNSW" true ]};
     site_packages := {[ "farm-haystack"; "faiss-cpu"; "SQLAlchemy" ]};
     model_cache := ∅; heap := ∅; stdout := [] |}.

(** A new kernel: nothing logged yet. *)
Definition fresh_kernel (w : World) : Kernel := {| trace := []; world := w |}.

(** What a pipeline run that returned [p] in world [w] did: the retriever
    ranked documents of the store and selected some; the reader's answers are
    its ranked spans of the documents selected. *)
Definition retrieved_then_read (m : Models) (pipe : Pipeline) (q : string)
    (w : World) (p : Prediction) : Prop :=
  (∃ cands keep ranked,
     candidates (pipe_retriever pipe) w = Ok (cands, keep) ∧
     ranked ⊆ cands ∧
     StronglySorted (better (relevance m (pipe_retriever pipe) q cands)) ranked ∧
     documents p = strip_embedding keep <$> ranked) ∧
  answers p = read m (pipe_reader pipe) q (documents p) 2 ∧
  StronglySorted (better score) (answers p) ∧
  (∀ a, a ∈ answers p →
     ∃ d, d ∈ documents p ∧ a ∈ spans m (pipe_reader pipe) q d ∧ document_id a = id d) ∧
  query p = q.

(** The sparse notebook's pipeline, on the store its indexing cell creates. *)
Definition toy_pipe : Pipeline :=
  {| pipe_reader := default_reader; pipe_retriever := BM25Retriever_on 1 |}.

(** The kernel after the sparse notebook's indexing cells. *)
Definition indexed_kernel : Kernel :=
  (sparse_build (Reference toy) (fresh_kernel laptop)).2.

(** ** Names and objects: what a call needs, what it provides *)

(** The names an [import] statement binds: the module for [import m], the
    names listed for [from m import a, b]. *)
Definition binds (c : Call) : list string :=
  match c with
  | call_import module [] => [module]
  | call_import _ names => names
  | _ => []
  end.

(** The imported names a call refers to: the callable, and a function passed
    by name. *)
Definition refers_to (c : Call) : list string :=
  match c with
  | call_logging_basicConfig _ _ | call_logging_setLevel _ _ => ["logging"]
  | call_FAISSDocumentStore _ _ _ | call_load _ _ => ["FAISSDocumentStore"]
  | call_convert_files_to_docs _ clean_func _ => ["convert_files_to_docs"; clean_func]
  | call_PreProcessor _ => ["PreProcessor"]
  | call_EmbeddingRetriever _ => ["EmbeddingRetriever"]
  | call_FARMReader _ _ => ["FARMReader"]
  | call_ExtractiveQAPipeline => ["ExtractiveQAPipeline"]
  | call_print_answers _ => ["print_answers"]
  | call_InMemoryDocumentStore _ => ["InMemoryDocumentStore"]
  | call_TextIndexingPipeline => ["TextIndexingPipeline"]
  | call_BM25Retriever => ["BM25Retriever"]
  | call_pprint => ["pprint"]
  | _ => []
  end.

(** The kinds of object the notebooks hold in variables. *)
Inductive Object :=
| a_store
| some_documents
| a_preprocessor
| a_retriever
| a_reader
| a_pipeline
| a_prediction
| an_indexing_pipeline.

#[global] Instance Object_eq_dec : EqDecision Object.
Proof. solve_decision. Defined.

(** What a call returns to the notebook. *)
Definition returns (c : Call) : option Object :=
  match c with
  | call_FAISSDocumentStore _ _ _ | call_load _ _ | call_InMemoryDocumentStore _ =>
      Some a_store
  | call_convert_files_to_docs _ _ _ | call_process => Some some_documents
  | call_PreProcessor _ => Some a_preprocessor
  | call_EmbeddingRetriever _ | call_BM25Retriever => Some a_retriever
  | call_FARMReader _ _ => Some a_reader
  | call_ExtractiveQAPipeline => Some a_pipeline
  | call_run _ _ => Some a_prediction
  | call_TextIndexingPipeline => Some an_indexing_pipeline
  | _ => None
  end.

(** The objects a call is made on or given: its receiver and arguments. *)
Definition takes (c : Call) : list Object :=
  match c with
  | call_process => [a_preprocessor; some_documents]
  | call_write_documents => [a_store; some_documents]
  | call_EmbeddingRetriever _ | call_BM25Retriever | call_save _ => [a_store]
  | call_update_embeddings => [a_store; a_retriever]
  | call_ExtractiveQAPipeline => [a_reader; a_retriever]
  | call_run _ _ => [a_pipeline]
  | call_print_answers _ | call_pprint => [a_prediction]
  | call_TextIndexingPipeline => [a_store; a_preprocessor]
  | call_run_batch _ => [an_indexing_pipeline]
  | _ => []
  end.

(** [scoped needs gives seen s]: walking through the script [s], every call
    finds each thing it needs given by a call made before it (or by one of
    [seen]). *)
Fixpoint scoped {R} (needs : Call → list R) (gives : Call → R → bool)
    (seen s : list Call) : bool :=
  match s with
  | [] => true
  | c :: s' =>
      forallb (λ r, existsb (λ c', gives c' r) seen) (needs c)
      && scoped needs gives (seen ++ [c]) s'
  end.

Definition gives_name (c : Call) (n : string) : bool :=
  existsb (String.eqb n) (binds c).

Definition gives_object (c : Call) (o : Object) : bool :=
  bool_decide (returns c = Some o).

(** The calls that install packages, or build or change a document store. *)
Definition rebuilds (c : Call) : bool :=
  match c with
  | call_bash _ | call_FAISSDocumentStore _ _ _ | call_InMemoryDocumentStore _
  | call_convert_files_to_docs _ _ _ | call_PreProcessor _ | call_process
  | call_write_documents | call_update_embeddings | call_save _
  | call_TextIndexingPipeline | call_run_batch _ => true
  | _ => false
  end.

(** The calls of dense retrieval and of persistence. *)
Definition dense_only (c : Call) : bool :=
  match c with
  | call_FAISSDocumentStore _ _ _ | call_EmbeddingRetriever _ | call_update_embeddings
  | call_save _ | call_load _ _ | call_write_documents
  | call_convert_files_to_docs _ _ _ | call_process => true
  | call_import module _ => String.eqb module "faiss"
  | _ => false
  end.

(** Some installed package has [pat] in its name: what [pip list | grep pat]
    looks for. *)
Definition some_matches (pat : string) (w : World) : Prop :=
  ∃ p, p ∈ site_packages w ∧ is_Some (String.index 0 pat p).

(** What the dense notebook has done when it comes to write: from kernel [k]
    the environment cells ran, the store [store] was built, and [docs] is
    what [process] returned for the pre-processor built with
    [dense_preprocessor] and the documents [convert_files_to_docs] returned;
    [kw] is the kernel [process] left. *)
Definition dense_chunked (L : Library) (k kw : Kernel) (store : nat)
    (docs : list Document) : Prop :=
  ∃ files pre k0 k1 k2 k3 k4 k5 k6 k7,
    dense_environment L k = (Ok tt, k0) ∧
    import L "faiss" [] k0 = (Ok tt, k1) ∧
    import L "haystack.document_stores" ["FAISSDocumentStore"] k1 = (Ok tt, k2) ∧
    FAISSDocumentStore L sql_url "Flat" true k2 = (Ok store, k3) ∧
    import L "haystack.utils" ["clean_wiki_text"; "convert_files_to_docs"] k3 = (Ok tt, k4) ∧
    convert_files_to_docs L doc_dir "clean_wiki_text" true k4 = (Ok files, k5) ∧
    import L "haystack.nodes" ["PreProcessor"] k5 = (Ok tt, k6) ∧
    PreProcessor_ L dense_preprocessor k6 = (Ok pre, k7) ∧
    process L pre files k7 = (Ok docs, kw).

(** What the sparse notebook has done when it comes to index: from kernel
    [k] the install and logging cells ran, the store was built, and
    [pipeline] is the indexing pipeline built on that store with the
    pre-processor built with [sparse_preprocessor]; [kw] is the kernel the
    pipeline's constructor left. *)
Definition sparse_pipeline_built (L : Library) (k kw : Kernel)
    (pipeline : IndexingPipeline) : Prop :=
  ∃ store pre k0 k1 k2 k3 k4 k5 k6 k7,
    sparse_install_cell L k = (Ok tt, k0) ∧
    logging_cell L k0 = (Ok tt, k1) ∧
    import L "haystack.document_stores" ["InMemoryDocumentStore"] k1 = (Ok tt, k2) ∧
    InMemoryDocumentStore L true k2 = (Ok store, k3) ∧
    import L "os" [] k3 = (Ok tt, k4) ∧
    import L "haystack.pipelines.standard_pipelines" ["TextIndexingPipeline"] k4
      = (Ok tt, k5) ∧
    import L "haystack.nodes" ["PreProcessor"] k5 = (Ok tt, k6) ∧
    PreProcessor_ L sparse_preprocessor k6 = (Ok pre, k7) ∧
    TextIndexingPipeline L store pre k7 = (Ok pipeline, kw).

(** [follows_until own stop script r log]: as [follows], and an exception of
    the notebook's own statements ([own]) is raised at one place only, when
    exactly the calls of [stop], a prefix of the script, have been made and
    have all returned. *)
Definition follows_until {A} (own : list exn) (stop : option (list Call))
    (script : list Call) (r : result A) (log : list Entry) : Prop :=
  match r with
  | Ok _ => log = succeeded script
  | Err e =>
      (∃ pre c post, script = pre ++ c :: post ∧ log = succeeded pre ++ [(c, Some e)])
      ∨ (e ∈ own ∧ ∃ pre post,
           stop = Some pre ∧ script = pre ++ post ∧ log = succeeded pre)
  end.

Definition runs_until {A} (own : list exn) (stop : option (list Call))
    (script : list Call) (c : M A) : Prop :=
  ∀ k, ∃ log, trace (c k).2 = trace k ++ log ∧ follows_until own stop script (c k).1 log.

(** * Properties *)

(** ** Ranking is a total preorder *)

#[global] Instance better_total {A} (sc : A → Z) : Total (better sc).
Proof. intros a b. unfold better. lia. Qed.

#[global] Instance better_trans {A} (sc : A → Z) : Transitive (better sc).
Proof. intros a b c. unfold better. lia. Qed.

(** ** The monad *)

Lemma bind_Ok {A B} (c : M A) (f : A → M B) k a k1 :
  c k = (Ok a, k1) → (c ≫= f) k = f a k1.
Proof. unfold mbind, M_bind, bind. by intros ->. Qed.

Lemma bind_Err {A B} (c : M A) (f : A → M B) k e k1 :
  c k = (Err e, k1) → (c ≫= f) k = (Err e, k1).
Proof. unfold mbind, M_bind, bind. by intros ->. Qed.

Lemma bind_Ok_inv {A B} (c : M A) (f : A → M B) k b k2 :
  (c ≫= f) k = (Ok b, k2) → ∃ a k1, c k = (Ok a, k1) ∧ f a k1 = (Ok b, k2).
Proof.
  unfold mbind, M_bind, bind. destruct (c k) as [[a|e] k1]; [eauto | done].
Qed.

Lemma call_Ok_inv {A} (c : Call) (op : Op A) k a k1 :
  call c op k = (Ok a, k1) →
  op (world k) = (Ok a, world k1) ∧ trace k1 = trace k ++ [(c, None)].
Proof.
  unfold call. destruct (op (world k)) as [r w] eqn:E. intros [= -> <-]. done.
Qed.

(** ** Scripts are followed *)

Lemma succeeded_app s1 s2 : succeeded (s1 ++ s2) = succeeded s1 ++ succeeded s2.
Proof. apply fmap_app. Qed.

Lemma runs_ret {A} own (a : A) : runs own [] (mret a).
Proof. intros k. exists []. by rewrite app_nil_r. Qed.

Lemma runs_call {A} own (c : Call) (op : Op A) : runs own [c] (call c op).
Proof.
  intros k. unfold call. destruct (op (world k)) as [[a|e] w]; simpl.
  - by exists [(c, None)].
  - exists [(c, Some e)]. split; [done|]. left. by exists [], c, [].
Qed.

Lemma runs_assert own b : AssertionError ∈ own → runs own [] (assert b).
Proof.
  intros Hin k. exists []. rewrite app_nil_r. destruct b; simpl; [done|].
  split; [done|]. right. split; [done|]. by exists [], [].
Qed.

Lemma runs_getattr own store :
  AttributeError ∈ own → runs own [] (getattr_faiss_index_factory_str store).
Proof.
  intros Hin k. exists []. rewrite app_nil_r. unfold getattr_faiss_index_factory_str.
  assert (follows own [] (Err AttributeError : result string) []) as Hf.
  { right. split; [done|]. by exists [], []. }
  destruct (heap (world k) !! store) as [[]|]; simpl; done.
Qed.

Lemma runs_bind {A B} own s1 s2 s (c : M A) (f : A → M B) :
  runs own s1 c → (∀ a, runs own s2 (f a)) → s = s1 ++ s2 → runs own s (c ≫= f).
Proof.
  intros Hc Hf -> k. destruct (Hc k) as (log1 & Ht1 & Hl1).
  unfold mbind, M_bind, bind. destruct (c k) as [[a|e] k1]; simpl in *.
  - destruct (Hf a k1) as (log2 & Ht2 & Hl2). exists (log1 ++ log2).
    rewrite Ht2, Ht1, <-(assoc_L (++)). split; [done|]. subst log1.
    revert Hl2. destruct ((f a k1).1) as [b|e]; simpl; intros Hl2.
    + subst log2. by rewrite succeeded_app.
    + destruct Hl2 as [(pre & c' & post & -> & ->)|(Hown & pre & post & -> & ->)].
      * left. exists (s1 ++ pre), c', post.
        by rewrite succeeded_app, <-!(assoc_L (++)).
      * right. split; [done|]. exists (s1 ++ pre), post.
        by rewrite succeeded_app, <-!(assoc_L (++)).
  - exists log1. split; [done|].
    destruct Hl1 as [(pre & c' & post & -> & ->)|(Hown & pre & post & -> & ->)].
    + left. exists pre, c', (post ++ s2). by rewrite <-!(assoc_L (++)).
    + right. split; [done|]. exists pre, (post ++ s2). by rewrite <-!(assoc_L (++)).
Qed.

Lemma runs_weaken {A} own own' s (c : M A) : own ⊆ own' → runs own s c → runs own' s c.
Proof.
  intros Hsub Hc k. destruct (Hc k) as (log & Ht & Hl). exists log. split; [done|].
  revert Hl. destruct ((c k).1); [done|]. simpl.
  intros [?|[? ?]]; [by left|right]. split; [|done]. by apply Hsub.
Qed.

Lemma runs_new_log {A} own s (c : M A) k :
  runs own s c →
  trace (c k).2 = trace k ++ new_log c k ∧ follows own s (c k).1 (new_log c k).
Proof.
  intros Hc. destruct (Hc k) as (log & Ht & Hl). unfold new_log.
  rewrite Ht, drop_app_length. done.
Qed.

Lemma succeeded_lookup s i c o :
  succeeded s !! i = Some (c, o) ↔ s !! i = Some c ∧ o = None.
Proof.
  unfold succeeded. rewrite list_lookup_fmap.
  destruct (s !! i) as [c0|]; simpl; split;
    [intros [= -> <-]|intros [[= ->] ->]|done|intros [? _]]; done.
Qed.

(** Position by position, the log is the script; and whatever was logged
    before another entry completed without raising. *)
Lemma follows_lookup {A} own s (r : result A) log i c o :
  follows own s r log → log !! i = Some (c, o) →
  s !! i = Some c ∧
  ∀ j c', j < i → s !! j = Some c' → log !! j = Some (c', None).
Proof.
  intros Hf Hi.
  assert (∃ pre post tl, s = pre ++ post ∧ log = succeeded pre ++ tl ∧
            (tl = [] ∨ ∃ c0 e post', post = c0 :: post' ∧ tl = [(c0, Some e)]))
    as (pre & post & tl & -> & -> & Htl).
  { destruct r as [a|e]; simpl in Hf.
    - exists s, [], []. rewrite !app_nil_r. eauto.
    - destruct Hf as [(pre & c0 & post & -> & ->)|(_ & pre & post & -> & ->)].
      + exists pre, (c0 :: post), [(c0, Some e)]. naive_solver.
      + exists pre, post, []. rewrite app_nil_r. eauto. }
  assert (length (succeeded pre) = length pre) as Hlen by apply length_fmap.
  destruct (decide (i < length pre)) as [Hlt|Hge].
  - rewrite lookup_app_l in Hi by lia. apply succeeded_lookup in Hi as [Hi ->].
    split; [by apply lookup_app_l_Some|].
    intros j c' Hj Hc'. rewrite lookup_app_l in Hc' by lia.
    apply lookup_app_l_Some. by apply succeeded_lookup.
  - rewrite lookup_app_r in Hi by lia. rewrite Hlen in Hi.
    destruct Htl as [->|(c0 & e & post' & -> & ->)]; [done|].
    destruct (i - length pre) as [|n] eqn:En; [|done]. simplify_eq/=.
    assert (i = length pre) as -> by lia. split.
    + by rewrite lookup_app_r, Nat.sub_diag by lia.
    + intros j c' Hj Hc'. rewrite lookup_app_l in Hc' by lia.
      apply lookup_app_l_Some. by apply succeeded_lookup.
Qed.

Lemma runs_unhandled {A} own s (c : M A) : runs own s c → unhandled own c.
Proof.
  intros Hc k. destruct (runs_new_log own s c k Hc) as [Ht Hf].
  split; [done|]. split.
  - intros pre c' e post Hlog. revert Hf. destruct ((c k).1) as [a|e0]; simpl; intros Hf.
    + exfalso. assert (new_log c k !! length pre = Some (c', Some e)) as Hl.
      { rewrite Hlog. by rewrite lookup_app_r, Nat.sub_diag by lia. }
      rewrite Hf in Hl. by apply succeeded_lookup in Hl as [_ ?].
    + destruct Hf as [(pre0 & c0 & post0 & -> & Hl)|(_ & pre0 & post0 & -> & Hl)].
      * rewrite Hl in Hlog.
        assert (length pre = length pre0) as Hlen.
        { destruct (decide (length pre < length pre0)) as [Hlt|Hge].
          - assert ((succeeded pre0 ++ [(c0, Some e0)]) !! length pre = Some (c', Some e)) as Hx.
            { rewrite Hlog. by rewrite lookup_app_r, Nat.sub_diag by lia. }
            rewrite lookup_app_l in Hx by (unfold succeeded; rewrite length_fmap; lia).
            by apply succeeded_lookup in Hx as [_ ?].
          - apply (f_equal length) in Hlog. revert Hlog.
            rewrite !length_app. unfold succeeded. rewrite length_fmap. simpl. lia. }
        apply app_inj_1 in Hlog as [_ Hlog];
          [|unfold succeeded; rewrite length_fmap; done].
        by simplify_eq.
      * exfalso. assert (new_log c k !! length pre = Some (c', Some e)) as Hx.
        { rewrite Hlog. by rewrite lookup_app_r, Nat.sub_diag by lia. }
        rewrite Hl in Hx. by apply succeeded_lookup in Hx as [_ ?].
  - intros e He. rewrite He in Hf. simpl in Hf.
    destruct Hf as [(pre0 & c0 & post0 & -> & Hl)|(Hown & _)]; [right|by left].
    by exists (succeeded pre0), c0.
Qed.

(** ** Every cell follows its script, whatever the library does *)

Create HintDb runs.

Ltac unfold_calls :=
  unfold bash, import, logging_basicConfig, logging_setLevel, FAISSDocumentStore,
    convert_files_to_docs, PreProcessor_, process, write_documents, EmbeddingRetriever,
    update_embeddings, save, load, FARMReader, ExtractiveQAPipeline, run, print_answers,
    InMemoryDocumentStore, TextIndexingPipeline, run_batch, BM25Retriever, pprint in *.

Ltac runs_tac :=
  cbv beta;
  lazymatch goal with
  | |- runs _ _ (mret _) => apply runs_ret
  | |- runs _ _ (ret _) => apply runs_ret
  | |- runs _ _ (call _ _) => apply runs_call
  | |- runs _ _ (assert _) => apply runs_assert; set_solver
  | |- runs _ _ (getattr_faiss_index_factory_str _) => apply runs_getattr; set_solver
  | |- runs _ _ (_ ≫= _) =>
      eapply runs_bind; [runs_tac | intros ?; runs_tac | reflexivity]
  | |- runs _ _ (match ?x with _ => _ end) => destruct x; runs_tac
  | |- _ => solve [eauto with runs]
  end.

Section Scripts.

Variable L : Library.

Lemma logging_cell_runs own : runs own logging_script (logging_cell L).
Proof. unfold logging_cell. unfold_calls. runs_tac. Qed.

Lemma reader_cell_runs own : runs own reader_script (reader_cell L).
Proof. unfold reader_cell. unfold_calls. runs_tac. Qed.

Lemma pipeline_cell_runs own rd rt : runs own pipeline_script (pipeline_cell L rd rt).
Proof. unfold pipeline_cell. unfold_calls. runs_tac. Qed.

Lemma ask_cell_runs own pipe q : runs own (ask_script q) (ask_cell L pipe q).
Proof. unfold ask_cell. unfold_calls. runs_tac. Qed.

Lemma print_answers_cell_runs own p :
  runs own print_answers_script (print_answers_cell L p).
Proof. unfold print_answers_cell. unfold_calls. runs_tac. Qed.

Lemma pprint_cell_runs own p : runs own pprint_script (pprint_cell L p).
Proof. unfold pprint_cell. unfold_calls. runs_tac. Qed.

Lemma dense_environment_runs own : runs own dense_environment_script (dense_environment L).
Proof.
  pose proof (logging_cell_runs own).
  unfold dense_environment, dense_install_cell, dense_check_faiss_cell,
    dense_install_faiss_cell, dense_check_sqlalchemy_cell, dense_install_sqlalchemy_cell.
  unfold_calls. runs_tac.
Qed.

Lemma dense_build_runs own : runs own dense_build_script (dense_build L).
Proof.
  unfold dense_build, dense_store_cell, dense_convert_cell, dense_process_cell,
    dense_write_cell, dense_retriever_cell, dense_update_cell, dense_save_cell.
  unfold_calls. runs_tac.
Qed.

Lemma dense_rerun_cell_runs : runs rerun_own dense_rerun_script (dense_rerun_cell L).
Proof. unfold dense_rerun_cell. unfold_calls. runs_tac. Qed.

Lemma dense_query_runs own rt q : runs own (dense_query_script q) (dense_query L rt q).
Proof.
  pose proof (reader_cell_runs own). pose proof (pipeline_cell_runs own).
  pose proof (ask_cell_runs own). pose proof (print_answers_cell_runs own).
  unfold dense_query. runs_tac.
Qed.

Lemma dense_first_run_runs own q :
  runs own (dense_first_run_script q) (dense_first_run L q).
Proof.
  pose proof (dense_environment_runs own). pose proof (dense_build_runs own).
  pose proof (dense_query_runs own). unfold dense_first_run. runs_tac.
Qed.

Lemma dense_rerun_runs q : runs rerun_own (dense_rerun_run_script q) (dense_rerun L q).
Proof.
  pose proof (logging_cell_runs rerun_own). pose proof dense_rerun_cell_runs.
  pose proof (dense_query_runs rerun_own). unfold dense_rerun. runs_tac.
Qed.

Lemma dense_notebook_runs q :
  runs rerun_own (dense_notebook_script q) (dense_notebook L q).
Proof.
  pose proof (dense_environment_runs rerun_own). pose proof (dense_build_runs rerun_own).
  pose proof dense_rerun_cell_runs. pose proof (dense_query_runs rerun_own).
  unfold dense_notebook. runs_tac.
Qed.

Lemma sparse_build_runs own : runs own sparse_build_script (sparse_build L).
Proof.
  unfold sparse_build, sparse_store_cell, sparse_index_cell, sparse_retriever_cell.
  unfold_calls. runs_tac.
Qed.

Lemma sparse_query_runs own rt q : runs own (sparse_query_script q) (sparse_query L rt q).
Proof.
  pose proof (reader_cell_runs own). pose proof (pipeline_cell_runs own).
  pose proof (ask_cell_runs own). pose proof (pprint_cell_runs own).
  pose proof (print_answers_cell_runs own).
  unfold sparse_query. runs_tac.
Qed.

Lemma sparse_notebook_runs own q :
  runs own (sparse_notebook_script q) (sparse_notebook L q).
Proof.
  pose proof (logging_cell_runs own). pose proof (sparse_build_runs own).
  pose proof (sparse_query_runs own).
  unfold sparse_notebook, sparse_install_cell. unfold_calls. runs_tac.
Qed.

End Scripts.

#[global] Hint Resolve logging_cell_runs reader_cell_runs pipeline_cell_runs
  ask_cell_runs print_answers_cell_runs pprint_cell_runs dense_environment_runs
  dense_build_runs dense_rerun_cell_runs dense_query_runs dense_first_run_runs
  dense_rerun_runs dense_notebook_runs sparse_build_runs sparse_query_runs
  sparse_notebook_runs : runs.

Lemma runs_at {A} own s (c : M A) k i cl o :
  runs own s c → new_log c k !! i = Some (cl, o) → s !! i = Some cl.
Proof.
  intros Hc Hi. destruct (runs_new_log own s c k Hc) as [_ Hf].
  by destruct (follows_lookup own s _ _ i cl o Hf Hi).
Qed.

Lemma runs_before {A} own s (c : M A) k i cl o j c' :
  runs own s c → new_log c k !! i = Some (cl, o) → j < i → s !! j = Some c' →
  new_log c k !! j = Some (c', None).
Proof.
  intros Hc Hi Hj Hs. destruct (runs_new_log own s c k Hc) as [_ Hf].
  destruct (follows_lookup own s _ _ i cl o Hf Hi) as [_ Hb]. by apply Hb.
Qed.

(** Where in a concrete script a given call sits. *)
Ltac find_index H i :=
  lazymatch type of H with
  | [] !! _ = Some _ => discriminate H
  | (_ :: _) !! _ = Some _ =>
      destruct i as [|i];
      [ simpl in H; try discriminate H | simpl in H; find_index H i ]
  end.

Ltac unfold_scripts :=
  unfold dense_first_run_script, dense_rerun_run_script, dense_notebook_script,
    sparse_notebook_script, dense_environment_script, dense_build_script,
    dense_rerun_script, dense_query_script, sparse_build_script, sparse_query_script,
    logging_script, reader_script, pipeline_script, ask_script, print_answers_script,
    pprint_script in *;
  simpl app in *.

(** ** Triples over the kernel monad *)

Lemma triple_ret {A} (P : World → Prop) (a : A) (Q : A → World → Prop) E :
  (∀ w, P w → Q a w) → triple P (mret a) Q E.
Proof. intros H k Hk. by apply H. Qed.

Lemma triple_bind {A B} P (c : M A) (f : A → M B) Q1 Q E :
  triple P c Q1 E → (∀ a, triple (Q1 a) (f a) Q E) → triple P (c ≫= f) Q E.
Proof.
  intros Hc Hf k Hk. specialize (Hc k Hk). unfold mbind, M_bind, bind.
  destruct (c k) as [[a|e] k1]; simpl in *; [by apply Hf | done].
Qed.

Lemma triple_call {A} P (c : Call) (op : Op A) Q E :
  (∀ w, P w → match (op w).1 with Ok a => Q a (op w).2 | Err _ => E (op w).2 end) →
  triple P (call c op) Q E.
Proof.
  intros H k Hk. specialize (H (world k) Hk). unfold call.
  by destruct (op (world k)) as [[a|e] w].
Qed.

Lemma triple_conseq {A} (P P' : World → Prop) (c : M A) (Q Q' : A → World → Prop) E E' :
  triple P c Q E → (∀ w, P' w → P w) → (∀ a w, Q a w → Q' a w) → (∀ w, E w → E' w) →
  triple P' c Q' E'.
Proof.
  intros Hc HP HQ HE k Hk. specialize (Hc k (HP _ Hk)).
  destruct ((c k).1); [by apply HQ | by apply HE].
Qed.

Lemma triple_assert P b E :
  (∀ w, P w → E w) → triple P (assert b) (λ _ w, P w ∧ b = true) E.
Proof. intros H k Hk. destruct b; simpl; [done | by apply H]. Qed.

Lemma triple_getattr P store E :
  (∀ w, P w → E w) →
  triple P (getattr_faiss_index_factory_str store)
    (λ f w, P w ∧ ∃ url r idx, heap w !! store = Some (FAISSStore url f r idx)) E.
Proof.
  intros H k Hk. unfold getattr_faiss_index_factory_str.
  destruct (heap (world k) !! store) as [[url f r idx|]|] eqn:Hs; simpl; eauto.
Qed.

Lemma triple_Ok {A} P (c : M A) Q E k a k' :
  triple P c Q E → P (world k) → c k = (Ok a, k') → Q a (world k').
Proof. intros Hc Hk Hr. specialize (Hc k Hk). by rewrite Hr in Hc. Qed.

Lemma triple_any {A} P (c : M A) (R : World → Prop) k :
  triple P c (λ _, R) R → P (world k) → R (world (c k).2).
Proof. intros Hc Hk. specialize (Hc k Hk). by destruct ((c k).1). Qed.

(** ** The reference library, operation by operation *)

Section ReferenceOps.

Variable m : Models.

Lemma fresh_ref_None (h : gmap nat StoreObj) : h !! fresh_ref h = None.
Proof.
  apply not_elem_of_dom. intros Hin. apply elem_of_elements in Hin.
  apply max_list_elem_of_le in Hin. unfold fresh_ref in Hin. lia.
Qed.

Lemma db_path_sql_url : db_path sql_url = Some "mahabharata.db".
Proof. reflexivity. Qed.

Lemma required_package_stdlib :
  required_package "logging" = None ∧ required_package "os" = None
  ∧ required_package "pprint" = None.
Proof. done. Qed.

(** Imports, logging, and the shell leave files and stores alone. *)
Lemma ref_import_world module names w : (ref_import module names w).2 = w.
Proof. unfold ref_import. repeat case_match; done. Qed.

Lemma ref_import_Ok module names w a w' p :
  ref_import module names w = (Ok a, w') → required_package module = Some p →
  p ∈ site_packages w.
Proof.
  unfold ref_import. intros H Hp. rewrite Hp in H.
  case_bool_decide; [done | discriminate].
Qed.

Lemma ref_shell_frame c w :
  disk (ref_shell c w).2 = disk w ∧ heap (ref_shell c w).2 = heap w
  ∧ model_cache (ref_shell c w).2 = model_cache w
  ∧ stdout (ref_shell c w).2 = stdout w
  ∧ site_packages w ⊆ site_packages (ref_shell c w).2.
Proof. destruct c; simpl; repeat split; set_solver. Qed.

Lemma ref_bash_frame script w :
  disk (ref_bash script w).2 = disk w ∧ heap (ref_bash script w).2 = heap w
  ∧ model_cache (ref_bash script w).2 = model_cache w
  ∧ stdout (ref_bash script w).2 = stdout w
  ∧ site_packages w ⊆ site_packages (ref_bash script w).2.
Proof.
  unfold ref_bash.
  assert (∀ st, let sw := foldl (λ '(_, w) c, ref_shell c w) (st, w) script in
            disk sw.2 = disk w ∧ heap sw.2 = heap w ∧ model_cache sw.2 = model_cache w
            ∧ stdout sw.2 = stdout w ∧ site_packages w ⊆ site_packages sw.2) as H.
  { revert w. induction script as [|c script IH]; intros w st; simpl.
    - repeat split; set_solver.
    - destruct (ref_shell c w) as [st' w'] eqn:Hc.
      pose proof (ref_shell_frame c w) as Hf. rewrite Hc in Hf. simpl in Hf.
      destruct Hf as (Hd & Hh & Hm & Ho & Hs).
      specialize (IH w' st'). simpl in IH. destruct IH as (I1 & I2 & I3 & I4 & I5).
      repeat split; [congruence..|set_solver]. }
  specialize (H true). simpl in H.
  destruct (foldl _ _ script) as [[] w']; simpl in *; done.
Qed.

Lemma world_eq w w' :
  disk w = disk w' → site_packages w = site_packages w' →
  model_cache w = model_cache w' → heap w = heap w' → stdout w = stdout w' → w = w'.
Proof. destruct w, w'; simpl; by intros -> -> -> -> ->. Qed.

(** *** Opening the database *)

Lemma open_db_Ok url w path rows w' :
  open_db url w = (Ok (path, rows), w') →
  db_path url = Some path ∧
  (disk w !! path = None ∧ rows = ∅ ∨ disk w !! path = Some (SqliteDb rows)) ∧
  disk w' = <[path := SqliteDb rows]> (disk w) ∧
  heap w' = heap w ∧ site_packages w' = site_packages w ∧
  model_cache w' = model_cache w ∧ stdout w' = stdout w.
Proof.
  unfold open_db. destruct (db_path url) as [p|]; [|done].
  destruct (disk w !! p) as [[]|] eqn:Hp; intros [= <- <- <-]; simpl.
  - split; [done|]. split; [by right|]. by rewrite insert_id.
  - split; [done|]. split; [by left|]. done.
Qed.

Lemma open_db_present url w path rows :
  db_path url = Some path → disk w !! path = Some (SqliteDb rows) →
  open_db url w = (Ok (path, rows), w).
Proof. unfold open_db. by intros -> ->. Qed.

(** *** Creating and loading the FAISS store *)

Lemma ref_connect_Ok url f r idx w s w' :
  ref_connect url f r idx w = (Ok s, w') →
  ∃ path rows,
    db_path url = Some path ∧ size rows = size idx ∧
    (disk w !! path = None ∧ rows = ∅ ∨ disk w !! path = Some (SqliteDb rows)) ∧
    disk w' = <[path := SqliteDb rows]> (disk w) ∧
    heap w !! s = None ∧ heap w' = <[s := FAISSStore url f r idx]> (heap w) ∧
    site_packages w' = site_packages w ∧ model_cache w' = model_cache w ∧
    stdout w' = stdout w.
Proof.
  unfold ref_connect. destruct (open_db url w) as [[[path rows]|e] w1] eqn:Hdb; [|done].
  apply open_db_Ok in Hdb as (Hp & Hrows & Hd & Hh & Hs & Hm & Ho).
  case_bool_decide as Hsz; [|done]. unfold alloc. intros [= <- <-]. simpl.
  exists path, rows. rewrite Hh. repeat split; try done. apply fresh_ref_None.
Qed.

Lemma ref_FAISSDocumentStore_Ok url f r w s w' :
  ref_FAISSDocumentStore url f r w = (Ok s, w') →
  ∃ path,
    db_path url = Some path ∧
    (disk w !! path = None ∨ disk w !! path = Some (SqliteDb ∅)) ∧
    disk w' = <[path := SqliteDb ∅]> (disk w) ∧
    heap w !! s = None ∧ heap w' = <[s := FAISSStore url f r ∅]> (heap w) ∧
    site_packages w' = site_packages w ∧ model_cache w' = model_cache w ∧
    stdout w' = stdout w.
Proof.
  intros H. apply ref_connect_Ok in H as (path & rows & Hp & Hsz & Hrows & H).
  rewrite map_size_empty in Hsz. apply map_size_empty_iff in Hsz as ->.
  exists path. split; [done|]. split; [|done]. destruct Hrows as [[? _]|?]; eauto.
Qed.

Lemma ref_load_Ok index_path config_path w s w' :
  ref_load index_path config_path w = (Ok s, w') →
  ∃ idx url f r path rows,
    disk w !! index_path = Some (FaissIndexFile idx) ∧
    disk w !! config_path = Some (JsonConfig url f r) ∧
    db_path url = Some path ∧ size rows = size idx ∧
    (disk w !! path = None ∧ rows = ∅ ∨ disk w !! path = Some (SqliteDb rows)) ∧
    disk w' = <[path := SqliteDb rows]> (disk w) ∧
    heap w !! s = None ∧ heap w' = <[s := FAISSStore url f r idx]> (heap w) ∧
    site_packages w' = site_packages w ∧ model_cache w' = model_cache w ∧
    stdout w' = stdout w.
Proof.
  unfold ref_load.
  destruct (disk w !! index_path) as [[]|] eqn:Hi;
    destruct (disk w !! config_path) as [[]|] eqn:Hc; try done.
  intros H. apply ref_connect_Ok in H as (path & rows & H).
  eexists _, _, _, _, path, rows. split; [done|]. split; [done|]. done.
Qed.

(** *** Writing documents *)

Lemma write_rows_snoc ds d rows :
  write_rows (ds ++ [d]) rows = <[id d := d]> (write_rows ds rows).
Proof. unfold write_rows. by rewrite foldl_app. Qed.

(** Every document written is stored under its identity. *)
Lemma write_rows_elem ds rows d :
  d ∈ ds → ∃ d', write_rows ds rows !! id d = Some d' ∧ d' ∈ ds ∧ id d' = id d.
Proof.
  induction ds as [|x ds IH] using rev_ind; [by intros ?%elem_of_nil|].
  rewrite write_rows_snoc. intros [Hin| ->%list_elem_of_singleton]%elem_of_app.
  - destruct (decide (id x = id d)) as [Heq|Hne].
    + exists x. rewrite Heq, lookup_insert_eq. set_solver.
    + rewrite lookup_insert_ne by done.
      destruct (IH Hin) as (d' & ? & ? & ?). exists d'. set_solver.
  - exists x. rewrite lookup_insert_eq. set_solver.
Qed.

(** Nothing but the documents written enters the store. *)
Lemma write_rows_lookup ds rows i d :
  write_rows ds rows !! i = Some d → rows !! i = Some d ∨ (d ∈ ds ∧ id d = i).
Proof.
  induction ds as [|x ds IH] using rev_ind; [by left|].
  rewrite write_rows_snoc. destruct (decide (id x = i)) as [<-|Hne].
  - rewrite lookup_insert_eq. intros [= <-]. right. set_solver.
  - rewrite lookup_insert_ne by done. intros [?|[? ?]]%IH; [by left|right]. set_solver.
Qed.

Lemma write_index_no_embedding ds idx :
  Forall (λ d, embedding d = None) ds → write_index ds idx = idx.
Proof.
  unfold write_index. revert idx. induction ds as [|d ds IH]; intros idx Hds; [done|].
  apply Forall_cons in Hds as [Hd Hds]. simpl. rewrite Hd. by apply IH.
Qed.

Lemma ref_write_documents_faiss s ds w url f r idx path rows :
  heap w !! s = Some (FAISSStore url f r idx) →
  db_path url = Some path → disk w !! path = Some (SqliteDb rows) →
  ref_write_documents s ds w =
    (Ok tt,
     with_heap (<[s := FAISSStore url f r (write_index ds idx)]> (heap w))
       (with_disk (<[path := SqliteDb (write_rows (with_embedding None <$> ds) rows)]>
                     (disk w)) w)).
Proof.
  intros Hs Hp Hd. unfold ref_write_documents. rewrite Hs.
  by rewrite (open_db_present url w path rows).
Qed.

Lemma ref_write_documents_memory s ds w b stored :
  heap w !! s = Some (InMemoryStore b stored) →
  ref_write_documents s ds w =
    (Ok tt, with_heap (<[s := InMemoryStore b (write_rows ds stored)]> (heap w)) w).
Proof. intros Hs. unfold ref_write_documents. by rewrite Hs. Qed.

(** *** The update pass, saving *)

Lemma ref_update_embeddings_faiss s s0 model w url f r idx path rows :
  heap w !! s = Some (FAISSStore url f r idx) →
  db_path url = Some path → disk w !! path = Some (SqliteDb rows) →
  ref_update_embeddings m s (EmbeddingRetriever_on s0 model) w =
    (Ok tt,
     with_heap (<[s := FAISSStore url f r ((λ d, embed m model (content d)) <$> rows)]>
                  (heap w)) w).
Proof.
  intros Hs Hp Hd. unfold ref_update_embeddings. rewrite Hs.
  by rewrite (open_db_present url w path rows).
Qed.

Lemma ref_save_faiss s index_path w url f r idx :
  heap w !! s = Some (FAISSStore url f r idx) →
  ref_save s index_path w =
    (Ok tt,
     with_disk (<[index_path +:+ ".json" := JsonConfig url f r]>
                  (<[index_path := FaissIndexFile idx]> (disk w))) w).
Proof. intros Hs. unfold ref_save. by rewrite Hs. Qed.

(** *** Converting and chunking *)

Lemma elem_of_text_files dir w path t :
  (path, t) ∈ text_files dir w ↔
  disk w !! path = Some (TextFile t) ∧ String.prefix (dir +:+ "/") path = true.
Proof.
  unfold text_files. rewrite list_elem_of_omap. split.
  - intros ([p f] & Hin & Hf). apply elem_of_map_to_list in Hin.
    destruct f; try done. destruct (String.prefix _ p) eqn:Hpre; [|done].
    by simplify_eq.
  - intros [Hd Hpre]. exists (path, TextFile t). split.
    + by apply elem_of_map_to_list.
    + simpl. by rewrite Hpre.
Qed.

Lemma chunks_no_embedding p ds : Forall (λ d, embedding d = None) (chunks m p ds).
Proof.
  apply Forall_forall. intros d. unfold chunks. rewrite list_elem_of_In, in_flat_map.
  intros (d0 & _ & Hd). apply list_elem_of_In, list_elem_of_fmap in Hd as (c & -> & _). done.
Qed.

Lemma elem_of_chunks p ds d :
  d ∈ chunks m p ds ↔ ∃ d0 c, d0 ∈ ds ∧ c ∈ split m p (content d0) ∧
                             d = raw_document m (name d0) c.
Proof.
  unfold chunks. rewrite list_elem_of_In, in_flat_map. split.
  - intros (d0 & Hd0 & Hd). apply list_elem_of_In, list_elem_of_fmap in Hd as (c & -> & Hc).
    exists d0, c. by rewrite list_elem_of_In.
  - intros (d0 & c & Hd0 & Hc & ->). exists d0. rewrite <-list_elem_of_In. split; [done|].
    apply list_elem_of_In, list_elem_of_fmap. eauto.
Qed.

End ReferenceOps.

(** ** The notebooks on the reference library *)

Ltac unfold_cells :=
  unfold dense_first_run, dense_rerun, dense_notebook, sparse_notebook,
    dense_environment, dense_build, dense_query, sparse_build, sparse_query,
    logging_cell, reader_cell, pipeline_cell, ask_cell, print_answers_cell, pprint_cell,
    dense_install_cell, dense_check_faiss_cell, dense_install_faiss_cell,
    dense_check_sqlalchemy_cell, dense_install_sqlalchemy_cell, dense_store_cell,
    dense_convert_cell, dense_process_cell, dense_write_cell, dense_retriever_cell,
    dense_update_cell, dense_save_cell, dense_rerun_cell, sparse_install_cell,
    sparse_store_cell, sparse_index_cell, sparse_retriever_cell in *.

(** Taking a successful run apart, call by call. *)
Ltac inv_run :=
  repeat match goal with
  | H : (_ ≫= _) _ = (Ok _, _) |- _ =>
      let H1 := fresh "Hrun" in
      apply bind_Ok_inv in H as (? & ? & H1 & H)
  | H : call _ _ _ = (Ok _, _) |- _ =>
      let Ht := fresh "Htrace" in
      apply call_Ok_inv in H as [H Ht]; simpl in H; clear Ht
  | H : ret _ _ = (Ok _, _) |- _ => injection H as; subst
  | H : (let '(_, _) := ?x in _) _ = (Ok _, _) |- _ => destruct x
  end.

#[global] Arguments ref_bash : simpl never.
#[global] Arguments ref_import : simpl never.
#[global] Arguments ref_connect : simpl never.
#[global] Arguments ref_FAISSDocumentStore : simpl never.
#[global] Arguments ref_InMemoryDocumentStore : simpl never.
#[global] Arguments ref_write_documents : simpl never.
#[global] Arguments ref_update_embeddings : simpl never.
#[global] Arguments ref_save : simpl never.
#[global] Arguments ref_load : simpl never.
#[global] Arguments ref_convert_files_to_docs : simpl never.
#[global] Arguments ref_process : simpl never.
#[global] Arguments ref_run_batch : simpl never.
#[global] Arguments ref_EmbeddingRetriever : simpl never.
#[global] Arguments ref_BM25Retriever : simpl never.
#[global] Arguments ref_FARMReader : simpl never.
#[global] Arguments ref_ExtractiveQAPipeline : simpl never.
#[global] Arguments ref_run : simpl never.
#[global] Arguments ref_print_answers : simpl never.
#[global] Arguments ref_pprint : simpl never.
#[global] Arguments ok : simpl never.

Section ReferenceRuns.

Variable m : Models.

Lemma ref_import_inv module names w a w' :
  ref_import module names w = (Ok a, w') →
  w' = w ∧ ∀ p, required_package module = Some p → p ∈ site_packages w.
Proof.
  intros H. pose proof (ref_import_world module names w) as Hw. rewrite H in Hw.
  split; [done|]. intros p Hp. by eapply ref_import_Ok.
Qed.

Lemma ok_inv {A} (a b : A) w w' : ok a w = (Ok b, w') → b = a ∧ w' = w.
Proof. by intros [= -> ->]. Qed.

Lemma ref_convert_files_to_docs_Ok dir clean_func sp w ds w' :
  ref_convert_files_to_docs m dir clean_func sp w = (Ok ds, w') →
  w' = w ∧ ds = convert m clean_func sp (text_files dir w).
Proof.
  unfold ref_convert_files_to_docs. destruct (text_files dir w); [done|].
  by intros [= <- <-].
Qed.

Lemma with_embedding_None_id ds :
  Forall (λ d, embedding d = None) ds → with_embedding None <$> ds = ds.
Proof.
  induction 1 as [|d ds Hd _ IH]; [done|]. rewrite fmap_cons, IH. f_equal.
  destruct d; simpl in *. by subst.
Qed.

(** What a successful pass through "Create a new document store" leaves. *)
Lemma dense_build_Ok k s rt k' :
  dense_build (Reference m) k = (Ok (s, rt), k') →
  ∃ files,
    let docs := chunks m dense_preprocessor (convert m "clean_wiki_text" true files) in
    let rows := write_rows docs ∅ in
    let idx := (λ d, embed m dense_embedding_model (content d)) <$> rows in
    (∀ path t, (path, t) ∈ files ↔
       disk (world k) !! path = Some (TextFile t)
       ∧ String.prefix (doc_dir +:+ "/") path = true) ∧
    rt = EmbeddingRetriever_on s dense_embedding_model ∧
    (disk (world k) !! "mahabharata.db" = None
     ∨ disk (world k) !! "mahabharata.db" = Some (SqliteDb ∅)) ∧
    heap (world k) !! s = None ∧
    disk (world k') =
      <["mahabharata_faiss.json" := JsonConfig sql_url "Flat" true]>
        (<["mahabharata_faiss" := FaissIndexFile idx]>
           (<["mahabharata.db" := SqliteDb rows]> (disk (world k)))) ∧
    heap (world k') = <[s := FAISSStore sql_url "Flat" true idx]> (heap (world k)) ∧
    site_packages (world k') = site_packages (world k) ∧
    "farm-haystack" ∈ site_packages (world k) ∧
    model_cache (world k') = {[ dense_embedding_model ]} ∪ model_cache (world k) ∧
    stdout (world k') = stdout (world k).
Proof.
  intros H. unfold_cells. unfold_calls. inv_run.
  repeat match goal with x : Kernel |- _ => destruct x as [? ?] end. simpl in *.
  repeat match goal with
  | H : ref_import _ _ _ = (Ok _, _) |- _ => apply ref_import_inv in H as [-> H]
  end.
  match goal with
  | H : ∀ p, required_package "haystack.document_stores" = Some p → _ |- _ =>
      specialize (H "farm-haystack" eq_refl); rename H into Hpkg
  end.
  match goal with
  | H : ref_FAISSDocumentStore _ _ _ _ = (Ok _, _) |- _ =>
      apply ref_FAISSDocumentStore_Ok in H
        as (path & Hpath & Hdb & Hd0 & Hfresh & Hh0 & Hs0 & Hm0 & Ho0)
  end.
  rewrite db_path_sql_url in Hpath. injection Hpath as <-.
  repeat match goal with
  | H : ref_convert_files_to_docs _ _ _ _ _ = (Ok _, _) |- _ =>
      apply ref_convert_files_to_docs_Ok in H as [-> ->]
  | H : ok _ _ = (Ok _, _) |- _ => apply ok_inv in H as [-> ->]
  | H : ref_process _ _ _ _ = (Ok _, _) |- _ =>
      unfold ref_process in H; apply ok_inv in H as [-> ->]
  end.
  match goal with
  | H : ref_write_documents _ _ _ = (Ok _, _) |- _ =>
      erewrite ref_write_documents_faiss in H;
        [| by rewrite Hh0, lookup_insert_eq | apply db_path_sql_url
         | by rewrite Hd0, lookup_insert_eq ];
      rewrite with_embedding_None_id in H by apply chunks_no_embedding;
      rewrite write_index_no_embedding in H by apply chunks_no_embedding;
      simplify_eq/=
  end.
  match goal with
  | H : ref_EmbeddingRetriever _ _ _ = (Ok _, _) |- _ =>
      unfold ref_EmbeddingRetriever in H; simplify_eq/=
  end.
  match goal with
  | H : ref_update_embeddings _ _ _ _ = (Ok _, _) |- _ =>
      erewrite ref_update_embeddings_faiss in H;
        [| simpl; by rewrite lookup_insert_eq | apply db_path_sql_url
         | simpl; by rewrite lookup_insert_eq ];
      simplify_eq/=
  end.
  match goal with
  | H : ref_save _ _ _ = (Ok _, _) |- _ =>
      erewrite ref_save_faiss in H; [| simpl; by rewrite lookup_insert_eq ];
      simplify_eq/=
  end.
  match type of Hd0 with disk ?w = _ => exists (text_files doc_dir w) end. simpl.
  split.
  { intros path t. rewrite elem_of_text_files, Hd0.
    destruct (decide (path = "mahabharata.db")) as [->|Hne].
    - split; intros [_ Hp]; discriminate Hp.
    - by rewrite lookup_insert_ne. }
  split; [done|]. split; [done|]. split; [done|].
  rewrite Hd0, Hh0, !insert_insert_eq, Hs0, Hm0, Ho0. done.
Qed.

Lemma files_to_index_eq : files_to_index = ["data/Mahabharata/1-18 books combined.txt"].
Proof. reflexivity. Qed.

Lemma ref_run_batch_Ok p path w a w' :
  ref_run_batch m p [path] w = (Ok a, w') →
  ∃ t, disk w !! path = Some (TextFile t) ∧
       ref_write_documents (indexing_store p)
         (chunks m (indexing_preprocessor p) [raw_document m path t]) w = (Ok a, w').
Proof.
  unfold ref_run_batch. simpl. destruct (disk w !! path) as [[t| | |]|]; try done.
  simpl. eauto.
Qed.

(** What a successful pass through the indexing cells of the sparse notebook
    leaves. *)
Lemma sparse_build_Ok k s rt k' :
  sparse_build (Reference m) k = (Ok (s, rt), k') →
  ∃ t,
    disk (world k) !! "data/Mahabharata/1-18 books combined.txt" = Some (TextFile t) ∧
    rt = BM25Retriever_on s ∧
    heap (world k) !! s = None ∧
    heap (world k') =
      <[s := InMemoryStore true
               (write_rows
                  (chunks m sparse_preprocessor
                     [raw_document m "data/Mahabharata/1-18 books combined.txt" t]) ∅)]>
        (heap (world k)) ∧
    disk (world k') = disk (world k) ∧
    site_packages (world k') = site_packages (world k) ∧
    "farm-haystack" ∈ site_packages (world k) ∧
    model_cache (world k') = model_cache (world k) ∧
    stdout (world k') = stdout (world k).
Proof.
  intros H. unfold_cells. unfold_calls. rewrite files_to_index_eq in H. inv_run.
  repeat match goal with x : Kernel |- _ => destruct x as [? ?] end. simpl in *.
  repeat match goal with
  | H : ref_import _ _ _ = (Ok _, _) |- _ => apply ref_import_inv in H as [-> H]
  end.
  match goal with
  | H : ∀ p, required_package "haystack.document_stores" = Some p → _ |- _ =>
      specialize (H "farm-haystack" eq_refl)
  end.
  repeat match goal with
  | H : ok _ _ = (Ok _, _) |- _ => apply ok_inv in H as [-> ->]
  | H : ref_InMemoryDocumentStore _ _ = (Ok _, _) |- _ =>
      unfold ref_InMemoryDocumentStore, alloc in H; simplify_eq/=
  | H : ref_BM25Retriever _ _ = (Ok _, _) |- _ =>
      unfold ref_BM25Retriever in H; apply ok_inv in H as [-> ->]
  | H : ref_run_batch _ _ _ _ = (Ok _, _) |- _ =>
      apply ref_run_batch_Ok in H as (t & Ht & H); simpl in H;
      erewrite ref_write_documents_memory in H; [| simpl; by rewrite lookup_insert_eq ];
      simplify_eq/=
  end.
  exists t. rewrite insert_insert_eq.
  repeat split; try done. apply fresh_ref_None.
Qed.

(** *** What querying leaves untouched *)

#[global] Instance stores_kept_preorder : PreOrder stores_kept.
Proof.
  split.
  - by intros w.
  - intros w1 w2 w3 (? & ? & ?) (? & ? & ?). repeat split; congruence.
Qed.

#[global] Instance files_kept_preorder : PreOrder files_kept.
Proof. split; [by intros w | intros w1 w2 w3; unfold files_kept; congruence]. Qed.

Lemma triple_call_kept {A} (R : relation World) `{!PreOrder R} w0
    (c : Call) (op : Op A) :
  (∀ w, R w (op w).2) → triple (R w0) (call c op) (λ _, R w0) (R w0).
Proof.
  intros Hop. apply triple_call. intros w Hw. specialize (Hop w).
  destruct (op w) as [[a|e] w']; simpl in *; by etrans.
Qed.

Lemma ref_FARMReader_kept model gpu w : stores_kept w (ref_FARMReader model gpu w).2.
Proof. done. Qed.

Lemma ref_run_world pipe q params w : (ref_run m pipe q params w).2 = w.
Proof. done. Qed.

Lemma ref_print_answers_kept p details w : stores_kept w (ref_print_answers p details w).2.
Proof. done. Qed.

Lemma ref_pprint_kept p w : stores_kept w (ref_pprint p w).2.
Proof. done. Qed.

Lemma ref_import_kept module names w : stores_kept w (ref_import module names w).2.
Proof. by rewrite ref_import_world. Qed.

Ltac kept_tac :=
  cbv beta;
  lazymatch goal with
  | |- triple _ (mret _) _ _ => by apply triple_ret
  | |- triple _ (ret _) _ _ => by apply triple_ret
  | |- triple _ (_ ≫= _) _ _ => eapply triple_bind; [kept_tac | intros ?; kept_tac]
  | |- triple _ (call _ _) _ _ =>
      apply triple_call_kept; [apply _ | intros ?; simpl;
        first [ apply ref_import_kept | apply ref_FARMReader_kept
              | apply ref_print_answers_kept | apply ref_pprint_kept | done ] ]
  end.

Lemma dense_query_kept rt q w0 :
  triple (stores_kept w0) (dense_query (Reference m) rt q)
    (λ _, stores_kept w0) (stores_kept w0).
Proof. unfold_cells. unfold_calls. kept_tac. Qed.

Lemma sparse_query_kept rt q w0 :
  triple (stores_kept w0) (sparse_query (Reference m) rt q)
    (λ _, stores_kept w0) (stores_kept w0).
Proof. unfold_cells. unfold_calls. kept_tac. Qed.

End ReferenceRuns.

(** ** Retrieval and reading *)

Section Ranking.

Context {A : Type} (sc : A → Z).

Lemma rank_sorted l : StronglySorted (better sc) (rank sc l).
Proof. apply StronglySorted_merge_sort; apply _. Qed.

Lemma rank_perm l : rank sc l ≡ₚ l.
Proof. apply merge_sort_Permutation. Qed.

Lemma top_sorted n l : StronglySorted (better sc) (take n (rank sc l)).
Proof.
  pose proof (rank_sorted l) as H. rewrite <-(take_drop n (rank sc l)) in H.
  by apply StronglySorted_app_1_l in H.
Qed.

Lemma top_subseteq n l : take n (rank sc l) ⊆ l.
Proof. intros x Hx. apply subseteq_take in Hx. by rewrite rank_perm in Hx. Qed.

Lemma top_length n l : (length (take n (rank sc l)) ≤ n)%nat.
Proof. rewrite length_take. lia. Qed.

End Ranking.

Lemma top_k_Retriever : top_k_of "Retriever" run_params = 10.
Proof. reflexivity. Qed.

Lemma top_k_Reader : top_k_of "Reader" run_params = 2.
Proof. reflexivity. Qed.

Lemma required_package_haystack :
  required_package "haystack.nodes" = Some "farm-haystack"
  ∧ required_package "haystack.pipelines" = Some "farm-haystack"
  ∧ required_package "haystack.utils" = Some "farm-haystack"
  ∧ required_package "haystack.document_stores" = Some "farm-haystack"
  ∧ required_package "haystack.pipelines.standard_pipelines" = Some "farm-haystack".
Proof. done. Qed.

Section Retrieval.

Variable m : Models.

Lemma retrieve_Ok r q n w ds :
  retrieve m r q n w = Ok ds →
  ∃ cands keep ranked,
    candidates r w = Ok (cands, keep) ∧
    ranked ⊆ cands ∧
    StronglySorted (better (relevance m r q cands)) ranked ∧
    ds = strip_embedding keep <$> ranked ∧
    (length ds ≤ n)%nat.
Proof.
  unfold retrieve. destruct (candidates r w) as [[cands keep]|e]; [|done].
  intros [= <-]. exists cands, keep, (take n (rank (relevance m r q cands) cands)).
  split; [done|]. split; [apply top_subseteq|]. split; [apply top_sorted|].
  split; [done|]. rewrite length_fmap. apply top_length.
Qed.

Lemma elem_of_spans rd q d a : a ∈ spans m rd q d → document_id a = id d.
Proof.
  unfold spans. intros ([t s] & -> & _)%list_elem_of_fmap. done.
Qed.

Lemma read_spec rd q ds n :
  StronglySorted (better score) (read m rd q ds n) ∧
  (length (read m rd q ds n) ≤ n)%nat ∧
  ∀ a, a ∈ read m rd q ds n → ∃ d, d ∈ ds ∧ a ∈ spans m rd q d ∧ document_id a = id d.
Proof.
  unfold read. split; [apply top_sorted|]. split; [apply top_length|].
  intros a Ha. apply top_subseteq in Ha.
  apply list_elem_of_In, in_flat_map in Ha as (d & Hd & Ha).
  apply list_elem_of_In in Hd, Ha. exists d. eauto using elem_of_spans.
Qed.

(** The pipeline is the retriever followed by the reader. *)
Lemma run_nodes_graph pipe q params w :
  run_nodes m (graph pipe) params {| query := q; answers := []; documents := [] |} w =
  match retrieve m (pipe_retriever pipe) q (top_k_of "Retriever" params) w with
  | Ok ds =>
      Ok {| query := q;
            answers := read m (pipe_reader pipe) q ds (top_k_of "Reader" params);
            documents := ds |}
  | Err e => Err e
  end.
Proof. simpl. by destruct (retrieve _ _ _ _ _). Qed.

(** Retrieval reads the store object and the files, nothing else. *)
Lemma candidates_ext r r' w w' :
  match r, r' with
  | EmbeddingRetriever_on s _, EmbeddingRetriever_on s' _ => heap w !! s = heap w' !! s'
  | BM25Retriever_on s, BM25Retriever_on s' => heap w !! s = heap w' !! s'
  | _, _ => False
  end →
  disk w = disk w' → candidates r w = candidates r' w'.
Proof.
  intros Hh Hd. destruct r, r'; try done; simpl; rewrite Hh; [|done].
  destruct (heap w' !! _) as [[]|]; [|done..]. simpl. by rewrite Hd.
Qed.

Lemma retrieve_embedding_ext s s' model q n w w' :
  heap w !! s = heap w' !! s' → disk w = disk w' →
  retrieve m (EmbeddingRetriever_on s model) q n w
  = retrieve m (EmbeddingRetriever_on s' model) q n w'.
Proof.
  intros Hh Hd. unfold retrieve.
  by rewrite (candidates_ext (EmbeddingRetriever_on s model)
                (EmbeddingRetriever_on s' model) w w').
Qed.

Lemma retrieve_kept r q n w w' : stores_kept w w' → retrieve m r q n w' = retrieve m r q n w.
Proof.
  intros (Hd & Hh & _). unfold retrieve. rewrite (candidates_ext r r w' w); [done| |done].
  destruct r; by rewrite Hh.
Qed.

Lemma answer_to_kept rt q w w' :
  stores_kept w w' → answer_to m rt q w' = answer_to m rt q w.
Proof.
  intros H. unfold answer_to. rewrite !run_nodes_graph. simpl.
  by rewrite (retrieve_kept _ _ _ w w').
Qed.

End Retrieval.

(** ** Asking a question on the reference library *)

Section ReferenceQueries.

Variable m : Models.

Lemma import_Reference_Ok module names k p :
  required_package module = Some p → p ∈ site_packages (world k) →
  import (Reference m) module names k
  = (Ok tt, {| trace := trace k ++ [(call_import module names, None)]; world := world k |}).
Proof.
  intros Hp Hin. unfold import, call. simpl. unfold ref_import. rewrite Hp.
  by rewrite bool_decide_true.
Qed.

(** A successful query cell sequence returns the pipeline's prediction and
    keeps files and stores. *)
Lemma query_Ok (c : M Prediction) rt q k p k' :
  c = dense_query (Reference m) rt q ∨ c = sparse_query (Reference m) rt q →
  c k = (Ok p, k') →
  answer_to m rt q (world k) = Ok p ∧ stores_kept (world k) (world k').
Proof.
  intros Hc H.
  assert (stores_kept (world k) (world k')) as Hkept.
  { destruct Hc as [-> | ->].
    - pose proof (dense_query_kept m rt q (world k) k (reflexivity _)) as Hk.
      by rewrite H in Hk.
    - pose proof (sparse_query_kept m rt q (world k) k (reflexivity _)) as Hk.
      by rewrite H in Hk. }
  split; [|done].
  destruct Hc as [-> | ->]; unfold_cells; unfold_calls; inv_run;
    repeat match goal with x : Kernel |- _ => destruct x as [? ?] end; simpl in *;
    repeat match goal with
    | H : ref_import _ _ _ = (Ok _, _) |- _ => apply ref_import_inv in H as [-> _]
    | H : ref_FARMReader _ _ _ = (Ok _, _) |- _ =>
        unfold ref_FARMReader in H; simplify_eq/=
    | H : ref_ExtractiveQAPipeline _ _ _ = (Ok _, _) |- _ =>
        unfold ref_ExtractiveQAPipeline in H; apply ok_inv in H as [-> ->]
    | H : ref_print_answers _ _ _ = (Ok _, _) |- _ =>
        unfold ref_print_answers in H; simplify_eq/=
    | H : ref_pprint _ _ = (Ok _, _) |- _ => unfold ref_pprint in H; simplify_eq/=
    end;
    match goal with
    | H : ref_run _ _ _ _ _ = (Ok _, _) |- _ =>
        unfold ref_run in H; injection H as H _; rewrite <-H
    end;
    by apply (answer_to_kept m rt q).
Qed.

Lemma run_Reference pipe q params k :
  run (Reference m) pipe q params k
  = (run_nodes m (graph pipe) params {| query := q; answers := []; documents := [] |}
       (world k),
     {| trace := trace k ++ [(call_run q params,
                              raised (run_nodes m (graph pipe) params
                                        {| query := q; answers := []; documents := [] |}
                                        (world k)))];
        world := world k |}).
Proof. reflexivity. Qed.

(** With Haystack installed, the query cells return what the pipeline returns. *)
Lemma dense_query_result rt q k :
  "farm-haystack" ∈ site_packages (world k) →
  (dense_query (Reference m) rt q k).1 = answer_to m rt q (world k).
Proof.
  intros Hin. destruct required_package_haystack as (Hn & Hp & Hu & _).
  unfold dense_query, reader_cell, pipeline_cell, ask_cell, print_answers_cell.
  erewrite bind_Ok; [| erewrite bind_Ok; [| eapply import_Reference_Ok; [eassumption | simpl; exact Hin] ];
                       unfold FARMReader, call; simpl; reflexivity ].
  erewrite bind_Ok; [| erewrite bind_Ok; [| eapply import_Reference_Ok; [eassumption | simpl; exact Hin] ];
                       unfold ExtractiveQAPipeline, call; simpl; reflexivity ].
  match goal with |- ((run _ ?pipe _ _ ≫= _) ?kx).1 = _ =>
    pose proof (run_Reference pipe q run_params kx) as Hrun
  end.
  simpl world in Hrun.
  change (run_nodes m (graph _) run_params _ ?w) with (answer_to m rt q w) in Hrun.
  rewrite (answer_to_kept m rt q (world k)) in Hrun by done.
  destruct (answer_to m rt q (world k)) as [p|e].
  - erewrite bind_Ok; [| exact Hrun ].
    erewrite bind_Ok; [done|].
    erewrite bind_Ok; [| eapply import_Reference_Ok; [eassumption | simpl; exact Hin] ].
    unfold print_answers, call. simpl. reflexivity.
  - erewrite bind_Err; [done | exact Hrun].
Qed.

(** *** Loading what was saved *)

Lemma ref_load_saved index_path config_path w idx url f r path rows :
  disk w !! index_path = Some (FaissIndexFile idx) →
  disk w !! config_path = Some (JsonConfig url f r) →
  db_path url = Some path → disk w !! path = Some (SqliteDb rows) →
  size rows = size idx →
  ref_load index_path config_path w
  = (Ok (fresh_ref (heap w)),
     with_heap (<[fresh_ref (heap w) := FAISSStore url f r idx]> (heap w)) w).
Proof.
  intros Hi Hc Hp Hd Hsz. unfold ref_load, ref_connect. rewrite Hi, Hc.
  rewrite (open_db_present url w path rows) by done.
  by rewrite bool_decide_true.
Qed.

Lemma getattr_Ok s k url f r idx :
  heap (world k) !! s = Some (FAISSStore url f r idx) →
  getattr_faiss_index_factory_str s k = (Ok f, k).
Proof. intros H. unfold getattr_faiss_index_factory_str. by rewrite H. Qed.

(** The re-run cell on a disk that holds a saved store. *)
Lemma dense_rerun_cell_saved k idx r rows :
  "farm-haystack" ∈ site_packages (world k) →
  disk (world k) !! "mahabharata_faiss" = Some (FaissIndexFile idx) →
  disk (world k) !! "mahabharata_faiss.json" = Some (JsonConfig sql_url "Flat" r) →
  disk (world k) !! "mahabharata.db" = Some (SqliteDb rows) →
  size rows = size idx →
  ∃ k',
    dense_rerun_cell (Reference m) k
    = (Ok (fresh_ref (heap (world k)),
           EmbeddingRetriever_on (fresh_ref (heap (world k))) dense_embedding_model), k') ∧
    disk (world k') = disk (world k) ∧
    heap (world k') =
      <[fresh_ref (heap (world k)) := FAISSStore sql_url "Flat" r idx]> (heap (world k)) ∧
    site_packages (world k') = site_packages (world k).
Proof.
  intros Hin Hi Hc Hd Hsz. destruct required_package_haystack as (Hn & _ & _ & Hs & _).
  unfold dense_rerun_cell. eexists.
  erewrite bind_Ok; [| eapply import_Reference_Ok; [eassumption | simpl; exact Hin] ].
  erewrite bind_Ok; [| eapply import_Reference_Ok; [eassumption | simpl; exact Hin] ].
  erewrite bind_Ok;
    [| unfold load, call; simpl;
       erewrite ref_load_saved; [reflexivity | exact Hi | exact Hc
                                | apply db_path_sql_url | exact Hd | exact Hsz ] ].
  erewrite bind_Ok; [| eapply getattr_Ok; simpl; apply lookup_insert_eq ].
  erewrite bind_Ok; [| reflexivity ].
  erewrite bind_Ok; [| unfold EmbeddingRetriever, call; simpl; reflexivity ].
  simpl. done.
Qed.

(** *** The sparse notebook writes no file *)

Lemma stores_kept_files w w' : stores_kept w w' → files_kept w w'.
Proof. by intros [? _]. Qed.

Lemma triple_import (P E : World → Prop) module names :
  (∀ w, P w → E w) → triple P (import (Reference m) module names) (λ _, P) E.
Proof.
  intros HE. apply triple_call. intros w Hw. simpl.
  pose proof (ref_import_world module names w) as Hx.
  destruct (ref_import module names w) as [[a|e] w']; simpl in *; subst; auto.
Qed.

Lemma ref_bash_files_kept script w : files_kept w (ref_bash script w).2.
Proof. by destruct (ref_bash_frame script w) as [? _]. Qed.

Lemma ref_write_documents_memory_files s ds w b stored :
  heap w !! s = Some (InMemoryStore b stored) →
  files_kept w (ref_write_documents s ds w).2.
Proof. intros H. by erewrite ref_write_documents_memory. Qed.

Lemma ref_run_batch_memory_files p paths w b stored :
  heap w !! indexing_store p = Some (InMemoryStore b stored) →
  files_kept w (ref_run_batch m p paths w).2.
Proof.
  intros H. unfold ref_run_batch. destruct (mapM _ paths); [|done].
  by eapply ref_write_documents_memory_files.
Qed.

Lemma logging_cell_kept (R : relation World) `{!PreOrder R} w0 :
  triple (R w0) (logging_cell (Reference m)) (λ _, R w0) (R w0).
Proof.
  unfold logging_cell. eapply triple_bind; [by apply triple_import|]. intros ?.
  unfold logging_basicConfig, logging_setLevel.
  eapply triple_bind; [|intros ?]; apply triple_call_kept; try apply _; by intros w.
Qed.

Lemma sparse_build_files_kept w0 :
  triple (files_kept w0) (sparse_build (Reference m)) (λ _, files_kept w0) (files_kept w0).
Proof.
  unfold sparse_build, sparse_store_cell, sparse_index_cell, sparse_retriever_cell.
  set (in_memory s w := files_kept w0 w
                        ∧ ∃ b stored, heap w !! s = Some (InMemoryStore b stored)).
  assert (∀ s w, in_memory s w → files_kept w0 w) as Hweak by (intros s w H; exact (proj1 H)).
  eapply triple_bind.
  { eapply triple_bind; [by apply triple_import|]. intros ?.
    apply (triple_call _ _ _ in_memory).
    intros w Hw. simpl. split; [done|]. eexists _, _. apply lookup_insert_eq. }
  intros s. eapply triple_bind.
  { eapply triple_bind; [apply triple_import, Hweak|]. intros ?.
    eapply triple_bind; [apply triple_import, Hweak|]. intros ?.
    eapply triple_bind; [apply triple_import, Hweak|]. intros ?.
    eapply triple_bind.
    { apply (triple_call _ _ _ (λ _, in_memory s)). intros w Hw. done. }
    intros pre. eapply triple_bind.
    { apply (triple_call _ _ _ (λ p w, in_memory s w ∧ indexing_store p = s)).
      intros w Hw. done. }
    intros p. apply (triple_call _ _ _ (λ _, files_kept w0)).
    intros w [[Hw (b & stored & Hs)] <-]. simpl.
    pose proof (ref_run_batch_memory_files p files_to_index w b stored Hs) as Hk.
    destruct (ref_run_batch m p files_to_index w) as [[?|?] w']; simpl in *;
      unfold files_kept in *; congruence. }
  intros ?. eapply triple_bind.
  { eapply triple_bind; [by apply triple_import|]. intros ?.
    unfold BM25Retriever. apply triple_call_kept; [apply _|]. by intros w. }
  intros rt. by apply triple_ret.
Qed.

Lemma sparse_query_files_kept rt q w0 :
  triple (files_kept w0) (sparse_query (Reference m) rt q)
    (λ _, files_kept w0) (files_kept w0).
Proof.
  intros k Hk. pose proof (sparse_query_kept m rt q (world k) k (reflexivity _)) as H.
  destruct ((sparse_query (Reference m) rt q k).1);
    apply stores_kept_files in H; unfold files_kept in *; congruence.
Qed.

Lemma sparse_notebook_files_kept q w0 :
  triple (files_kept w0) (sparse_notebook (Reference m) q)
    (λ _, files_kept w0) (files_kept w0).
Proof.
  unfold sparse_notebook, sparse_install_cell, bash.
  eapply triple_bind.
  { apply triple_call_kept; [apply _|]. intros w. apply ref_bash_files_kept. }
  intros ?. eapply triple_bind; [apply logging_cell_kept; apply _|]. intros ?.
  eapply triple_bind; [apply sparse_build_files_kept|]. intros [s rt].
  apply sparse_query_files_kept.
Qed.

End ReferenceQueries.

(** ** Counting calls *)



(** ** C7: failures surface unhandled *)

(** C7.  Whatever the library does, a call that raises is the last call of its
    cell and of the run, and its exception is what the cell and the run end
    with: no cell of either notebook catches, retries, recovers from or
    translates a failure.  The only exceptions that do not come from a call
    are the re-run cell's own [assert] and attribute access. *)
Theorem failures_surface_unhandled (L : Library) (q : string) :
  (unhandled [] (dense_install_cell L) ∧ unhandled [] (logging_cell L) ∧
   unhandled [] (dense_check_faiss_cell L) ∧ unhandled [] (dense_install_faiss_cell L) ∧
   unhandled [] (dense_check_sqlalchemy_cell L) ∧
   unhandled [] (dense_install_sqlalchemy_cell L) ∧
   unhandled [] (dense_store_cell L) ∧ unhandled [] (dense_convert_cell L) ∧
   (∀ files_to_docs, unhandled [] (dense_process_cell L files_to_docs)) ∧
   (∀ store docs, unhandled [] (dense_write_cell L store docs)) ∧
   (∀ store, unhandled [] (dense_retriever_cell L store)) ∧
   (∀ store retriever, unhandled [] (dense_update_cell L store retriever)) ∧
   (∀ store, unhandled [] (dense_save_cell L store)) ∧
   unhandled rerun_own (dense_rerun_cell L) ∧
   unhandled [] (reader_cell L) ∧
   (∀ reader retriever, unhandled [] (pipeline_cell L reader retriever)) ∧
   (∀ pipe, unhandled [] (ask_cell L pipe q)) ∧
   (∀ prediction, unhandled [] (print_answers_cell L prediction))) ∧
  (unhandled [] (sparse_install_cell L) ∧ unhandled [] (sparse_store_cell L) ∧
   (∀ store, unhandled [] (sparse_index_cell L store)) ∧
   (∀ store, unhandled [] (sparse_retriever_cell L store)) ∧
   (∀ prediction, unhandled [] (pprint_cell L prediction))) ∧
  (unhandled [] (dense_first_run L q) ∧ unhandled rerun_own (dense_rerun L q) ∧
   unhandled rerun_own (dense_notebook L q) ∧ unhandled [] (sparse_notebook L q)).
Proof.
  repeat apply conj; intros; eapply runs_unhandled;
    first [ solve [eauto with runs]
          | unfold_cells; unfold_calls; runs_tac ].
Qed.

(** ** C9: the assertion of the re-run cell *)

(** C9.  In the re-run cell, once [FAISSDocumentStore.load] has returned a
    store: if its [faiss_index_factory_str] is ["Flat"] the assertion passes
    and the cell goes on to build the retriever on that store; if it is
    anything else the cell stops with [AssertionError], the load being the
    last call made, so no retriever is constructed. *)
Theorem rerun_assertion (L : Library) (k k1 : Kernel) (store : nat)
    (url f : string) (r : bool) (idx : gmap string Embedding) :
  (import L "haystack.document_stores" ["FAISSDocumentStore"] ;;
   import L "haystack.nodes" ["EmbeddingRetriever"] ;;
   load L "mahabharata_faiss" "mahabharata_faiss.json") k = (Ok store, k1) →
  heap (world k1) !! store = Some (FAISSStore url f r idx) →
  (f = "Flat" →
     dense_rerun_cell L k
     = (retriever ← EmbeddingRetriever L store dense_embedding_model;
        mret (store, retriever)) k1) ∧
  (f ≠ "Flat" →
     dense_rerun_cell L k = (Err AssertionError, k1) ∧
     new_log (dense_rerun_cell L) k
     = succeeded [ call_import "haystack.document_stores" ["FAISSDocumentStore"];
                   call_import "haystack.nodes" ["EmbeddingRetriever"];
                   call_load "mahabharata_faiss" "mahabharata_faiss.json" ]).
Proof.
  intros Hload Hstore.
  assert (∀ rest : nat → M (nat * Retriever),
            (import L "haystack.document_stores" ["FAISSDocumentStore"] ;;
             import L "haystack.nodes" ["EmbeddingRetriever"] ;;
             sqlite_document_store ← load L "mahabharata_faiss" "mahabharata_faiss.json";
             rest sqlite_document_store) k = rest store k1) as Hcell.
  { intros rest. revert Hload. unfold mbind, M_bind, bind.
    destruct (import L "haystack.document_stores" _ k) as [[[]|e1] k2]; [|done].
    destruct (import L "haystack.nodes" _ k2) as [[[]|e2] k3]; [|done].
    by intros ->. }
  assert (trace k1 = trace k
          ++ succeeded [ call_import "haystack.document_stores" ["FAISSDocumentStore"];
                         call_import "haystack.nodes" ["EmbeddingRetriever"];
                         call_load "mahabharata_faiss" "mahabharata_faiss.json" ]) as Htrace.
  { unfold import, load in Hload.
    apply bind_Ok_inv in Hload as (? & k2 & H1 & Hload).
    apply bind_Ok_inv in Hload as (? & k3 & H2 & H3).
    apply call_Ok_inv in H1 as [_ T1]. apply call_Ok_inv in H2 as [_ T2].
    apply call_Ok_inv in H3 as [_ T3].
    rewrite T3, T2, T1. simpl. by rewrite <-!(assoc_L (++)). }
  unfold dense_rerun_cell. rewrite Hcell.
  erewrite bind_Ok; [| unfold getattr_faiss_index_factory_str; by rewrite Hstore ].
  split; intros Hf.
  - subst f. erewrite bind_Ok; [done|]. reflexivity.
  - assert (assert (bool_decide (f = "Flat")) k1 = (Err AssertionError, k1)) as Hassert.
    { by rewrite bool_decide_false. }
    split.
    + by erewrite bind_Err.
    + unfold new_log, dense_rerun_cell. rewrite Hcell.
      erewrite bind_Ok; [| unfold getattr_faiss_index_factory_str; by rewrite Hstore ].
      erewrite bind_Err; [|exact Hassert]. simpl. by rewrite Htrace, drop_app_length.
Qed.

(** ** C6: chunking parameters, and chunking before writing *)

Ltac at_index Hruns Hi i :=
  let Hs := fresh "Hs" in
  pose proof (runs_at _ _ _ _ _ _ _ Hruns Hi) as Hs;
  unfold_scripts; find_index Hs i.

Ltac earlier Hruns Hi :=
  eapply (runs_before _ _ _ _ _ _ _ _ _ Hruns Hi); [lia | reflexivity].

(** ** What a logged call was given *)

Lemma runs_trace_Ok {A} own s (c : M A) k a k1 :
  runs own s c → c k = (Ok a, k1) → trace k1 = trace k ++ succeeded s.
Proof.
  intros Hc Hk. destruct (Hc k) as (log & Ht & Hf). rewrite Hk in Ht, Hf.
  simpl in *. by subst log.
Qed.

Lemma follows_length {A} own s (r : result A) log :
  follows own s r log → (length log ≤ length s)%nat.
Proof.
  destruct r as [a|e]; simpl.
  - intros ->. unfold succeeded. by rewrite length_fmap.
  - intros [(pre & c & post & -> & ->)|(_ & pre & post & -> & ->)];
      unfold succeeded; rewrite !length_app, ?length_fmap; simpl; lia.
Qed.

(** An entry logged past the script of [c] belongs to what follows [c],
    which therefore returned. *)
Lemma bind_reached {A B} own s1 s2 (c : M A) (f : A → M B) k j e :
  runs own s1 c → (∀ a, runs own s2 (f a)) →
  new_log (c ≫= f) k !! (length s1 + j) = Some e →
  ∃ a k1, c k = (Ok a, k1) ∧ new_log (f a) k1 !! j = Some e.
Proof.
  intros Hc Hf Hi. destruct (runs_new_log own s1 c k Hc) as [Ht1 Hf1].
  destruct (c k) as [[a|e0] k1] eqn:Hck.
  - exists a, k1. split; [done|].
    destruct (runs_new_log own s2 (f a) k1 (Hf a)) as [Ht2 _].
    revert Hi. unfold new_log at 1. rewrite (bind_Ok _ _ _ _ _ Hck), Ht2.
    rewrite (runs_trace_Ok own s1 c k a k1 Hc Hck), <-(assoc_L (++)), drop_app_length.
    rewrite lookup_app_r; unfold succeeded; rewrite length_fmap; [|lia].
    by replace (length s1 + j - length s1) with j by lia.
  - exfalso. revert Hi. unfold new_log at 1. rewrite (bind_Err _ _ _ _ _ Hck).
    apply follows_length in Hf1. unfold new_log in Hf1. rewrite Hck in Hf1.
    simpl in *. intros Hi%lookup_lt_Some. lia.
Qed.

(** An entry logged within the script of [c] was logged by [c]. *)
Lemma bind_within {A B} own s1 s2 (c : M A) (f : A → M B) k i e :
  runs own s1 c → (∀ a, runs own s2 (f a)) →
  new_log (c ≫= f) k !! i = Some e → (i < length s1)%nat →
  new_log c k !! i = Some e.
Proof.
  intros Hc Hf Hi Hlt. destruct (runs_new_log own s1 c k Hc) as [Ht1 Hf1].
  destruct (c k) as [[a|e0] k1] eqn:Hck.
  - destruct (runs_new_log own s2 (f a) k1 (Hf a)) as [Ht2 _].
    revert Hi. unfold new_log. rewrite (bind_Ok _ _ _ _ _ Hck), Ht2, Hck. simpl.
    rewrite (runs_trace_Ok own s1 c k a k1 Hc Hck), <-(assoc_L (++)), !drop_app_length.
    rewrite lookup_app_l; [done|]. unfold succeeded. by rewrite length_fmap.
  - revert Hi. unfold new_log. by rewrite (bind_Err _ _ _ _ _ Hck), Hck.
Qed.

(** The first entry a call logs carries the outcome of that call. *)
Lemma bind_head {A B} own s2 (c0 : Call) (op : Op A) (f : A → M B) k c' o :
  (∀ a, runs own s2 (f a)) →
  new_log (call c0 op ≫= f) k !! 0 = Some (c', o) →
  c' = c0 ∧ o = raised (call c0 op k).1.
Proof.
  intros Hf Hi.
  apply (bind_within own [c0] s2) in Hi; [|apply runs_call|done|simpl; lia].
  revert Hi. unfold new_log, call. destruct (op (world k)) as [r w]. simpl.
  rewrite drop_app_length. by intros [= <- <-].
Qed.

Section Dataflow.

Variable L : Library.

Ltac cell_runs := intros; unfold_cells; unfold_calls; runs_tac.

Lemma dense_store_cell_runs own : runs own (take 3 dense_build_script) (dense_store_cell L).
Proof. cell_runs. Qed.

Lemma dense_convert_cell_runs own :
  runs own (take 2 (drop 3 dense_build_script)) (dense_convert_cell L).
Proof. cell_runs. Qed.

Lemma dense_process_cell_runs own files :
  runs own (take 3 (drop 5 dense_build_script)) (dense_process_cell L files).
Proof. cell_runs. Qed.

(** Inside the cells that build the dense store, the call that writes is
    given the store that was built and the documents [process] returned. *)
Lemma dense_build_write k i o :
  new_log (dense_build L) k !! i = Some (call_write_documents, o) →
  ∃ store files docs k1 k2 kw,
    dense_store_cell L k = (Ok store, k1) ∧
    dense_convert_cell L k1 = (Ok files, k2) ∧
    dense_process_cell L files k2 = (Ok docs, kw) ∧
    o = raised (write_documents L store docs kw).1.
Proof.
  intros Hi. pose proof (dense_build_runs L [] k) as Hruns.
  assert (i = 8) as ->.
  { pose proof (runs_at _ _ _ _ _ _ _ (dense_build_runs L []) Hi) as Hs.
    unfold_scripts. find_index Hs i. done. }
  unfold dense_build in Hi.
  apply (bind_reached [] (take 3 dense_build_script) (drop 3 dense_build_script) _ _ _ 5) in Hi
    as (store & k1 & Hstore & Hi); [|apply dense_store_cell_runs|cell_runs].
  apply (bind_reached [] (take 2 (drop 3 dense_build_script)) (drop 5 dense_build_script) _ _ _ 3) in Hi
    as (files & k2 & Hconv & Hi); [|apply dense_convert_cell_runs|cell_runs].
  apply (bind_reached [] (take 3 (drop 5 dense_build_script)) (drop 8 dense_build_script) _ _ _ 0) in Hi
    as (docs & kw & Hproc & Hi); [|apply dense_process_cell_runs|cell_runs].
  unfold dense_write_cell, write_documents in Hi.
  apply (bind_head [] (drop 9 dense_build_script)) in Hi as [_ ->]; [|cell_runs].
  by exists store, files, docs, k1, k2, kw.
Qed.

Ltac split_cell H :=
  repeat match type of H with
  | (_ ≫= _) _ = (Ok _, _) =>
      let H1 := fresh "Hcall" in
      apply bind_Ok_inv in H as (? & ? & H1 & H)
  end.

Lemma dense_chunked_intro k k0 k1 k2 kw store files docs a :
  dense_environment L k = (Ok a, k0) →
  dense_store_cell L k0 = (Ok store, k1) →
  dense_convert_cell L k1 = (Ok files, k2) →
  dense_process_cell L files k2 = (Ok docs, kw) →
  dense_chunked L k kw store docs.
Proof.
  intros Henv Hstore Hconv Hproc. destruct a.
  unfold dense_store_cell in Hstore. unfold dense_convert_cell in Hconv.
  unfold dense_process_cell in Hproc.
  split_cell Hstore. split_cell Hconv. split_cell Hproc.
  repeat match goal with u : () |- _ => destruct u end.
  unfold dense_chunked. eauto 20.
Qed.

(** In a run of the dense notebook from the top, the call that writes is
    given the documents [process] returned. *)
Lemma dense_write_given (run : Library → string → M Prediction) q k i o :
  run ∈ [dense_first_run; dense_notebook] →
  new_log (run L q) k !! i = Some (call_write_documents, o) →
  ∃ store docs kw,
    dense_chunked L k kw store docs ∧ o = raised (write_documents L store docs kw).1.
Proof.
  intros Hrun Hi.
  apply elem_of_cons in Hrun as [-> | ->%list_elem_of_singleton].
  - assert (i = 16) as ->.
    { pose proof (dense_first_run_runs L [] q) as Hruns. at_index Hruns Hi i. done. }
    unfold dense_first_run in Hi.
    apply (bind_reached [] dense_environment_script
             (dense_build_script ++ dense_query_script q) _ _ _ 8) in Hi
      as (a & k0 & Henv & Hi);
      [|apply dense_environment_runs
       |intros; eapply runs_bind; [apply dense_build_runs| |reflexivity];
        intros [? ?]; apply dense_query_runs].
    apply (bind_within [] dense_build_script (dense_query_script q)) in Hi;
      [|apply dense_build_runs|intros [? ?]; apply dense_query_runs|simpl; lia].
    apply dense_build_write in Hi
      as (store & files & docs & k1 & k2 & kw & Hstore & Hconv & Hproc & ->).
    exists store, docs, kw. split; [|done]. by eapply dense_chunked_intro.
  - assert (i = 16) as ->.
    { pose proof (dense_notebook_runs L q) as Hruns. at_index Hruns Hi i. done. }
    unfold dense_notebook in Hi.
    apply (bind_reached rerun_own dense_environment_script
             (dense_build_script ++ dense_rerun_script ++ dense_query_script q)
             _ _ _ 8) in Hi
      as (a & k0 & Henv & Hi);
      [|apply dense_environment_runs
       |intros; eapply runs_bind; [apply dense_build_runs| |reflexivity];
        intros ?; eapply runs_bind; [apply dense_rerun_cell_runs| |reflexivity];
        intros [? ?]; apply dense_query_runs].
    apply (bind_within rerun_own dense_build_script
             (dense_rerun_script ++ dense_query_script q)) in Hi;
      [|apply dense_build_runs
       |intros ?; eapply runs_bind; [apply dense_rerun_cell_runs| |reflexivity];
        intros [? ?]; apply dense_query_runs
       |simpl; lia].
    apply dense_build_write in Hi
      as (store & files & docs & k1 & k2 & kw & Hstore & Hconv & Hproc & ->).
    exists store, docs, kw. split; [|done]. by eapply dense_chunked_intro.
Qed.

(** In a run of the sparse notebook, [run_batch] is called on the indexing
    pipeline built with the pre-processor of the notebook. *)
Lemma sparse_run_batch_given q k i fs o :
  new_log (sparse_notebook L q) k !! i = Some (call_run_batch fs, o) →
  ∃ pipeline kw,
    sparse_pipeline_built L k kw pipeline
    ∧ o = raised (run_batch L pipeline files_to_index kw).1.
Proof.
  intros Hi.
  assert (i = 11) as ->.
  { pose proof (sparse_notebook_runs L [] q) as Hruns. at_index Hruns Hi i. done. }
  unfold sparse_notebook in Hi.
  apply (bind_reached [] (take 1 (sparse_notebook_script q))
           (drop 1 (sparse_notebook_script q)) _ _ _ 10) in Hi
    as ([] & k0 & Hinst & Hi);
    [|unfold sparse_install_cell; unfold_calls; runs_tac
     |intros; eapply runs_bind; [apply logging_cell_runs| |reflexivity];
      intros ?; eapply runs_bind; [apply sparse_build_runs| |reflexivity];
      intros [? ?]; apply sparse_query_runs].
  apply (bind_reached [] logging_script
           (sparse_build_script ++ sparse_query_script q) _ _ _ 7) in Hi
    as ([] & k1 & Hlog & Hi);
    [|apply logging_cell_runs
     |intros; eapply runs_bind; [apply sparse_build_runs| |reflexivity];
      intros [? ?]; apply sparse_query_runs].
  apply (bind_within [] sparse_build_script (sparse_query_script q)) in Hi;
    [|apply sparse_build_runs|intros [? ?]; apply sparse_query_runs|simpl; lia].
  unfold sparse_build in Hi.
  apply (bind_reached [] (take 2 sparse_build_script) (drop 2 sparse_build_script)
           _ _ _ 5) in Hi
    as (store & k3 & Hstore & Hi); [|cell_runs|cell_runs].
  apply (bind_within [] (take 6 (drop 2 sparse_build_script))
           (drop 8 sparse_build_script)) in Hi; [|cell_runs|cell_runs|simpl; lia].
  unfold sparse_index_cell in Hi.
  apply (bind_reached [] [call_import "os" []]
           (take 5 (drop 3 sparse_build_script)) _ _ _ 4) in Hi
    as ([] & k4 & Hos & Hi); [|cell_runs|cell_runs].
  apply (bind_reached []
           [call_import "haystack.pipelines.standard_pipelines" ["TextIndexingPipeline"]]
           (take 4 (drop 4 sparse_build_script)) _ _ _ 3) in Hi
    as ([] & k5 & Hpipe & Hi); [|cell_runs|cell_runs].
  apply (bind_reached [] [call_import "haystack.nodes" ["PreProcessor"]]
           (take 3 (drop 5 sparse_build_script)) _ _ _ 2) in Hi
    as ([] & k6 & Hnodes & Hi); [|cell_runs|cell_runs].
  apply (bind_reached [] [call_PreProcessor sparse_preprocessor]
           (take 2 (drop 6 sparse_build_script)) _ _ _ 1) in Hi
    as (pre & k7 & Hpre & Hi); [|cell_runs|cell_runs].
  apply (bind_reached [] [call_TextIndexingPipeline]
           (take 1 (drop 7 sparse_build_script)) _ _ _ 0) in Hi
    as (pipeline & kw & Hbuilt & Hi); [|cell_runs|cell_runs].
  assert (o = raised (run_batch L pipeline files_to_index kw).1) as ->.
  { revert Hi. unfold new_log, run_batch, call.
    destruct (lib_run_batch L pipeline files_to_index (world kw)) as [r w]. simpl.
    rewrite drop_app_length. by intros [= <-]. }
  exists pipeline, kw. split; [|done].
  unfold sparse_store_cell in Hstore. split_cell Hstore.
  repeat match goal with u : () |- _ => destruct u end.
  unfold sparse_pipeline_built. eauto 20.
Qed.

End Dataflow.

(** C6.  The dense notebook builds its pre-processor with [split_by = "word"],
    [split_length = 100], [split_overlap = 0] and
    [split_respect_sentence_boundary = True]; the sparse notebook with
    ["word"], [500], [50] and [False].  In every run, whatever the library
    does, a call that writes documents ([write_documents] in the dense
    notebook, [run_batch] of the indexing pipeline in the sparse one) comes
    after that pre-processor was built without error and, in the dense
    notebook, after [process] returned; no other pre-processor is built and
    no other call writes documents.  What is written is what was chunked:
    whatever the library does, [write_documents] is given the documents that
    [process] returned for that pre-processor and the converted files, and
    [run_batch] is called on the indexing pipeline built with that
    pre-processor; and on the reference library the documents that end up
    in the store are the chunks made with those parameters. *)
Theorem chunking_before_writing (L : Library) (m : Models) (q : string) (k : Kernel) :
  (split_by dense_preprocessor = "word" ∧ split_length dense_preprocessor = 100 ∧
   split_overlap dense_preprocessor = 0 ∧
   split_respect_sentence_boundary dense_preprocessor = true) ∧
  (split_by sparse_preprocessor = "word" ∧ split_length sparse_preprocessor = 500 ∧
   split_overlap sparse_preprocessor = 50 ∧
   split_respect_sentence_boundary sparse_preprocessor = false) ∧
  (∀ i c o, new_log (dense_first_run L q) k !! i = Some (c, o) →
     (writes c = true → c = call_write_documents ∧
        ∃ j1 j2, j1 < j2 < i ∧
          new_log (dense_first_run L q) k !! j1
            = Some (call_PreProcessor dense_preprocessor, None) ∧
          new_log (dense_first_run L q) k !! j2 = Some (call_process, None)) ∧
     (∀ kwargs, c = call_PreProcessor kwargs → kwargs = dense_preprocessor)) ∧
  (∀ i c o, new_log (dense_notebook L q) k !! i = Some (c, o) →
     (writes c = true → c = call_write_documents ∧
        ∃ j1 j2, j1 < j2 < i ∧
          new_log (dense_notebook L q) k !! j1
            = Some (call_PreProcessor dense_preprocessor, None) ∧
          new_log (dense_notebook L q) k !! j2 = Some (call_process, None)) ∧
     (∀ kwargs, c = call_PreProcessor kwargs → kwargs = dense_preprocessor)) ∧
  (∀ i c o, new_log (dense_rerun L q) k !! i = Some (c, o) →
     writes c = false ∧ ∀ kwargs, c ≠ call_PreProcessor kwargs) ∧
  (∀ i c o, new_log (sparse_notebook L q) k !! i = Some (c, o) →
     (writes c = true → c = call_run_batch files_to_index ∧
        ∃ j1 j2, j1 < j2 < i ∧
          new_log (sparse_notebook L q) k !! j1
            = Some (call_PreProcessor sparse_preprocessor, None) ∧
          new_log (sparse_notebook L q) k !! j2 = Some (call_TextIndexingPipeline, None)) ∧
     (∀ kwargs, c = call_PreProcessor kwargs → kwargs = sparse_preprocessor)) ∧
  (∀ run, run ∈ [dense_first_run; dense_notebook] →
     ∀ i o, new_log (run L q) k !! i = Some (call_write_documents, o) →
       ∃ store docs kw,
         dense_chunked L k kw store docs ∧
         o = raised (write_documents L store docs kw).1) ∧
  (∀ i fs o, new_log (sparse_notebook L q) k !! i = Some (call_run_batch fs, o) →
     ∃ pipeline kw,
       sparse_pipeline_built L k kw pipeline ∧
       o = raised (run_batch L pipeline files_to_index kw).1) ∧
  (∀ s rt k1,
     dense_build (Reference m) k = (Ok (s, rt), k1) →
     ∃ files,
       (∀ path t, (path, t) ∈ files ↔
          disk (world k) !! path = Some (TextFile t)
          ∧ String.prefix (doc_dir +:+ "/") path = true) ∧
       disk (world k1) !! "mahabharata.db"
       = Some (SqliteDb (write_rows
                           (chunks m dense_preprocessor
                              (convert m "clean_wiki_text" true files)) ∅))) ∧
  (∀ s rt k1,
     sparse_build (Reference m) k = (Ok (s, rt), k1) →
     ∃ t,
       disk (world k) !! "data/Mahabharata/1-18 books combined.txt" = Some (TextFile t) ∧
       heap (world k1) !! s
       = Some (InMemoryStore true
                 (write_rows
                    (chunks m sparse_preprocessor
                       [raw_document m "data/Mahabharata/1-18 books combined.txt" t])
                    ∅))).
Proof.
  split; [done|]. split; [done|].
  split; [|split; [|split; [|split; [|split; [|split; [|split]]]]]].
  - intros i c o Hi. pose proof (dense_first_run_runs L [] q) as Hruns.
    at_index Hruns Hi i; injection Hs as <-;
      (split; [intros Hw; try discriminate Hw | intros kwargs Hk; try discriminate Hk]).
    + by injection Hk as <-.
    + split; [done|]. exists 14, 15. split; [lia|]. split; earlier Hruns Hi.
  - intros i c o Hi. pose proof (dense_notebook_runs L q) as Hruns.
    at_index Hruns Hi i; injection Hs as <-;
      (split; [intros Hw; try discriminate Hw | intros kwargs Hk; try discriminate Hk]).
    + by injection Hk as <-.
    + split; [done|]. exists 14, 15. split; [lia|]. split; earlier Hruns Hi.
  - intros i c o Hi. pose proof (dense_rerun_runs L q) as Hruns.
    at_index Hruns Hi i; by injection Hs as <-.
  - intros i c o Hi. pose proof (sparse_notebook_runs L [] q) as Hruns.
    at_index Hruns Hi i; injection Hs as <-;
      (split; [intros Hw; try discriminate Hw | intros kwargs Hk; try discriminate Hk]).
    + by injection Hk as <-.
    + split; [done|]. exists 9, 10. split; [lia|]. split; earlier Hruns Hi.
  - intros run Hrun i o Hi. by eapply dense_write_given.
  - intros i fs o Hi. by eapply sparse_run_batch_given.
  - intros s rt k1 H. apply dense_build_Ok in H as (files & Hfiles & _ & _ & _ & Hd & _).
    cbv zeta in Hd. exists files. split; [exact Hfiles|].
    by rewrite Hd, lookup_insert_ne, lookup_insert_ne, lookup_insert_eq.
  - intros s rt k1 H. apply sparse_build_Ok in H as (t & Ht & _ & _ & Hh & _).
    exists t. split; [exact Ht|]. by rewrite Hh, lookup_insert_eq.
Qed.

(** ** Whole runs on the reference library *)

Section ReferenceNotebooks.

Variable m : Models.

Lemma bash_Ok script k a k0 :
  bash (Reference m) script k = (Ok a, k0) →
  disk (world k0) = disk (world k) ∧ heap (world k0) = heap (world k) ∧
  model_cache (world k0) = model_cache (world k) ∧ stdout (world k0) = stdout (world k) ∧
  site_packages (world k) ⊆ site_packages (world k0).
Proof.
  unfold bash. intros [H _]%call_Ok_inv. simpl in H.
  pose proof (ref_bash_frame script (world k)) as Hf. by rewrite H in Hf.
Qed.

Lemma logging_cell_Ok k a k0 :
  logging_cell (Reference m) k = (Ok a, k0) → world k0 = world k.
Proof.
  intros H. unfold_cells. unfold_calls. inv_run.
  repeat match goal with
  | H : ref_import _ _ _ = (Ok _, _) |- _ => apply ref_import_inv in H as [? _]
  | H : ok _ _ = (Ok _, _) |- _ => apply ok_inv in H as [_ ?]
  end.
  congruence.
Qed.

Lemma dense_environment_Ok k a k0 :
  dense_environment (Reference m) k = (Ok a, k0) →
  disk (world k0) = disk (world k) ∧ heap (world k0) = heap (world k) ∧
  model_cache (world k0) = model_cache (world k) ∧ stdout (world k0) = stdout (world k) ∧
  site_packages (world k) ⊆ site_packages (world k0).
Proof.
  unfold dense_environment, dense_install_cell, dense_check_faiss_cell,
    dense_install_faiss_cell, dense_check_sqlalchemy_cell, dense_install_sqlalchemy_cell.
  intros H. inv_run.
  repeat match goal with
  | H : bash _ _ _ = (Ok _, _) |- _ => apply bash_Ok in H as (? & ? & ? & ? & ?)
  | H : logging_cell _ _ = (Ok _, _) |- _ => apply logging_cell_Ok in H
  end.
  repeat match goal with H : world _ = world _ |- _ => rewrite H in *; clear H end.
  repeat split; [congruence..|]. set_solver.
Qed.

Lemma dense_first_run_Ok q k p k' :
  dense_first_run (Reference m) q k = (Ok p, k') →
  ∃ k0 s rt k1,
    disk (world k0) = disk (world k) ∧ heap (world k0) = heap (world k) ∧
    dense_build (Reference m) k0 = (Ok (s, rt), k1) ∧
    dense_query (Reference m) rt q k1 = (Ok p, k').
Proof.
  unfold dense_first_run. intros H.
  apply bind_Ok_inv in H as (? & k0 & Henv & H).
  apply bind_Ok_inv in H as ([s rt] & k1 & Hbuild & H).
  apply dense_environment_Ok in Henv as (? & ? & _). by exists k0, s, rt, k1.
Qed.

Lemma dense_rerun_Ok q k p k' :
  dense_rerun (Reference m) q k = (Ok p, k') →
  ∃ k0 s rt k1,
    world k0 = world k ∧
    dense_rerun_cell (Reference m) k0 = (Ok (s, rt), k1) ∧
    dense_query (Reference m) rt q k1 = (Ok p, k').
Proof.
  unfold dense_rerun. intros H.
  apply bind_Ok_inv in H as (? & k0 & Hlog & H).
  apply bind_Ok_inv in H as ([s rt] & k1 & Hcell & H).
  apply logging_cell_Ok in Hlog. by exists k0, s, rt, k1.
Qed.

Lemma dense_notebook_Ok q k p k' :
  dense_notebook (Reference m) q k = (Ok p, k') →
  ∃ k0 s0 rt0 k1 s rt k2,
    disk (world k0) = disk (world k) ∧ heap (world k0) = heap (world k) ∧
    dense_build (Reference m) k0 = (Ok (s0, rt0), k1) ∧
    dense_rerun_cell (Reference m) k1 = (Ok (s, rt), k2) ∧
    dense_query (Reference m) rt q k2 = (Ok p, k').
Proof.
  unfold dense_notebook. intros H.
  apply bind_Ok_inv in H as (? & k0 & Henv & H).
  apply bind_Ok_inv in H as ([s0 rt0] & k1 & Hbuild & H).
  apply bind_Ok_inv in H as ([s rt] & k2 & Hcell & H).
  apply dense_environment_Ok in Henv as (? & ? & _).
  by exists k0, s0, rt0, k1, s, rt, k2.
Qed.

Lemma sparse_notebook_Ok q k p k' :
  sparse_notebook (Reference m) q k = (Ok p, k') →
  ∃ k0 s rt k1,
    disk (world k0) = disk (world k) ∧ heap (world k0) = heap (world k) ∧
    sparse_build (Reference m) k0 = (Ok (s, rt), k1) ∧
    sparse_query (Reference m) rt q k1 = (Ok p, k').
Proof.
  unfold sparse_notebook, sparse_install_cell. intros H.
  apply bind_Ok_inv in H as (? & k00 & Hinst & H).
  apply bind_Ok_inv in H as (? & k0 & Hlog & H).
  apply bind_Ok_inv in H as ([s rt] & k1 & Hbuild & H).
  apply bash_Ok in Hinst as (? & ? & _). apply logging_cell_Ok in Hlog.
  exists k0, s, rt, k1. rewrite Hlog. done.
Qed.

(** What a pipeline run returns: the retriever's ranked selection from the
    store, and the reader's ranked answers drawn from that selection. *)
Lemma pipeline_spec pipe q w p :
  run_nodes m (graph pipe) run_params {| query := q; answers := []; documents := [] |} w
    = Ok p →
  (∃ cands keep ranked,
     candidates (pipe_retriever pipe) w = Ok (cands, keep) ∧
     ranked ⊆ cands ∧
     StronglySorted (better (relevance m (pipe_retriever pipe) q cands)) ranked ∧
     documents p = strip_embedding keep <$> ranked) ∧
  (length (documents p) ≤ 10)%nat ∧
  answers p = read m (pipe_reader pipe) q (documents p) 2 ∧
  StronglySorted (better score) (answers p) ∧
  (length (answers p) ≤ 2)%nat ∧
  (∀ a, a ∈ answers p →
     ∃ d, d ∈ documents p ∧ a ∈ spans m (pipe_reader pipe) q d ∧ document_id a = id d) ∧
  query p = q.
Proof.
  rewrite run_nodes_graph, top_k_Retriever, top_k_Reader.
  destruct (retrieve m (pipe_retriever pipe) q 10 w) as [ds|e] eqn:Hr; [|done].
  intros [= <-]. simpl.
  apply retrieve_Ok in Hr as (cands & keep & ranked & Hc & Hsub & Hsorted & -> & Hlen).
  destruct (read_spec m (pipe_reader pipe) q (strip_embedding keep <$> ranked) 2)
    as (Hs & Hl & Hfrom).
  split; [by exists cands, keep, ranked|]. done.
Qed.

End ReferenceNotebooks.

(** ** The contract of a pipeline run *)

Lemma ask_cell_Ok m pipe q k p k' :
  ask_cell (Reference m) pipe q k = (Ok p, k') →
  run_nodes m (graph pipe) run_params {| query := q; answers := []; documents := [] |}
    (world k) = Ok p ∧ world k' = world k.
Proof. unfold ask_cell. rewrite run_Reference. by intros [= H <-]. Qed.

Lemma pipeline_retrieved_then_read m pipe q w p :
  run_nodes m (graph pipe) run_params {| query := q; answers := []; documents := [] |} w
    = Ok p →
  retrieved_then_read m pipe q w p.
Proof.
  intros H. apply pipeline_spec in H as (? & ? & ? & ? & ? & ? & ?).
  by repeat split.
Qed.

(** ** C1: retrieve, then read *)

(** C1.  For every question, a run of the pipeline has two stages, in this
    order: the node named [Retriever] ranks documents of the store and
    selects the best; the node named [Reader] extracts its answers from the
    documents selected, and from no other, and returns them ranked.  This
    holds for the [pipe.run] cell on any pipeline, and so for every run of
    either notebook that returns a prediction. *)
Theorem retrieve_then_read (m : Models) (q : string) :
  (∀ pipe, (graph pipe).*1 = ["Retriever"; "Reader"]) ∧
  (∀ pipe k p k',
     ask_cell (Reference m) pipe q k = (Ok p, k') →
     retrieved_then_read m pipe q (world k) p ∧ world k' = world k) ∧
  (∀ run, run ∈ [dense_first_run; dense_rerun; dense_notebook; sparse_notebook] →
     ∀ k p k',
       run (Reference m) q k = (Ok p, k') →
       ∃ rt w, retrieved_then_read m
                 {| pipe_reader := default_reader; pipe_retriever := rt |} q w p).
Proof.
  split; [done|]. split.
  - intros pipe k p k' [H ->]%ask_cell_Ok. split; [|done].
    by apply pipeline_retrieved_then_read.
  - intros run Hrun k p k' H.
    assert (∃ rt k1, answer_to m rt q (world k1) = Ok p) as (rt & k1 & Ha).
    { repeat (apply elem_of_cons in Hrun as [->|Hrun]).
      - apply dense_first_run_Ok in H as (? & ? & rt & k1 & _ & _ & _ & H).
        exists rt, k1. by eapply query_Ok; [left|].
      - apply dense_rerun_Ok in H as (? & ? & rt & k1 & _ & _ & H).
        exists rt, k1. by eapply query_Ok; [left|].
      - apply dense_notebook_Ok in H as (? & ? & ? & ? & ? & rt & k1 & _ & _ & _ & _ & H).
        exists rt, k1. by eapply query_Ok; [left|].
      - apply sparse_notebook_Ok in H as (? & ? & rt & k1 & _ & _ & _ & H).
        exists rt, k1. by eapply query_Ok; [right|].
      - by apply elem_of_nil in Hrun. }
    exists rt, (world k1). by apply pipeline_retrieved_then_read.
Qed.

Lemma retrieve_then_read_witness :
  ∃ p k',
    ask_cell (Reference toy) toy_pipe "Who is Krishna?" indexed_kernel = (Ok p, k') ∧
    retrieved_then_read toy toy_pipe "Who is Krishna?" (world indexed_kernel) p.
Proof.
  eexists _, _. split; [vm_compute; reflexivity|].
  eapply (proj1 (proj2 (retrieve_then_read toy "Who is Krishna?")) toy_pipe indexed_kernel).
  vm_compute; reflexivity.
Defined.

(** ** C2: the top-k parameters *)

(** C2.  [pipe.run] is always called with
    [params = {"Retriever": {"top_k": 10}, "Reader": {"top_k": 2}}]: it is
    what the [pipe.run] cell logs, and the only [run] call of any run of
    either notebook, whatever the library does.  Consequently the retriever
    hands at most 10 documents to the reader and the prediction holds at most
    2 answers. *)
Theorem top_k_parameters (L : Library) (m : Models) (q : string) (k : Kernel) :
  (run_params !! "Retriever" = Some {[ "top_k" := 10 ]} ∧
   run_params !! "Reader" = Some {[ "top_k" := 2 ]}) ∧
  (∀ pipe,
     new_log (ask_cell L pipe q) k = [(call_run q run_params, raised (ask_cell L pipe q k).1)]) ∧
  (∀ run, run ∈ [dense_first_run; dense_rerun; dense_notebook; sparse_notebook] →
     ∀ i q' params o,
       new_log (run L q) k !! i = Some (call_run q' params, o) →
       q' = q ∧ params = run_params) ∧
  (∀ pipe p k',
     ask_cell (Reference m) pipe q k = (Ok p, k') →
     (length (documents p) ≤ 10)%nat ∧ (length (answers p) ≤ 2)%nat) ∧
  (∀ run, run ∈ [dense_first_run; dense_rerun; dense_notebook; sparse_notebook] →
     ∀ p k',
       run (Reference m) q k = (Ok p, k') →
       (length (documents p) ≤ 10)%nat ∧ (length (answers p) ≤ 2)%nat).
Proof.
  split; [done|]. split; [|split; [|split]].
  - intros pipe. unfold new_log, ask_cell, run, call.
    destruct (lib_run L pipe q run_params (world k)) as [r w]. simpl.
    by rewrite drop_app_length.
  - intros run Hrun i q' params o Hi.
    repeat (apply elem_of_cons in Hrun as [->|Hrun]).
    + pose proof (dense_first_run_runs L [] q) as Hruns.
      at_index Hruns Hi i. by injection Hs as <- <-.
    + pose proof (dense_rerun_runs L q) as Hruns.
      at_index Hruns Hi i. by injection Hs as <- <-.
    + pose proof (dense_notebook_runs L q) as Hruns.
      at_index Hruns Hi i. by injection Hs as <- <-.
    + pose proof (sparse_notebook_runs L [] q) as Hruns.
      at_index Hruns Hi i. by injection Hs as <- <-.
    + by apply elem_of_nil in Hrun.
  - intros pipe p k' [H _]%ask_cell_Ok.
    by apply pipeline_spec in H as (_ & ? & _ & _ & ? & _).
  - intros run Hrun p k' H.
    assert (∃ rt k1, answer_to m rt q (world k1) = Ok p) as (rt & k1 & Ha).
    { repeat (apply elem_of_cons in Hrun as [->|Hrun]).
      - apply dense_first_run_Ok in H as (? & ? & rt & k1 & _ & _ & _ & H).
        exists rt, k1. by eapply query_Ok; [left|].
      - apply dense_rerun_Ok in H as (? & ? & rt & k1 & _ & _ & H).
        exists rt, k1. by eapply query_Ok; [left|].
      - apply dense_notebook_Ok in H as (? & ? & ? & ? & ? & rt & k1 & _ & _ & _ & _ & H).
        exists rt, k1. by eapply query_Ok; [left|].
      - apply sparse_notebook_Ok in H as (? & ? & rt & k1 & _ & _ & _ & H).
        exists rt, k1. by eapply query_Ok; [right|].
      - by apply elem_of_nil in Hrun. }
    by apply pipeline_spec in Ha as (_ & ? & _ & _ & ? & _).
Qed.

Lemma top_k_parameters_witness :
  ∃ p k',
    sparse_notebook (Reference toy) "Who is Krishna?" (fresh_kernel bare_laptop) = (Ok p, k') ∧
    (length (documents p) ≤ 10)%nat ∧ (length (answers p) ≤ 2)%nat.
Proof.
  eexists _, _. split; [vm_compute; reflexivity|].
  eapply (proj2 (proj2 (proj2 (proj2
            (top_k_parameters (Reference toy) toy "Who is Krishna?"
               (fresh_kernel bare_laptop))))) sparse_notebook).
  - do 3 apply list_elem_of_further. apply list_elem_of_here.
  - vm_compute; reflexivity.
Defined.

(** ** C10: embeddings are in place when the index is saved *)

(** C10.  In every run of the dense notebook, whatever the library does, the
    index is saved only after [write_documents] and then
    [update_embeddings] have returned.  And when the cells that build the
    store succeed, the index that was saved holds a vector for every document
    of the database, each computed from the document's text: no document is
    persisted without an embedding. *)
Theorem embeddings_before_save (L : Library) (m : Models) (q : string) (k : Kernel) :
  (∀ run, run ∈ [dense_first_run; dense_notebook] →
     ∀ i index_path o,
       new_log (run L q) k !! i = Some (call_save index_path, o) →
       ∃ j1 j2, j1 < j2 < i ∧
         new_log (run L q) k !! j1 = Some (call_write_documents, None) ∧
         new_log (run L q) k !! j2 = Some (call_update_embeddings, None)) ∧
  (∀ s rt k1,
     dense_build (Reference m) k = (Ok (s, rt), k1) →
     ∃ rows idx,
       disk (world k1) !! "mahabharata.db" = Some (SqliteDb rows) ∧
       disk (world k1) !! "mahabharata_faiss" = Some (FaissIndexFile idx) ∧
       heap (world k1) !! s = Some (FAISSStore sql_url "Flat" true idx) ∧
       dom idx = dom rows ∧
       ∀ i d, rows !! i = Some d →
              idx !! i = Some (embed m dense_embedding_model (content d))).
Proof.
  split.
  - intros run Hrun i index_path o Hi.
    repeat (apply elem_of_cons in Hrun as [->|Hrun]).
    + pose proof (dense_first_run_runs L [] q) as Hruns.
      at_index Hruns Hi i. exists 16, 19. split; [lia|]. split; earlier Hruns Hi.
    + pose proof (dense_notebook_runs L q) as Hruns.
      at_index Hruns Hi i. exists 16, 19. split; [lia|]. split; earlier Hruns Hi.
    + by apply elem_of_nil in Hrun.
  - intros s rt k1 H.
    apply dense_build_Ok in H as (files & _ & _ & _ & _ & Hd & Hh & _).
    simpl in *. eexists _, _. rewrite Hd, Hh.
    split; [by rewrite lookup_insert_ne, lookup_insert_ne, lookup_insert_eq|].
    split; [by rewrite lookup_insert_ne, lookup_insert_eq|].
    split; [by rewrite lookup_insert_eq|].
    split; [by rewrite dom_fmap_L|].
    intros i d Hi. by rewrite lookup_fmap, Hi.
Qed.

Lemma embeddings_before_save_witness :
  ∃ rows idx,
    disk (world (dense_build (Reference toy) (fresh_kernel laptop)).2) !! "mahabharata.db"
      = Some (SqliteDb rows) ∧
    disk (world (dense_build (Reference toy) (fresh_kernel laptop)).2) !! "mahabharata_faiss"
      = Some (FaissIndexFile idx) ∧
    dom idx = dom rows.
Proof.
  destruct (proj2 (embeddings_before_save (Reference toy) toy "Who is Krishna?"
                     (fresh_kernel laptop))
              1 (EmbeddingRetriever_on 1 dense_embedding_model)
              (dense_build (Reference toy) (fresh_kernel laptop)).2)
    as (rows & idx & Hrows & Hidx & _ & Hdom & _).
  - vm_compute; reflexivity.
  - exists rows, idx. exact (conj Hrows (conj Hidx Hdom)).
Defined.

(** ** C8: saving and loading the store *)

(** C8.  After the cells that build and save the store, the re-run cell,
    started in any kernel that sees the same files and packages (a new
    session, or the same one), loads a store with the same configuration and
    the same vector index, attached to the same database and so to the same
    documents; and every question put to either store gets the same
    prediction. *)
Theorem save_load_round_trip (m : Models) (k : Kernel) (s : nat) (rt : Retriever)
    (k1 k2 : Kernel) :
  dense_build (Reference m) k = (Ok (s, rt), k1) →
  disk (world k2) = disk (world k1) →
  site_packages (world k2) = site_packages (world k1) →
  ∃ s' rt' k2',
    dense_rerun_cell (Reference m) k2 = (Ok (s', rt'), k2') ∧
    heap (world k2') !! s' = heap (world k1) !! s ∧
    disk (world k2') = disk (world k1) ∧
    (∀ obj, heap (world k1) !! s = Some obj →
       all_documents obj (world k2') = all_documents obj (world k1) ∧
       indexed_documents obj (world k2') = indexed_documents obj (world k1)) ∧
    ∀ q, (dense_query (Reference m) rt' q k2').1 = (dense_query (Reference m) rt q k1).1.
Proof.
  intros Hbuild Hdisk Hpkg.
  apply dense_build_Ok in Hbuild
    as (files & _ & -> & _ & _ & Hd1 & Hh1 & Hs1 & Hin & _). simpl in *.
  set (rows := write_rows (chunks m dense_preprocessor
                             (convert m "clean_wiki_text" true files)) ∅) in *.
  set (idx := (λ d, embed m dense_embedding_model (content d)) <$> rows) in *.
  destruct (dense_rerun_cell_saved m k2 idx true rows) as (k2' & Hcell & Hd2 & Hh2 & Hs2).
  { rewrite Hpkg, Hs1. exact Hin. }
  { by rewrite Hdisk, Hd1, lookup_insert_ne, lookup_insert_eq. }
  { by rewrite Hdisk, Hd1, lookup_insert_eq. }
  { by rewrite Hdisk, Hd1, lookup_insert_ne, lookup_insert_ne, lookup_insert_eq. }
  { unfold idx. by rewrite map_size_fmap. }
  eexists _, _, k2'. split; [exact Hcell|].
  assert (heap (world k2') !! fresh_ref (heap (world k2)) = heap (world k1) !! s) as Hobj.
  { by rewrite Hh2, Hh1, !lookup_insert_eq. }
  assert (disk (world k2') = disk (world k1)) as Hd by congruence.
  split; [exact Hobj|]. split; [exact Hd|]. split.
  - intros obj _. destruct obj; simpl; by rewrite ?Hd.
  - intros q. rewrite !dense_query_result; [| by rewrite Hs1 | by rewrite Hs2, Hpkg, Hs1 ].
    unfold answer_to. rewrite !run_nodes_graph. simpl.
    by rewrite (retrieve_embedding_ext m _ s _ _ _ (world k2') (world k1)).
Qed.

Lemma save_load_round_trip_witness :
  ∃ s' rt' k2',
    dense_rerun_cell (Reference toy)
      (fresh_kernel (with_heap ∅ (world (dense_build (Reference toy) (fresh_kernel laptop)).2)))
    = (Ok (s', rt'), k2') ∧
    (dense_query (Reference toy) rt' "Who is Krishna?" k2').1
    = (dense_query (Reference toy) (EmbeddingRetriever_on 1 dense_embedding_model)
         "Who is Krishna?" (dense_build (Reference toy) (fresh_kernel laptop)).2).1.
Proof.
  destruct (save_load_round_trip toy (fresh_kernel laptop) 1
              (EmbeddingRetriever_on 1 dense_embedding_model)
              (dense_build (Reference toy) (fresh_kernel laptop)).2
              (fresh_kernel
                 (with_heap ∅ (world (dense_build (Reference toy) (fresh_kernel laptop)).2))))
    as (s' & rt' & k2' & Hcell & _ & _ & _ & Hq).
  - vm_compute; reflexivity.
  - reflexivity.
  - reflexivity.
  - exists s', rt', k2'. exact (conj Hcell (Hq "Who is Krishna?")).
Defined.

(** ** C5: what is indexed *)

Lemma elem_of_chunks_convert m p cf sp files path t d :
  (path, t) ∈ files →
  d ∈ chunks m p (convert m cf sp [(path, t)]) →
  d ∈ chunks m p (convert m cf sp files).
Proof.
  intros Hin. unfold chunks, convert. rewrite !list_elem_of_In, !in_flat_map.
  intros (d0 & Hd0 & Hd). exists d0. split; [|done].
  apply in_flat_map in Hd0 as (x & [<-|[]] & Hx).
  apply in_flat_map. exists (path, t). by rewrite <-list_elem_of_In.
Qed.

Lemma chunks_name m p ds d : d ∈ chunks m p ds → ∃ d0, d0 ∈ ds ∧ name d = name d0.
Proof. intros (d0 & c & Hd0 & _ & ->)%elem_of_chunks. by exists d0. Qed.

(** C5, as the code has it.  The dense notebook takes the directory
    [data/Mahabharata]: every chunk of every text file in it is stored, under
    its identity, in the database.  The sparse notebook takes one file of
    that directory, [1-18 books combined.txt]: its chunks are stored, and
    every stored document comes from that file. *)
Theorem corpus_input (m : Models) (k : Kernel) (s : nat) (rt : Retriever) (k1 : Kernel) :
  (dense_build (Reference m) k = (Ok (s, rt), k1) →
   ∃ rows,
     disk (world k1) !! "mahabharata.db" = Some (SqliteDb rows) ∧
     ∀ path t d,
       disk (world k) !! path = Some (TextFile t) →
       String.prefix (doc_dir +:+ "/") path = true →
       d ∈ chunks m dense_preprocessor (convert m "clean_wiki_text" true [(path, t)]) →
       ∃ d', rows !! id d = Some d' ∧ id d' = id d) ∧
  (sparse_build (Reference m) k = (Ok (s, rt), k1) →
   ∃ t stored,
     disk (world k) !! "data/Mahabharata/1-18 books combined.txt" = Some (TextFile t) ∧
     heap (world k1) !! s = Some (InMemoryStore true stored) ∧
     (∀ d, d ∈ chunks m sparse_preprocessor
                 [raw_document m "data/Mahabharata/1-18 books combined.txt" t] →
           ∃ d', stored !! id d = Some d' ∧ id d' = id d) ∧
     (∀ i d, stored !! i = Some d →
             name d = "data/Mahabharata/1-18 books combined.txt")).
Proof.
  split.
  - intros H. apply dense_build_Ok in H as (files & Hfiles & _ & _ & _ & Hd & _).
    cbv zeta in Hd. eexists. rewrite Hd.
    split; [by rewrite lookup_insert_ne, lookup_insert_ne, lookup_insert_eq|].
    intros path t d Hpath Hpre Hin.
    eapply elem_of_chunks_convert in Hin; [|by apply Hfiles].
    destruct (write_rows_elem _ ∅ d Hin) as (d' & ? & _ & ?). by exists d'.
  - intros H. apply sparse_build_Ok in H as (t & Ht & _ & _ & Hh & _).
    eexists t, _. rewrite Hh. split; [done|]. split; [by rewrite lookup_insert_eq|].
    split.
    + intros d Hin. destruct (write_rows_elem _ ∅ d Hin) as (d' & ? & _ & ?).
      by exists d'.
    + intros i d [Hi|[Hin _]]%write_rows_lookup; [by rewrite lookup_empty in Hi|].
      apply chunks_name in Hin as (d0 & ->%list_elem_of_singleton & ->). done.
Qed.

Lemma corpus_input_witness :
  ∃ t stored,
    disk laptop !! "data/Mahabharata/1-18 books combined.txt" = Some (TextFile t) ∧
    heap (world (sparse_build (Reference toy) (fresh_kernel laptop)).2) !! 1
      = Some (InMemoryStore true stored) ∧
    ∀ i d, stored !! i = Some d → name d = "data/Mahabharata/1-18 books combined.txt".
Proof.
  destruct (proj2 (corpus_input toy (fresh_kernel laptop) 1 (BM25Retriever_on 1)
                     (sparse_build (Reference toy) (fresh_kernel laptop)).2))
    as (t & stored & Ht & Hs & _ & Hname).
  - vm_compute; reflexivity.
  - exists t, stored. exact (conj Ht (conj Hs Hname)).
Defined.

(** The sparse notebook leaves the other files of the directory out: on a
    disk whose [data/Mahabharata] holds two text files, no stored document
    comes from the second. *)
Lemma sparse_indexes_one_file_only :
  disk laptop !! adi_parva = Some (TextFile "Vyasa composed the Mahabharata.") ∧
  String.prefix (doc_dir +:+ "/") adi_parva = true ∧
  ∃ p k' stored,
    sparse_notebook (Reference toy) "Who is Krishna?" (fresh_kernel laptop) = (Ok p, k') ∧
    heap (world k') !! 1 = Some (InMemoryStore true stored) ∧
    (map_to_list stored).*2
    = [ {| content := "Krishna is the son of Devaki."; name := combined_books;
           embedding := None; id := "Krishna is the son of Devaki." |} ].
Proof.
  split; [vm_compute; reflexivity|]. split; [reflexivity|].
  eexists _, _, _. split; [vm_compute; reflexivity|].
  split; vm_compute; reflexivity.
Qed.

(** ** C3: the life of a document *)




Lemma query_keeps (c : M Prediction) m rt q k :
  c = dense_query (Reference m) rt q ∨ c = sparse_query (Reference m) rt q →
  disk (world (c k).2) = disk (world k) ∧ heap (world (c k).2) = heap (world k).
Proof.
  intros [-> | ->].
  - by destruct (triple_any _ _ _ k (dense_query_kept m rt q (world k)) (reflexivity _))
      as (? & ? & _).
  - by destruct (triple_any _ _ _ k (sparse_query_kept m rt q (world k)) (reflexivity _))
      as (? & ? & _).
Qed.




(** ** C4: what stays on disk *)

(** C4, as the code has it.  A first run of the dense notebook that succeeds
    leaves three files it wrote: the database [mahabharata.db], the index
    [mahabharata_faiss] and its configuration [mahabharata_faiss.json]; every
    other file is as it was.  The sparse notebook, run to the end or until a
    cell fails, leaves every file as it was and creates none: its store
    persists nothing.  What it does change is the Python environment: the
    packages its shell cell installs and the model the reader fetches. *)
Theorem persisted_files (m : Models) (q : string) (k : Kernel) :
  (∀ p k',
     dense_first_run (Reference m) q k = (Ok p, k') →
     ∃ rows idx,
       disk (world k') =
         <["mahabharata_faiss.json" := JsonConfig sql_url "Flat" true]>
           (<["mahabharata_faiss" := FaissIndexFile idx]>
              (<["mahabharata.db" := SqliteDb rows]> (disk (world k))))) ∧
  disk (world (sparse_notebook (Reference m) q k).2) = disk (world k).
Proof.
  split.
  - intros p k' H.
    apply dense_first_run_Ok in H as (k0 & s & rt & k1 & Hd0 & _ & Hbuild & Hq).
    apply dense_build_Ok in Hbuild as (files & _ & _ & _ & _ & Hd & _). cbv zeta in Hd.
    eexists _, _. rewrite <-Hd0, <-Hd.
    pose proof (query_keeps _ m rt q k1 (or_introl eq_refl)) as [Hk _].
    by rewrite Hq in Hk.
  - exact (triple_any _ _ _ k (sparse_notebook_files_kept m q (world k)) (reflexivity _)).
Qed.

Lemma persisted_files_witness :
  ∃ rows idx,
    disk (world (dense_first_run (Reference toy) "Who is Krishna?" (fresh_kernel laptop)).2)
    = <["mahabharata_faiss.json" := JsonConfig sql_url "Flat" true]>
        (<["mahabharata_faiss" := FaissIndexFile idx]>
           (<["mahabharata.db" := SqliteDb rows]> corpus)).
Proof.
  destruct (dense_first_run (Reference toy) "Who is Krishna?" (fresh_kernel laptop))
    as [[p|e] k'] eqn:Hrun.
  - exact (proj1 (persisted_files toy "Who is Krishna?" (fresh_kernel laptop)) p k' Hrun).
  - vm_compute in Hrun. discriminate Hrun.
Defined.

(** Running the sparse notebook on a machine without Haystack installs it and
    caches the reader's model: on-disk state outside the working files does
    change. *)
Lemma sparse_run_changes_environment :
  site_packages bare_laptop = ∅ ∧
  site_packages
    (world (sparse_notebook (Reference toy) "Who is Krishna?" (fresh_kernel bare_laptop)).2)
  = {[ "pip"; "greenlet"; "farm-haystack" ]} ∧
  model_cache bare_laptop = ∅ ∧
  model_cache
    (world (sparse_notebook (Reference toy) "Who is Krishna?" (fresh_kernel bare_laptop)).2)
  = {[ "deepset/roberta-base-squad2" ]}.
Proof.
  split; [reflexivity|]. split; [vm_compute; reflexivity|].
  split; [reflexivity|]. vm_compute; reflexivity.
Qed.

(** ** Runs on the small machine *)

Lemma rerun_assertion_witness :
  dense_rerun_cell (Reference toy) (fresh_kernel hnsw_laptop)
  = (Err AssertionError,
     ((import (Reference toy) "haystack.document_stores" ["FAISSDocumentStore"] ;;
       import (Reference toy) "haystack.nodes" ["EmbeddingRetriever"] ;;
       load (Reference toy) "mahabharata_faiss" "mahabharata_faiss.json")
        (fresh_kernel hnsw_laptop)).2).
Proof.
  destruct (rerun_assertion (Reference toy) (fresh_kernel hnsw_laptop)
              ((import (Reference toy) "haystack.document_stores" ["FAISSDocumentStore"] ;;
                import (Reference toy) "haystack.nodes" ["EmbeddingRetriever"] ;;
                load (Reference toy) "mahabharata_faiss" "mahabharata_faiss.json")
                 (fresh_kernel hnsw_laptop)).2
              1 sql_url "HNSW" true ∅) as [_ Hne].
  - vm_compute; reflexivity.
  - vm_compute; reflexivity.
  - apply Hne. discriminate.
Defined.

Lemma chunking_before_writing_witness :
  (∃ j1 j2, j1 < j2 < 16 ∧
     new_log (dense_first_run (Reference toy) "Who is Krishna?") (fresh_kernel laptop) !! j1
       = Some (call_PreProcessor dense_preprocessor, None) ∧
     new_log (dense_first_run (Reference toy) "Who is Krishna?") (fresh_kernel laptop) !! j2
       = Some (call_process, None)) ∧
  (∃ store docs kw,
     dense_chunked (Reference toy) (fresh_kernel laptop) kw store docs ∧
     None = raised (write_documents (Reference toy) store docs kw).1) ∧
  (∃ pipeline kw,
     sparse_pipeline_built (Reference toy) (fresh_kernel laptop) kw pipeline ∧
     None = raised (run_batch (Reference toy) pipeline files_to_index kw).1).
Proof.
  pose proof (chunking_before_writing (Reference toy) toy "Who is Krishna?"
                (fresh_kernel laptop))
    as (_ & _ & Hfirst & _ & _ & _ & Hdense & Hsparse & _).
  split; [|split].
  - apply (proj1 (Hfirst 16 call_write_documents None ltac:(vm_compute; reflexivity))
             eq_refl).
  - apply (Hdense dense_first_run (list_elem_of_here _ _) 16 None).
    vm_compute; reflexivity.
  - apply (Hsparse 11 files_to_index None). vm_compute; reflexivity.
Defined.

Lemma failures_surface_unhandled_witness :
  (dense_rerun (Reference toy) "Who is Krishna?" (fresh_kernel bare_laptop)).1
  = Err (Raised "ModuleNotFoundError").
Proof.
  destruct (proj2 (proj2 (failures_surface_unhandled (Reference toy) "Who is Krishna?")))
    as (_ & Hrerun & _).
  destruct (Hrerun (fresh_kernel bare_laptop)) as (_ & Hlast & _).
  apply (Hlast (succeeded logging_script)
           (call_import "haystack.document_stores" ["FAISSDocumentStore"])
           (Raised "ModuleNotFoundError") []).
  vm_compute; reflexivity.
Defined.

(** On the prepared laptop a first run of the dense notebook answers from
    both files of the directory; the sparse notebook from the one file it
    indexes; and on a bare machine running every cell of the dense notebook
    stops at the FAISS check. *)
Example dense_first_run_on_laptop :
  answers <$> (dense_first_run (Reference toy) "Who is Krishna?" (fresh_kernel laptop)).1
  = Ok [ {| answer := "Vyasa composed the Mahabharata."; score := 31;
            document_id := "Vyasa composed the Mahabharata." |};
         {| answer := "Krishna is the son of Devaki."; score := 29;
            document_id := "Krishna is the son of Devaki." |} ].
Proof. vm_compute. reflexivity. Qed.

Example sparse_notebook_on_bare_laptop :
  answers <$> (sparse_notebook (Reference toy) "Who is Krishna?" (fresh_kernel bare_laptop)).1
  = Ok [ {| answer := "Krishna is the son of Devaki."; score := 29;
            document_id := "Krishna is the son of Devaki." |} ].
Proof. vm_compute. reflexivity. Qed.

Example dense_notebook_on_bare_laptop :
  (dense_notebook (Reference toy) "Who is Krishna?" (fresh_kernel bare_laptop)).1
  = Err (Raised "CalledProcessError").
Proof. vm_compute. reflexivity. Qed.

(** * The notebooks as sequences of calls *)

(** ** The call sequence is fixed *)

(** *** Where the notebook's own statements raise *)

Lemma follows_until_follows {A} own stop s (r : result A) log :
  follows_until own stop s r log → follows own s r log.
Proof.
  destruct r as [a|e]; [done|]. simpl.
  intros [?|(Hown & pre & post & _ & -> & ->)]; [by left|right].
  split; [done|]. by exists pre, post.
Qed.

Lemma runs_until_of_runs {A} own s (c : M A) : runs [] s c → runs_until own None s c.
Proof.
  intros Hc k. destruct (Hc k) as (log & Ht & Hf). exists log. split; [done|].
  revert Hf. destruct ((c k).1) as [a|e]; [done|]. simpl.
  intros [?|[Hin _]]; [by left | by apply elem_of_nil in Hin].
Qed.

Lemma runs_until_assert own b :
  AssertionError ∈ own → runs_until own (Some []) [] (assert b).
Proof.
  intros Hin k. exists []. rewrite app_nil_r. destruct b; simpl; [done|].
  split; [done|]. right. split; [done|]. by exists [], [].
Qed.

Lemma runs_until_getattr own store :
  AttributeError ∈ own →
  runs_until own (Some []) [] (getattr_faiss_index_factory_str store).
Proof.
  intros Hin k. exists []. rewrite app_nil_r. unfold getattr_faiss_index_factory_str.
  assert (follows_until own (Some []) [] (Err AttributeError : result string) []) as Hf.
  { right. split; [done|]. by exists [], []. }
  destruct (heap (world k) !! store) as [[]|]; simpl; done.
Qed.

Lemma runs_until_bind {A B} own p1 p2 stop s1 s2 s (c : M A) (f : A → M B) :
  runs_until own p1 s1 c → (∀ a, runs_until own p2 s2 (f a)) → s = s1 ++ s2 →
  (∀ pre, p1 = Some pre → stop = Some pre) →
  (∀ pre, p2 = Some pre → stop = Some (s1 ++ pre)) →
  runs_until own stop s (c ≫= f).
Proof.
  intros Hc Hf -> Hp1 Hp2 k. destruct (Hc k) as (log1 & Ht1 & Hl1).
  unfold mbind, M_bind, bind. destruct (c k) as [[a|e] k1]; simpl in *.
  - destruct (Hf a k1) as (log2 & Ht2 & Hl2). exists (log1 ++ log2).
    rewrite Ht2, Ht1, <-(assoc_L (++)). split; [done|]. subst log1.
    revert Hl2. destruct ((f a k1).1) as [b|e]; simpl; intros Hl2.
    + subst log2. by rewrite succeeded_app.
    + destruct Hl2 as [(pre & c' & post & -> & ->)|(Hown & pre & post & Hp & -> & ->)].
      * left. exists (s1 ++ pre), c', post.
        by rewrite succeeded_app, <-!(assoc_L (++)).
      * right. split; [done|]. exists (s1 ++ pre), post.
        split; [by apply Hp2|]. by rewrite succeeded_app, <-!(assoc_L (++)).
  - exists log1. split; [done|].
    destruct Hl1 as [(pre & c' & post & -> & ->)|(Hown & pre & post & Hp & -> & ->)].
    + left. exists pre, c', (post ++ s2). by rewrite <-!(assoc_L (++)).
    + right. split; [done|]. exists pre, (post ++ s2).
      split; [by apply Hp1|]. by rewrite <-!(assoc_L (++)).
Qed.

Lemma runs_until_new_log {A} own stop s (c : M A) k :
  runs_until own stop s c → follows_until own stop s (c k).1 (new_log c k).
Proof.
  intros Hc. destruct (Hc k) as (log & Ht & Hl). unfold new_log.
  by rewrite Ht, drop_app_length.
Qed.

Ltac stops := intros ? Hstop; try discriminate Hstop; injection Hstop as <-; reflexivity.

Section OwnStatements.

Variable L : Library.

(** The re-run cell raises by itself only right after [load] has returned. *)
Lemma dense_rerun_cell_until :
  runs_until rerun_own (Some (take 3 dense_rerun_script)) dense_rerun_script
    (dense_rerun_cell L).
Proof.
  unfold dense_rerun_cell.
  eapply (runs_until_bind _ None (Some (take 2 (drop 1 dense_rerun_script))));
    [apply runs_until_of_runs; unfold_calls; runs_tac | intros ?
    | reflexivity | stops | stops].
  eapply (runs_until_bind _ None (Some (take 1 (drop 2 dense_rerun_script))));
    [apply runs_until_of_runs; unfold_calls; runs_tac | intros ?
    | reflexivity | stops | stops].
  eapply (runs_until_bind _ None (Some []));
    [apply runs_until_of_runs; unfold_calls; runs_tac | intros store
    | reflexivity | stops | stops].
  eapply (runs_until_bind _ (Some []) (Some []));
    [apply runs_until_getattr; set_solver | intros f | reflexivity | stops | stops].
  eapply (runs_until_bind _ (Some []) None);
    [apply runs_until_assert; set_solver | intros ? | reflexivity | stops | stops].
  apply runs_until_of_runs. unfold_calls. runs_tac.
Qed.

Lemma dense_rerun_until q :
  runs_until rerun_own (Some (logging_script ++ take 3 dense_rerun_script))
    (dense_rerun_run_script q) (dense_rerun L q).
Proof.
  unfold dense_rerun.
  eapply (runs_until_bind _ None (Some (take 3 dense_rerun_script)));
    [apply runs_until_of_runs, logging_cell_runs | intros ? | reflexivity | stops | stops].
  eapply (runs_until_bind _ (Some (take 3 dense_rerun_script)) None);
    [apply dense_rerun_cell_until | intros [? ?] | reflexivity | stops | stops].
  apply runs_until_of_runs, dense_query_runs.
Qed.

Lemma dense_notebook_until q :
  runs_until rerun_own
    (Some (dense_environment_script ++ dense_build_script ++ take 3 dense_rerun_script))
    (dense_notebook_script q) (dense_notebook L q).
Proof.
  unfold dense_notebook.
  eapply (runs_until_bind _ None (Some (dense_build_script ++ take 3 dense_rerun_script)));
    [apply runs_until_of_runs, dense_environment_runs | intros ?
    | reflexivity | stops | stops].
  eapply (runs_until_bind _ None (Some (take 3 dense_rerun_script)));
    [apply runs_until_of_runs, dense_build_runs | intros ? | reflexivity | stops | stops].
  eapply (runs_until_bind _ (Some (take 3 dense_rerun_script)) None);
    [apply dense_rerun_cell_until | intros [? ?] | reflexivity | stops | stops].
  apply runs_until_of_runs, dense_query_runs.
Qed.

End OwnStatements.

(** X1.  Whatever the library returns, a run of either notebook works through
    the same calls in the same order: a run that returns has made every call
    of its script, once each and none raising; a run that fails has made the
    calls up to the one that raised.  The one exception is the re-run cell,
    whose own [assert] and attribute access can raise: then exactly the
    calls up to and including [load] have been made, all returning.  No
    other path has a statement of its own that raises. *)
Theorem call_sequence_fixed (L : Library) (q : string) (k : Kernel) :
  follows_until [] None (dense_first_run_script q) (dense_first_run L q k).1
    (new_log (dense_first_run L q) k) ∧
  follows_until rerun_own (Some (logging_script ++ take 3 dense_rerun_script))
    (dense_rerun_run_script q) (dense_rerun L q k).1
    (new_log (dense_rerun L q) k) ∧
  follows_until rerun_own
    (Some (dense_environment_script ++ dense_build_script ++ take 3 dense_rerun_script))
    (dense_notebook_script q) (dense_notebook L q k).1
    (new_log (dense_notebook L q) k) ∧
  follows_until [] None (sparse_notebook_script q) (sparse_notebook L q k).1
    (new_log (sparse_notebook L q) k).
Proof.
  repeat apply conj.
  - apply runs_until_new_log, runs_until_of_runs, dense_first_run_runs.
  - apply runs_until_new_log, dense_rerun_until.
  - apply runs_until_new_log, dense_notebook_until.
  - apply runs_until_new_log, runs_until_of_runs, sparse_notebook_runs.
Qed.

(** ** Nothing is used before it is bound *)

Lemma scoped_sound {R} (needs : Call → list R) (gives : Call → R → bool) seen s :
  scoped needs gives seen s = true →
  ∀ i c r, s !! i = Some c → r ∈ needs c →
    (∃ c', c' ∈ seen ∧ gives c' r = true)
    ∨ ∃ j c', j < i ∧ s !! j = Some c' ∧ gives c' r = true.
Proof.
  revert seen. induction s as [|c0 s IH]; intros seen Hs i c r Hi Hr; [done|].
  simpl in Hs. apply andb_prop in Hs as [Hnow Hlater]. destruct i as [|i]; simpl in Hi.
  - injection Hi as ->. left.
    rewrite forallb_forall in Hnow. apply list_elem_of_In, Hnow in Hr.
    apply existsb_exists in Hr as (c' & Hc' & Hg). exists c'.
    by rewrite list_elem_of_In.
  - destruct (IH _ Hlater i c r Hi Hr) as [(c' & Hc' & Hg)|(j & c' & Hj & Hc' & Hg)].
    + apply elem_of_app in Hc' as [Hc'| ->%list_elem_of_singleton].
      * left. by exists c'.
      * right. exists 0, c0. split; [lia|]. done.
    + right. exists (S j), c'. split; [lia|]. done.
Qed.

Lemma runs_scoped {A R} (needs : Call → list R) (gives : Call → R → bool)
    own s (c : M A) k :
  runs own s c → scoped needs gives [] s = true →
  ∀ i c0 o r, new_log c k !! i = Some (c0, o) → r ∈ needs c0 →
    ∃ j c', j < i ∧ new_log c k !! j = Some (c', None) ∧ gives c' r = true.
Proof.
  intros Hruns Hs i c0 o r Hi Hr.
  pose proof (runs_at _ _ _ _ _ _ _ Hruns Hi) as Hat.
  destruct (scoped_sound needs gives [] s Hs i c0 r Hat Hr)
    as [(c' & Hc' & _)|(j & c' & Hj & Hc' & Hg)]; [by apply elem_of_nil in Hc'|].
  exists j, c'. split; [done|]. split; [|done].
  by eapply runs_before.
Qed.

Lemma gives_name_spec c n : gives_name c n = true → n ∈ binds c.
Proof.
  unfold gives_name. intros (n' & Hin & Heq)%existsb_exists.
  apply String.eqb_eq in Heq as ->. by apply list_elem_of_In.
Qed.

(** X2.  On every path through either notebook, and whatever the library
    does, a call that refers to an imported name (the callable itself, or the
    cleaning function passed by name) is made after an [import] that binds
    that name has returned.  This includes the path that skips to the re-run
    cell. *)
Theorem names_imported_before_use (L : Library) (q : string) (k : Kernel) :
  ∀ run, run ∈ [dense_first_run; dense_rerun; dense_notebook; sparse_notebook] →
    ∀ i c o n,
      new_log (run L q) k !! i = Some (c, o) → n ∈ refers_to c →
      ∃ j module names,
        j < i ∧
        new_log (run L q) k !! j = Some (call_import module names, None) ∧
        n ∈ binds (call_import module names).
Proof.
  intros run Hrun i c o n Hi Hn.
  assert (∃ j c', j < i ∧ new_log (run L q) k !! j = Some (c', None)
                  ∧ gives_name c' n = true) as (j & c' & Hj & Hc' & Hg).
  { repeat (apply elem_of_cons in Hrun as [->|Hrun]).
    - eapply (runs_scoped refers_to gives_name); [apply (dense_first_run_runs L [])| |done..].
      vm_compute; reflexivity.
    - eapply (runs_scoped refers_to gives_name); [apply dense_rerun_runs| |done..].
      vm_compute; reflexivity.
    - eapply (runs_scoped refers_to gives_name); [apply dense_notebook_runs| |done..].
      vm_compute; reflexivity.
    - eapply (runs_scoped refers_to gives_name); [apply (sparse_notebook_runs L [])| |done..].
      vm_compute; reflexivity.
    - by apply elem_of_nil in Hrun. }
  apply gives_name_spec in Hg.
  destruct c'; try by apply elem_of_nil in Hg.
  by exists j, module, names.
Qed.

Lemma names_imported_before_use_witness :
  ∃ j module names,
    j < 10 ∧
    new_log (dense_first_run (Reference toy) "Who is Krishna?") (fresh_kernel laptop) !! j
    = Some (call_import module names, None) ∧
    "FAISSDocumentStore" ∈ binds (call_import module names).
Proof.
  apply (names_imported_before_use (Reference toy) "Who is Krishna?" (fresh_kernel laptop)
           dense_first_run (list_elem_of_here _ _) 10
           (call_FAISSDocumentStore "sqlite:///mahabharata.db" "Flat" true) None
           "FAISSDocumentStore").
  - vm_compute; reflexivity.
  - simpl. apply list_elem_of_here.
Defined.

(** X3.  On every path through either notebook, and whatever the library
    does, a call made on an object or given one (a store, documents, a pre-processor,
    a retriever, a reader, a pipeline, a prediction) comes after a call that
    returned an object of that kind without raising. *)
Theorem objects_built_before_use (L : Library) (q : string) (k : Kernel) :
  ∀ run, run ∈ [dense_first_run; dense_rerun; dense_notebook; sparse_notebook] →
    ∀ i c o x,
      new_log (run L q) k !! i = Some (c, o) → x ∈ takes c →
      ∃ j c',
        j < i ∧ new_log (run L q) k !! j = Some (c', None) ∧ returns c' = Some x.
Proof.
  intros run Hrun i c o x Hi Hx.
  assert (∃ j c', j < i ∧ new_log (run L q) k !! j = Some (c', None)
                  ∧ gives_object c' x = true) as (j & c' & Hj & Hc' & Hg).
  { repeat (apply elem_of_cons in Hrun as [->|Hrun]).
    - eapply (runs_scoped takes gives_object); [apply (dense_first_run_runs L [])| |done..].
      vm_compute; reflexivity.
    - eapply (runs_scoped takes gives_object); [apply dense_rerun_runs| |done..].
      vm_compute; reflexivity.
    - eapply (runs_scoped takes gives_object); [apply dense_notebook_runs| |done..].
      vm_compute; reflexivity.
    - eapply (runs_scoped takes gives_object); [apply (sparse_notebook_runs L [])| |done..].
      vm_compute; reflexivity.
    - by apply elem_of_nil in Hrun. }
  exists j, c'. split; [done|]. split; [done|].
  unfold gives_object in Hg. by apply bool_decide_eq_true in Hg.
Qed.

Lemma objects_built_before_use_witness :
  ∃ j c',
    j < 25 ∧
    new_log (dense_first_run (Reference toy) "Who is Krishna?") (fresh_kernel laptop) !! j
    = Some (c', None) ∧
    returns c' = Some a_pipeline.
Proof.
  apply (objects_built_before_use (Reference toy) "Who is Krishna?" (fresh_kernel laptop)
           dense_first_run (list_elem_of_here _ _) 25
           (call_run "Who is Krishna?" run_params) None a_pipeline).
  - vm_compute; reflexivity.
  - simpl. apply list_elem_of_here.
Defined.

(** ** What a path never calls *)

Lemma runs_never {A} (P : Call → bool) own s (c : M A) k :
  runs own s c → forallb (λ c, negb (P c)) s = true →
  ∀ i c0 o, new_log c k !! i = Some (c0, o) → P c0 = false.
Proof.
  intros Hruns Hs i c0 o Hi.
  pose proof (runs_at _ _ _ _ _ _ _ Hruns Hi) as Hat.
  rewrite forallb_forall in Hs. apply negb_true_iff, Hs, list_elem_of_In.
  by eapply list_elem_of_lookup_2.
Qed.

(** X4.  The path that skips to the re-run cell, whatever the library does, runs
    no shell command and makes no call that builds or changes a store: no
    store constructor, no conversion, pre-processing or writing of documents,
    no update of embeddings, no save.  It loads, builds the retriever and
    the reader, asks and prints. *)
Theorem rerun_path_rebuilds_nothing (L : Library) (q : string) (k : Kernel) :
  ∀ i c o, new_log (dense_rerun L q) k !! i = Some (c, o) → rebuilds c = false.
Proof.
  eapply runs_never; [apply dense_rerun_runs|]. vm_compute; reflexivity.
Qed.

Lemma rerun_path_rebuilds_nothing_witness :
  rebuilds (call_load "mahabharata_faiss" "mahabharata_faiss.json") = false.
Proof.
  apply (rerun_path_rebuilds_nothing (Reference toy) "Who is Krishna?"
           (fresh_kernel hnsw_laptop) 5
           (call_load "mahabharata_faiss" "mahabharata_faiss.json") None).
  vm_compute; reflexivity.
Defined.

(** X5.  The sparse notebook, whatever the library does, never imports [faiss] and
    never calls an operation of dense retrieval or of persistence: no FAISS
    store, no embedding retriever, no update of embeddings, no save, no
    load; documents enter its store through [run_batch] alone. *)
Theorem sparse_notebook_has_no_dense_call (L : Library) (q : string) (k : Kernel) :
  ∀ i c o, new_log (sparse_notebook L q) k !! i = Some (c, o) → dense_only c = false.
Proof.
  eapply runs_never; [apply (sparse_notebook_runs L [])|]. vm_compute; reflexivity.
Qed.

Lemma sparse_notebook_has_no_dense_call_witness :
  dense_only (call_run_batch ["data/Mahabharata/1-18 books combined.txt"]) = false.
Proof.
  apply (sparse_notebook_has_no_dense_call (Reference toy) "Who is Krishna?"
           (fresh_kernel bare_laptop) 11
           (call_run_batch ["data/Mahabharata/1-18 books combined.txt"]) None).
  vm_compute; reflexivity.
Defined.

(** * Runs on the reference library: where they stop, what they repeat *)

Section ReferenceStops.

Variable m : Models.

(** The re-run cell, run after the cells that build and save the store in a
    kernel that sees the files and packages they left (the same kernel, or a
    new session), loads a store that answers as the one that was built. *)
Lemma dense_rerun_cell_after_build q k s rt k1 k2 :
  dense_build (Reference m) k = (Ok (s, rt), k1) →
  disk (world k2) = disk (world k1) →
  site_packages (world k2) = site_packages (world k1) →
  ∃ s' rt' k2',
    dense_rerun_cell (Reference m) k2 = (Ok (s', rt'), k2') ∧
    disk (world k2') = disk (world k1) ∧
    (dense_query (Reference m) rt' q k2').1 = (dense_query (Reference m) rt q k1).1.
Proof.
  intros Hbuild Hdisk Hpkg.
  apply dense_build_Ok in Hbuild
    as (files & _ & -> & _ & _ & Hd1 & Hh1 & Hs1 & Hin & _). simpl in *.
  set (rows := write_rows (chunks m dense_preprocessor
                             (convert m "clean_wiki_text" true files)) ∅) in *.
  set (idx := (λ d, embed m dense_embedding_model (content d)) <$> rows) in *.
  destruct (dense_rerun_cell_saved m k2 idx true rows) as (k2' & Hcell & Hd2 & Hh2 & Hs2).
  { rewrite Hpkg, Hs1. exact Hin. }
  { by rewrite Hdisk, Hd1, lookup_insert_ne, lookup_insert_eq. }
  { by rewrite Hdisk, Hd1, lookup_insert_eq. }
  { by rewrite Hdisk, Hd1, lookup_insert_ne, lookup_insert_ne, lookup_insert_eq. }
  { unfold idx. by rewrite map_size_fmap. }
  assert (disk (world k2') = disk (world k1)) as Hd by congruence.
  eexists _, _, k2'. split; [exact Hcell|]. split; [exact Hd|].
  rewrite !dense_query_result; [| by rewrite Hs1 | by rewrite Hs2, Hpkg, Hs1 ].
  unfold answer_to. rewrite !run_nodes_graph. simpl.
  rewrite (retrieve_embedding_ext m _ s _ _ _ (world k2') (world k1)); [done| |done].
  by rewrite Hh2, Hh1, !lookup_insert_eq.
Qed.

Lemma pip_list_grep_spec pat w :
  ref_bash [pip_list_grep pat] w
  = (if bool_decide (some_matches pat w)
     then Ok tt else Err (Raised "CalledProcessError"), w).
Proof.
  unfold ref_bash. simpl.
  destruct (existsb _ _) eqn:Hex.
  - apply existsb_exists in Hex as (p & Hp & Hm%bool_decide_eq_true).
    apply list_elem_of_In, elem_of_elements in Hp.
    by rewrite bool_decide_true by by exists p.
  - rewrite bool_decide_false; [done|]. intros (p & Hp & Hm).
    apply not_true_iff_false in Hex. apply Hex, existsb_exists. exists p.
    split; [by apply list_elem_of_In, elem_of_elements | by apply bool_decide_eq_true].
Qed.

(** Installing a package whose name does not match changes no check. *)
Lemma some_matches_install pat p w :
  String.index 0 pat p = None →
  some_matches pat (with_site_packages ({[ p ]} ∪ site_packages w) w) ↔ some_matches pat w.
Proof.
  intros Hp. unfold some_matches. simpl. split.
  - intros (p' & [->%elem_of_singleton|Hin]%elem_of_union & Hm).
    + rewrite Hp in Hm. by destruct Hm.
    + by exists p'.
  - intros (p' & Hin & Hm). exists p'. split; [set_solver|done].
Qed.

Lemma logging_cell_Reference k :
  logging_cell (Reference m) k
  = (Ok tt, {| trace := trace k ++ succeeded logging_script; world := world k |}).
Proof. destruct k as [tr w]. unfold logging_cell, import, logging_basicConfig, logging_setLevel, call.
  unfold mbind, M_bind, bind. simpl. by rewrite <- !app_assoc.
Qed.

Lemma dense_environment_stops k :
  ¬ some_matches "faiss" (world k) →
  ∃ k',
    dense_environment (Reference m) k = (Err (Raised "CalledProcessError"), k') ∧
    trace k' = trace k
      ++ succeeded (take 4 dense_environment_script)
      ++ [(call_bash [pip_list_grep "faiss"], Some (Raised "CalledProcessError"))] ∧
    disk (world k') = disk (world k) ∧ heap (world k') = heap (world k).
Proof.
  intros Hnone. unfold dense_environment, dense_install_cell, dense_check_faiss_cell.
  eexists. erewrite bind_Ok by reflexivity.
  erewrite bind_Ok by apply logging_cell_Reference.
  erewrite bind_Err.
  2: { unfold bash, call. cbn [lib_bash Reference world].
       rewrite pip_list_grep_spec, bool_decide_false; [reflexivity|].
       by rewrite !some_matches_install. }
  split; [done|]. split; [|done]. cbn [trace]. by rewrite <- !app_assoc.
Qed.

End ReferenceStops.

(** ** Run All of the dense notebook *)

(** X6.  Run All.  On the reference library, running every code cell of the
    dense notebook from top to bottom, the re-run cell included, ends as the
    first run the notebook directs does (the same prediction, or the same
    exception), and leaves the same files. *)
Theorem run_all_ends_as_the_first_run (m : Models) (q : string) (k : Kernel) :
  (dense_notebook (Reference m) q k).1 = (dense_first_run (Reference m) q k).1
  ∧ disk (world (dense_notebook (Reference m) q k).2)
    = disk (world (dense_first_run (Reference m) q k).2).
Proof.
  unfold dense_notebook, dense_first_run.
  destruct (dense_environment (Reference m) k) as [[a|e] k0] eqn:Henv.
  2: { by rewrite !(bind_Err _ _ _ _ _ Henv). }
  rewrite !(bind_Ok _ _ _ _ _ Henv).
  destruct (dense_build (Reference m) k0) as [[[s rt]|e] k1] eqn:Hbuild.
  2: { by rewrite !(bind_Err _ _ _ _ _ Hbuild). }
  rewrite !(bind_Ok _ _ _ _ _ Hbuild).
  destruct (dense_rerun_cell_after_build m q k0 s rt k1 k1 Hbuild eq_refl eq_refl)
    as (s' & rt' & k2 & Hcell & Hd & Hq).
  rewrite (bind_Ok _ _ _ _ _ Hcell). split; [exact Hq|].
  destruct (query_keeps (dense_query (Reference m) rt' q) m rt' q k2) as [-> _]; [by left|].
  destruct (query_keeps (dense_query (Reference m) rt q) m rt q k1) as [-> _]; [by left|].
  exact Hd.
Qed.

(** ** The check cells *)

(** X7.  The FAISS check.  "The above cell will give an error if FAISS is not
    installed": where no installed package has faiss in its name, a run of
    the dense notebook from the top (the first run, or every cell) stops at
    the check cell with the error of the shell command; only the install
    cell and the logging cell ran before it, and no file was written and no
    store built. *)
Theorem faiss_check_stops_the_run (m : Models)
    (run : Library → string → M Prediction) (q : string) (k : Kernel) :
  run ∈ [dense_first_run; dense_notebook] →
  ¬ some_matches "faiss" (world k) →
  (run (Reference m) q k).1 = Err (Raised "CalledProcessError")
  ∧ new_log (run (Reference m) q) k
    = succeeded (take 4 dense_environment_script)
      ++ [(call_bash [pip_list_grep "faiss"], Some (Raised "CalledProcessError"))]
  ∧ disk (world (run (Reference m) q k).2) = disk (world k)
  ∧ heap (world (run (Reference m) q k).2) = heap (world k).
Proof.
  intros Hrun Hnone. destruct (dense_environment_stops m k Hnone) as (k' & Henv & Htr & Hd & Hh).
  unfold new_log.
  assert (run (Reference m) q k = (Err (Raised "CalledProcessError"), k')) as ->.
  { apply elem_of_cons in Hrun as [-> | Hrun];
      [| apply list_elem_of_singleton in Hrun as -> ].
    - unfold dense_first_run. by rewrite (bind_Err _ _ _ _ _ Henv).
    - unfold dense_notebook. by rewrite (bind_Err _ _ _ _ _ Henv). }
  cbn [fst snd]. rewrite Htr, drop_app_length. done.
Qed.

Lemma faiss_check_stops_the_run_witness :
  (dense_notebook (Reference toy) "Who is Krishna?" (fresh_kernel bare_laptop)).1
  = Err (Raised "CalledProcessError")
  ∧ disk (world (dense_notebook (Reference toy) "Who is Krishna?"
                   (fresh_kernel bare_laptop)).2) = corpus.
Proof.
  destruct (faiss_check_stops_the_run toy dense_notebook "Who is Krishna?"
              (fresh_kernel bare_laptop))
    as (Hr & _ & Hd & _).
  - apply list_elem_of_further, list_elem_of_here.
  - intros (p & Hp & _). simpl in Hp. by apply not_elem_of_empty in Hp.
  - exact (conj Hr Hd).
Defined.

(** ** A later session *)

(** X10.  The round trip of the whole notebook.  On the reference library,
    after a first run of the dense notebook has returned a prediction, the
    path that skips to the re-run cell, taken in any kernel that sees the
    files and packages the first run left (a new session on the same machine
    has no store object of the first), returns the same prediction for the
    same question. *)
Theorem rerun_answers_as_the_first_run (m : Models) (q : string)
    (k k' k2 : Kernel) (p : Prediction) :
  dense_first_run (Reference m) q k = (Ok p, k') →
  disk (world k2) = disk (world k') →
  site_packages (world k2) = site_packages (world k') →
  (dense_rerun (Reference m) q k2).1 = Ok p.
Proof.
  intros Hrun Hdisk Hpkg.
  apply dense_first_run_Ok in Hrun as (k0 & s & rt & k1 & _ & _ & Hbuild & Hq).
  destruct (query_Ok m (dense_query (Reference m) rt q) rt q k1 p k') as [_ Hkept];
    [by left | exact Hq |].
  destruct Hkept as (Hd & _ & Hs).
  unfold dense_rerun. rewrite (bind_Ok _ _ _ _ _ (logging_cell_Reference m k2)).
  destruct (dense_rerun_cell_after_build m q k0 s rt k1
              {| trace := trace k2 ++ succeeded logging_script; world := world k2 |} Hbuild)
    as (s' & rt' & k2' & Hcell & _ & Hsame); [simpl; congruence..|].
  rewrite (bind_Ok _ _ _ _ _ Hcell). cbv beta iota. by rewrite Hsame, Hq.
Qed.

Lemma rerun_answers_as_the_first_run_witness :
  (dense_rerun (Reference toy) "Who is Krishna?"
     (fresh_kernel
        (with_heap ∅ (world (dense_first_run (Reference toy) "Who is Krishna?"
                              (fresh_kernel laptop)).2)))).1
  = (dense_first_run (Reference toy) "Who is Krishna?" (fresh_kernel laptop)).1.
Proof.
  destruct (dense_first_run (Reference toy) "Who is Krishna?" (fresh_kernel laptop))
    as [[p|e] k'] eqn:Hrun.
  - apply (rerun_answers_as_the_first_run toy "Who is Krishna?" (fresh_kernel laptop) k'
             (fresh_kernel (with_heap ∅ (world k'))) p Hrun); reflexivity.
  - vm_compute in Hrun. discriminate Hrun.
Defined.
